(** * Kridha scoring engine: a shallow embedding and its verified properties

    The development follows the Python package [engine]:
    - [schemas.py]: enums, [BodyProfile], [GarmentProfile], result records,
      [clamp], [score_to_ten], [rescale_display];
    - [rules_data.py]: the static tables;
    - [fabric_gate.py]: fabric resolution and the six gate rules;
    - [body_garment_translator.py]: hemline, sleeve and waistline geometry;
    - [garment_types.py]: classification, scorer routing and the four
      type-specific scorers;
    - [kridha_engine.py]: the sixteen principle scorers and [score_garment];
    - [context_modifiers.py]: the context adjustments of layer 6;
    - [goal_scorers.py]: the goal verdicts of layer 4.

    Numbers.  Python floats are modelled as exact rationals ([Q]); every
    decimal literal of the source is the same decimal here, [math.pi] is the
    rational value of the double that Python uses, and [round(x, n)] is
    round-half-even on the exact value.  Comparisons are therefore the exact
    ones; no property below depends on a last-bit rounding of a float.

    Text.  A reasoning string is kept as the scorer writes it, because the
    pipeline decides applicability by looking for "n/a" in it.  The rendering
    of a number inside an f-string ([{x:+.2f}] and the like) is written [#]:
    such a rendering is made of digits, a sign and a point, so it never takes
    part in an occurrence of "n/a". *)

From Stdlib Require Import QArith Qminmax ZArith String Ascii List Bool Lia Lqa.
From Stdlib Require Import Permutation.
Import ListNotations.

Local Open Scope string_scope.
Local Open Scope Q_scope.

(* ================================================================ *)
(** ** Numbers *)
(* ================================================================ *)

Module Num.

Definition leb (x y : Q) : bool := Qle_bool x y.
Definition ltb (x y : Q) : bool := negb (Qle_bool y x).
Definition eqb (x y : Q) : bool := Qeq_bool x y.

(** Python's two-argument [max] and [min]: [max(a, b)] returns [b] only when
    [b > a], [min(a, b)] returns [b] only when [b < a]. *)
Definition max (a b : Q) : Q := if ltb a b then b else a.
Definition min (a b : Q) : Q := if ltb b a then b else a.

Definition abs (x : Q) : Q := if ltb x 0 then - x else x.

(** [math.pi]: the double 0x400921FB54442D18. *)
Definition math_pi : Q := 884279719003555 # 281474976710656.

(** [sum(...)] over a list, starting from 0. *)
Definition sum (l : list Q) : Q := fold_left Qplus l 0.

(** [round(x, n)]: nearest multiple of 10^-n, ties to the even one. *)
Definition round_half_even (x : Q) : Z :=
  let n := Qnum x in
  let d := Zpos (Qden x) in
  let q := (n / d)%Z in
  let r := (n mod d)%Z in
  match (2 * r ?= d)%Z with
  | Lt => q
  | Gt => (q + 1)%Z
  | Eq => if Z.even q then q else (q + 1)%Z
  end.

Definition round_nd (n : nat) (x : Q) : Q :=
  let p := Pos.of_nat (Nat.pow 10 n) in
  round_half_even (x * (Zpos p # 1)) # p.

End Num.

Notation "x <? y" := (Num.ltb x y) (at level 70, no associativity) : Q_scope.
Notation "x <=? y" := (Num.leb x y) (at level 70, no associativity) : Q_scope.
Notation "x >? y" := (Num.ltb y x) (at level 70, no associativity) : Q_scope.
Notation "x >=? y" := (Num.leb y x) (at level 70, no associativity) : Q_scope.
Notation "x =? y" := (Num.eqb x y) (at level 70, no associativity) : Q_scope.

(* ================================================================ *)
(** ** Text *)
(* ================================================================ *)

Module Text.

(** [str.lower()] on ASCII letters. *)
Definition lower_ascii (c : ascii) : ascii :=
  let n := nat_of_ascii c in
  if (Nat.leb 65 n && Nat.leb n 90)%bool then ascii_of_nat (n + 32) else c.

Fixpoint lower (s : string) : string :=
  match s with
  | EmptyString => EmptyString
  | String c r => String (lower_ascii c) (lower r)
  end.

(** [needle in hay]. *)
Fixpoint contains (needle hay : string) : bool :=
  if String.prefix needle hay then true
  else match hay with
       | EmptyString => false
       | String _ r => contains needle r
       end.

(** [sep.join(parts)]. *)
Fixpoint join (sep : string) (parts : list string) : string :=
  match parts with
  | [] => EmptyString
  | [p] => p
  | p :: rest => p ++ sep ++ join sep rest
  end.

(** Python truthiness of an [Optional[str]]: [None] and the empty string are
    falsy. *)
Definition truthy (o : option string) : bool :=
  match o with
  | Some s => negb (String.eqb s EmptyString)
  | None => false
  end.

(** [a or b] for an [Optional[str]] [a] and a string [b]. *)
Definition or_else (o : option string) (d : string) : string :=
  match o with
  | Some s => if String.eqb s EmptyString then d else s
  | None => d
  end.

(** [x == "lit"] for an [Optional[str]] [x]. *)
Definition opt_eqb (o : option string) (lit : string) : bool :=
  match o with
  | Some s => String.eqb s lit
  | None => false
  end.

(** [x in (a, b, ...)] for strings. *)
Definition mem (s : string) (l : list string) : bool :=
  existsb (String.eqb s) l.

Definition opt_mem (o : option string) (l : list string) : bool :=
  match o with
  | Some s => mem s l
  | None => false
  end.

(** The rendering of a formatted number. *)
Definition num : string := "#".

(** The one-character string holding a double quote. *)
Definition dq : string := String (ascii_of_nat 34) EmptyString.

End Text.

(** [dict.get(key, default)] on a table with string keys. *)
Fixpoint dict_get {A : Type} (d : list (string * A)) (k : string) (default : A) : A :=
  match d with
  | [] => default
  | (k', v) :: rest => if String.eqb k k' then v else dict_get rest k default
  end.

Fixpoint dict_find {A : Type} (d : list (string * A)) (k : string) : option A :=
  match d with
  | [] => None
  | (k', v) :: rest => if String.eqb k k' then Some v else dict_find rest k
  end.

(* ================================================================ *)
(** ** schemas.py: enums *)
(* ================================================================ *)

Inductive BodyShape := PEAR | APPLE | HOURGLASS | RECTANGLE | INVERTED_TRIANGLE.

Inductive StylingGoal :=
  | LOOK_TALLER | HIGHLIGHT_WAIST | HIDE_MIDSECTION | SLIM_HIPS
  | LOOK_PROPORTIONAL | MINIMIZE_ARMS
  | SLIMMING | CONCEALMENT | EMPHASIS | BALANCE.

Inductive SkinUndertone := WARM | COOL | NEUTRAL.

Inductive FabricConstruction := WOVEN | KNIT | KNIT_RIB | KNIT_DOUBLE | KNIT_JERSEY.

Inductive SurfaceFinish :=
  | DEEP_MATTE | MATTE | SUBTLE_SHEEN | MODERATE_SHEEN
  | HIGH_SHINE | MAXIMUM_SHINE | CRUSHED.

Inductive Silhouette :=
  | FITTED | SEMI_FITTED | A_LINE | SIL_EMPIRE | SIL_WRAP | SHIFT
  | PEPLUM | FIT_AND_FLARE | OVERSIZED | ARCHITECTURAL.

Inductive SleeveType :=
  | SLEEVELESS | CAP | SHORT | THREE_QUARTER | LONG | RAGLAN
  | DOLMAN | PUFF | FLUTTER | BELL | SET_IN.

Inductive NecklineType :=
  | V_NECK | DEEP_V | SCOOP | CREW | BOAT | SQUARE | OFF_SHOULDER
  | HALTER | COWL | TURTLENECK | WRAP.

Inductive GarmentCategory :=
  | DRESS | TOP | BOTTOM_PANTS | BOTTOM_SHORTS | SKIRT | JUMPSUIT | ROMPER
  | JACKET | COAT | SWEATSHIRT | CARDIGAN | VEST | BODYSUIT
  | LOUNGEWEAR | ACTIVEWEAR | SAREE | SALWAR_KAMEEZ | LEHENGA.

Inductive GarmentLayer := BASE | MID | OUTER.

Inductive TopHemBehavior :=
  | TUCKED | HALF_TUCKED | UNTUCKED_AT_HIP | UNTUCKED_BELOW_HIP
  | CROPPED | HEM_BODYSUIT.

Inductive BrandTier := LUXURY | PREMIUM | MID_MARKET | MASS_MARKET | FAST_FASHION.

Inductive WearContext := OFFICE_SEATED | CASUAL_ACTIVE | FORMAL_STANDING | GENERAL.

Inductive Climate := HOT_HUMID | HOT_DRY | TEMPERATE | COLD.

Scheme Equality for BodyShape.
Scheme Equality for StylingGoal.
Scheme Equality for SkinUndertone.
Scheme Equality for Silhouette.
Scheme Equality for SleeveType.
Scheme Equality for NecklineType.
Scheme Equality for GarmentCategory.
Scheme Equality for TopHemBehavior.

(** The [.value] of the enums whose value the engine reads. *)
Definition construction_value (c : FabricConstruction) : string :=
  match c with
  | WOVEN => "woven" | KNIT => "knit" | KNIT_RIB => "knit_rib"
  | KNIT_DOUBLE => "knit_double" | KNIT_JERSEY => "knit_jersey"
  end.

Definition surface_value (s : SurfaceFinish) : string :=
  match s with
  | DEEP_MATTE => "deep_matte" | MATTE => "matte"
  | SUBTLE_SHEEN => "subtle_sheen" | MODERATE_SHEEN => "moderate_sheen"
  | HIGH_SHINE => "high_shine" | MAXIMUM_SHINE => "maximum_shine"
  | CRUSHED => "crushed"
  end.

Definition neckline_value (n : NecklineType) : string :=
  match n with
  | V_NECK => "v_neck" | DEEP_V => "deep_v" | SCOOP => "scoop"
  | CREW => "crew" | BOAT => "boat" | SQUARE => "square"
  | OFF_SHOULDER => "off_shoulder" | HALTER => "halter" | COWL => "cowl"
  | TURTLENECK => "turtleneck" | WRAP => "wrap"
  end.

Definition category_value (c : GarmentCategory) : string :=
  match c with
  | DRESS => "dress" | TOP => "top" | BOTTOM_PANTS => "bottom_pants"
  | BOTTOM_SHORTS => "bottom_shorts" | SKIRT => "skirt"
  | JUMPSUIT => "jumpsuit" | ROMPER => "romper" | JACKET => "jacket"
  | COAT => "coat" | SWEATSHIRT => "sweatshirt" | CARDIGAN => "cardigan"
  | VEST => "vest" | BODYSUIT => "bodysuit" | LOUNGEWEAR => "loungewear"
  | ACTIVEWEAR => "activewear" | SAREE => "saree"
  | SALWAR_KAMEEZ => "salwar_kameez" | LEHENGA => "lehenga"
  end.

Definition has_goal_in (goal : StylingGoal) (goals : list StylingGoal) : bool :=
  existsb (StylingGoal_beq goal) goals.

(* ================================================================ *)
(** ** schemas.py: input records *)
(* ================================================================ *)

(** [BodyProfile]: measurements in inches. *)
Record BodyProfile := {
  height : Q;
  bust : Q;
  underbust : Q;
  waist : Q;
  hip : Q;
  shoulder_width : Q;
  neck_length : Q;
  neck_circumference : Q;
  torso_length : Q;
  leg_length_visual : Q;
  inseam : Q;
  arm_length : Q;
  c_upper_arm_max : Q;
  c_upper_arm_max_position : Q;
  c_elbow : Q;
  c_forearm_max : Q;
  c_forearm_min : Q;
  c_forearm_min_position : Q;
  c_wrist : Q;
  h_knee : Q;
  h_calf_max : Q;
  h_calf_min : Q;
  h_ankle : Q;
  c_thigh_max : Q;
  c_calf_max : Q;
  c_calf_min : Q;
  c_ankle : Q;
  bust_projection : Q;
  belly_projection : Q;
  hip_projection : Q;
  body_composition : string;
  tissue_firmness : Q;
  skin_tone_L : Q;
  contour_smoothness : Q;
  skin_undertone : SkinUndertone;
  skin_darkness : Q;
  belly_zone : Q;
  hip_zone : Q;
  upper_arm_zone : Q;
  bust_zone : Q;
  is_athletic : bool;
  styling_goals : list StylingGoal;
  style_philosophy : string;
  climate : Climate;
  wear_context : WearContext;
  goal_bust : option string;
  goal_waist : option string;
  goal_belly : option string;
  goal_hip : option string;
  goal_arm : option string;
  goal_neck : option string;
  goal_legs : option string;
  goal_shoulders : option string
}.

(** The dataclass defaults: [BodyProfile()]. *)
Definition default_body : BodyProfile := {|
  height := 66;
  bust := 36;
  underbust := 32;
  waist := 30;
  hip := 38;
  shoulder_width := 15.5;
  neck_length := 3.5;
  neck_circumference := 13;
  torso_length := 15;
  leg_length_visual := 41;
  inseam := 30;
  arm_length := 23;
  c_upper_arm_max := 12;
  c_upper_arm_max_position := 3;
  c_elbow := 10;
  c_forearm_max := 9.5;
  c_forearm_min := 8.5;
  c_forearm_min_position := 17;
  c_wrist := 6.5;
  h_knee := 18;
  h_calf_max := 14;
  h_calf_min := 10;
  h_ankle := 4;
  c_thigh_max := 22;
  c_calf_max := 14.5;
  c_calf_min := 9;
  c_ankle := 8.5;
  bust_projection := 2;
  belly_projection := 1;
  hip_projection := 1.5;
  body_composition := "average";
  tissue_firmness := 0.5;
  skin_tone_L := 50;
  contour_smoothness := 0.5;
  skin_undertone := NEUTRAL;
  skin_darkness := 0.5;
  belly_zone := 0;
  hip_zone := 0;
  upper_arm_zone := 0;
  bust_zone := 0;
  is_athletic := false;
  styling_goals := [];
  style_philosophy := "balance";
  climate := TEMPERATE;
  wear_context := GENERAL;
  goal_bust := None;
  goal_waist := None;
  goal_belly := None;
  goal_hip := None;
  goal_arm := None;
  goal_neck := None;
  goal_legs := None;
  goal_shoulders := None
|}.


(** [GarmentProfile]: the garment under evaluation. *)
Record GarmentProfile := {
  primary_fiber : string;
  primary_fiber_pct : Q;
  secondary_fiber : option string;
  secondary_fiber_pct : Q;
  elastane_pct : Q;
  fabric_name : option string;
  construction : FabricConstruction;
  gsm_estimated : Q;
  surface : SurfaceFinish;
  surface_friction : Q;
  drape : Q;
  category : GarmentCategory;
  silhouette : Silhouette;
  expansion_rate : Q;
  silhouette_label : string;
  neckline : NecklineType;
  v_depth_cm : Q;
  neckline_depth : option Q;
  sleeve_type : SleeveType;
  sleeve_length_inches : option Q;
  sleeve_ease_inches : Q;
  rise_cm : option Q;
  waistband_width_cm : Q;
  waistband_stretch_pct : Q;
  waist_position : string;
  has_waist_definition : bool;
  hem_position : string;
  garment_length_inches : option Q;
  covers_waist : bool;
  covers_hips : bool;
  zone : string;
  color_lightness : Q;
  color_saturation : Q;
  color_temperature : string;
  is_monochrome_outfit : bool;
  has_pattern : bool;
  pattern_type : option string;
  has_horizontal_stripes : bool;
  has_vertical_stripes : bool;
  stripe_width_cm : Q;
  stripe_spacing_cm : Q;
  pattern_scale : string;
  pattern_scale_inches : Q;
  pattern_contrast : Q;
  has_contrasting_belt : bool;
  has_tonal_belt : bool;
  belt_width_cm : Q;
  is_structured : bool;
  has_darts : bool;
  has_lining : bool;
  is_faux_wrap : bool;
  garment_ease_inches : Q;
  brand_tier : BrandTier;
  uses_diverse_model : bool;
  model_estimated_size : Z;
  garment_layer : GarmentLayer;
  title : option string;
  fit_category : option string;
  top_hem_length : option string;
  top_hem_behavior : option TopHemBehavior;
  rise : option string;
  leg_shape : option string;
  leg_opening_width : option string;
  bottom_length : option string;
  jacket_closure : option string;
  jacket_length : option string;
  shoulder_structure : option string;
  skirt_construction : option string
}.

(** The dataclass defaults: [GarmentProfile()]. *)
Definition default_garment : GarmentProfile := {|
  primary_fiber := "polyester";
  primary_fiber_pct := 100;
  secondary_fiber := None;
  secondary_fiber_pct := 0;
  elastane_pct := 0;
  fabric_name := None;
  construction := WOVEN;
  gsm_estimated := 150;
  surface := MATTE;
  surface_friction := 0.5;
  drape := 5;
  category := DRESS;
  silhouette := SEMI_FITTED;
  expansion_rate := 0.05;
  silhouette_label := "fitted";
  neckline := CREW;
  v_depth_cm := 0;
  neckline_depth := None;
  sleeve_type := SET_IN;
  sleeve_length_inches := None;
  sleeve_ease_inches := 1;
  rise_cm := None;
  waistband_width_cm := 3;
  waistband_stretch_pct := 5;
  waist_position := "natural";
  has_waist_definition := false;
  hem_position := "knee";
  garment_length_inches := None;
  covers_waist := true;
  covers_hips := true;
  zone := "torso";
  color_lightness := 0.5;
  color_saturation := 0.5;
  color_temperature := "neutral";
  is_monochrome_outfit := false;
  has_pattern := false;
  pattern_type := None;
  has_horizontal_stripes := false;
  has_vertical_stripes := false;
  stripe_width_cm := 0;
  stripe_spacing_cm := 0;
  pattern_scale := "none";
  pattern_scale_inches := 0;
  pattern_contrast := 0.5;
  has_contrasting_belt := false;
  has_tonal_belt := false;
  belt_width_cm := 0;
  is_structured := false;
  has_darts := false;
  has_lining := false;
  is_faux_wrap := false;
  garment_ease_inches := 3;
  brand_tier := MID_MARKET;
  uses_diverse_model := false;
  model_estimated_size := 2%Z;
  garment_layer := BASE;
  title := None;
  fit_category := None;
  top_hem_length := None;
  top_hem_behavior := None;
  rise := None;
  leg_shape := None;
  leg_opening_width := None;
  bottom_length := None;
  jacket_closure := None;
  jacket_length := None;
  shoulder_structure := None;
  skirt_construction := None
|}.


(** The one assignment of the pipeline: [garment.category = category]. *)
Definition set_category (v : GarmentCategory) (g : GarmentProfile) : GarmentProfile :=
  {| primary_fiber := primary_fiber g; primary_fiber_pct := primary_fiber_pct g;
     secondary_fiber := secondary_fiber g; secondary_fiber_pct := secondary_fiber_pct g;
     elastane_pct := elastane_pct g; fabric_name := fabric_name g;
     construction := construction g; gsm_estimated := gsm_estimated g;
     surface := surface g; surface_friction := surface_friction g; drape := drape g;
     category := v; silhouette := silhouette g; expansion_rate := expansion_rate g;
     silhouette_label := silhouette_label g; neckline := neckline g;
     v_depth_cm := v_depth_cm g; neckline_depth := neckline_depth g;
     sleeve_type := sleeve_type g; sleeve_length_inches := sleeve_length_inches g;
     sleeve_ease_inches := sleeve_ease_inches g; rise_cm := rise_cm g;
     waistband_width_cm := waistband_width_cm g;
     waistband_stretch_pct := waistband_stretch_pct g; waist_position := waist_position g;
     has_waist_definition := has_waist_definition g; hem_position := hem_position g;
     garment_length_inches := garment_length_inches g; covers_waist := covers_waist g;
     covers_hips := covers_hips g; zone := zone g; color_lightness := color_lightness g;
     color_saturation := color_saturation g; color_temperature := color_temperature g;
     is_monochrome_outfit := is_monochrome_outfit g; has_pattern := has_pattern g;
     pattern_type := pattern_type g; has_horizontal_stripes := has_horizontal_stripes g;
     has_vertical_stripes := has_vertical_stripes g; stripe_width_cm := stripe_width_cm g;
     stripe_spacing_cm := stripe_spacing_cm g; pattern_scale := pattern_scale g;
     pattern_scale_inches := pattern_scale_inches g;
     pattern_contrast := pattern_contrast g;
     has_contrasting_belt := has_contrasting_belt g; has_tonal_belt := has_tonal_belt g;
     belt_width_cm := belt_width_cm g; is_structured := is_structured g;
     has_darts := has_darts g; has_lining := has_lining g; is_faux_wrap := is_faux_wrap g;
     garment_ease_inches := garment_ease_inches g; brand_tier := brand_tier g;
     uses_diverse_model := uses_diverse_model g;
     model_estimated_size := model_estimated_size g; garment_layer := garment_layer g;
     title := title g; fit_category := fit_category g; top_hem_length := top_hem_length g;
     top_hem_behavior := top_hem_behavior g; rise := rise g; leg_shape := leg_shape g;
     leg_opening_width := leg_opening_width g; bottom_length := bottom_length g;
     jacket_closure := jacket_closure g; jacket_length := jacket_length g;
     shoulder_structure := shoulder_structure g;
     skirt_construction := skirt_construction g |}.


(* ================================================================ *)
(** ** schemas.py: derived properties *)
(* ================================================================ *)

Definition has_goal (b : BodyProfile) (goal : StylingGoal) : bool :=
  has_goal_in goal (styling_goals b).

Definition whr (b : BodyProfile) : Q :=
  if hip b >? 0 then waist b / hip b else 0.80.

Definition bust_differential (b : BodyProfile) : Q := bust b - underbust b.

Definition shoulder_hip_diff (b : BodyProfile) : Q :=
  shoulder_width b - hip b / Num.math_pi.

Definition leg_ratio (b : BodyProfile) : Q :=
  if height b >? 0 then leg_length_visual b / height b else 0.62.

Definition torso_leg_ratio (b : BodyProfile) : Q :=
  if leg_length_visual b >? 0 then torso_length b / leg_length_visual b else 0.37.

Definition is_petite (b : BodyProfile) : bool := height b <? 63.
Definition is_tall (b : BodyProfile) : bool := height b >? 68.
Definition is_plus_size (b : BodyProfile) : bool := (bust b >? 42) || (hip b >? 44).

Definition body_shape (b : BodyProfile) : BodyShape :=
  let bwd := bust b - waist b in
  let hwd := hip b - waist b in
  let shr := if hip b >? 0 then shoulder_width b / (hip b / Num.math_pi) else 1 in
  if (bwd >=? 7) && (hwd >=? 7) && (0.85 <=? shr) && (shr <=? 1.15) then HOURGLASS
  else if (hwd >=? 7) && (hwd >? bwd + 2) && (shr <? 1.05) then PEAR
  else if (bwd <? 5) && (hwd <? 5) && (whr b >? 0.85) then APPLE
  else if shoulder_hip_diff b >? 3 then INVERTED_TRIANGLE
  else RECTANGLE.

Definition torso_score (b : BodyProfile) : Q :=
  let ratio := if height b >? 0 then torso_length b / height b else 0.23 in
  (ratio - 0.23) / 0.02.

Definition calf_prominence (b : BodyProfile) : Q :=
  if c_calf_min b >? 0 then c_calf_max b / c_calf_min b else 1.

Definition arm_prominence_combined (b : BodyProfile) : Q :=
  if (c_wrist b <=? 0) || (c_forearm_min b <=? 0) then 1.5
  else
    let prominence_ratio := c_upper_arm_max b / c_wrist b in
    let bulge_factor := c_upper_arm_max b / c_forearm_min b in
    (prominence_ratio + bulge_factor) / 2.

Definition is_shape (b : BodyProfile) (s : BodyShape) : bool :=
  BodyShape_beq (body_shape b) s.

Definition is_dark (g : GarmentProfile) : bool := color_lightness g <? 0.25.

Definition sheen_index (g : GarmentProfile) : Q :=
  match surface g with
  | DEEP_MATTE => 0.00
  | MATTE => 0.10
  | SUBTLE_SHEEN => 0.25
  | MODERATE_SHEEN => 0.50
  | HIGH_SHINE => 0.75
  | MAXIMUM_SHINE => 1.00
  | CRUSHED => 0.35
  end.

Definition drape_coefficient (g : GarmentProfile) : Q := drape g * 10.

Definition cling_risk (g : GarmentProfile) : Q :=
  let stretch := elastane_pct g *
    match construction g with
    | WOVEN => 1.6 | KNIT => 4.0 | KNIT_RIB => 5.5
    | KNIT_DOUBLE => 3.5 | KNIT_JERSEY => 4.0
    end in
  let gsm_factor := Num.max 0 (1 - gsm_estimated g / 300) in
  let friction_factor := Num.max 0 (1 - surface_friction g) in
  Num.min 1 ((stretch / 20 + gsm_factor + friction_factor) / 3).

(* ================================================================ *)
(** ** schemas.py: result records and utilities *)
(* ================================================================ *)

Record PrincipleResult := {
  pr_name : string;
  pr_score : Q;
  pr_reasoning : string;
  pr_weight : Q;
  pr_applicable : bool;
  pr_confidence : Q
}.

Definition set_weight (w : Q) (r : PrincipleResult) : PrincipleResult :=
  {| pr_name := pr_name r; pr_score := pr_score r; pr_reasoning := pr_reasoning r;
     pr_weight := w; pr_applicable := pr_applicable r;
     pr_confidence := pr_confidence r |}.

Record ZoneScore := {
  zs_zone : string;
  zs_score : Q;
  zs_flags : list string
}.

Record ExceptionTriggered := {
  ex_exception_id : string;
  ex_rule_overridden : string;
  ex_reason : string;
  ex_confidence : Q
}.

Record Fix := {
  fix_what_to_change : string;
  fix_expected_improvement : Q;
  fix_priority : Z
}.

(** [ScoreResult].  The fields [goal_verdicts], [body_adjusted],
    [reasoning_chain], [layer_modifications] and [styling_notes] are written
    by the pipeline and read by nothing inside it; they are left out. *)
Record ScoreResult := {
  sr_overall_score : Q;
  sr_composite_raw : Q;
  sr_confidence : Q;
  sr_principle_scores : list PrincipleResult;
  sr_zone_scores : list ZoneScore;
  sr_exceptions : list ExceptionTriggered;
  sr_fixes : list Fix
}.

Definition clamp3 (v lo hi : Q) : Q := Num.max lo (Num.min hi v).

(** [clamp(v)] with the default bounds -1 and 1. *)
Definition clamp (v : Q) : Q := clamp3 v (-1) 1.

Definition score_to_ten (raw : Q) : Q := clamp3 raw (-1) 1 * 5 + 5.

Definition _RESCALE_BREAKPOINTS : list (Q * Q * Q * Q) :=
  [ (0.0, 3.5, 0.0, 0.5);
    (3.5, 4.0, 0.5, 1.0);
    (4.0, 4.4, 1.0, 4.0);
    (4.4, 5.0, 4.0, 5.5);
    (5.0, 5.5, 5.5, 7.0);
    (5.5, 5.8, 7.0, 8.0);
    (5.8, 6.3, 8.0, 9.5);
    (6.3, 10.0, 9.5, 10.0) ].

Fixpoint rescale_in (segments : list (Q * Q * Q * Q)) (raw_ten : Q) : Q :=
  match segments with
  | [] => 10
  | (raw_lo, raw_hi, disp_lo, disp_hi) :: rest =>
      if raw_ten <=? raw_hi then
        if raw_hi =? raw_lo then disp_lo
        else
          let t := (raw_ten - raw_lo) / (raw_hi - raw_lo) in
          disp_lo + t * (disp_hi - disp_lo)
      else rescale_in rest raw_ten
  end.

Definition rescale_display (raw_ten : Q) : Q :=
  rescale_in _RESCALE_BREAKPOINTS raw_ten.

(* ================================================================ *)
(** ** rules_data.py: static tables *)
(* ================================================================ *)

Definition GOLDEN_RATIO : Q := 0.618.

Definition ELASTANE_MULTIPLIERS : list (string * Q) :=
  [ ("woven", 1.6); ("knit", 4.0); ("knit_rib", 5.5);
    ("knit_double", 3.5); ("knit_jersey", 4.0) ].

Definition FIBER_GSM_MULTIPLIERS : list (string * Q) :=
  [ ("cotton", 1.15); ("polyester", 1.00); ("silk", 0.85); ("wool", 1.10);
    ("rayon", 0.90); ("linen", 1.25); ("nylon", 0.95); ("tencel", 0.92);
    ("modal", 0.90); ("viscose", 0.90) ].

Definition SHEEN_MAP : list (string * Q) :=
  [ ("deep_matte", 0.00); ("matte", 0.10); ("subtle_sheen", 0.25);
    ("moderate_sheen", 0.50); ("high_shine", 0.75); ("maximum_shine", 1.00);
    ("crushed", 0.35) ].

(** [WAIST_POSITION_MULTIPLIERS]; the entry of "no_waist" is [None]. *)
Definition WAIST_POSITION_MULTIPLIERS : list (string * option Q) :=
  [ ("empire", Some 0.35); ("high", Some 0.65); ("natural", Some 1.0);
    ("drop", Some 1.15); ("no_waist", None) ].

Definition HEM_TYPE_MODIFIERS : list (string * Q) :=
  [ ("clean_hem", 0.0); ("elastic", 0.15); ("soft_edge", -0.10);
    ("flutter", -0.20); ("rolled", 0.10) ].

(** [BUST_DIVIDING_THRESHOLDS], keys ascending as [sorted(...)] visits them. *)
Definition BUST_DIVIDING_THRESHOLDS : list (Q * Q) :=
  [ (4, 7.0); (5, 6.0); (6, 5.0); (7, 4.5); (8, 4.0); (9, 3.5) ].

Definition PRINCIPLE_CONFIDENCE : list (string * Q) :=
  [ ("v_neck_dividing_threshold", 0.85);
    ("boat_neck_inverted_triangle", 0.92);
    ("puff_inverted_triangle", 0.92);
    ("three_quarter_arm_slimming", 0.85);
    ("cap_sleeve_danger_zone", 0.80);
    ("hemline_zone_collision_petite", 0.82);
    ("hemline_sleeve_anatomical", 0.90);
    ("dark_color_slimming", 0.70);
    ("wrap_waist_apple", 0.72);
    ("turtleneck_column", 0.68);
    ("waist_placement_golden_ratio", 0.75);
    ("empire_tent_thresholds", 0.65);
    ("skin_tone_contrast", 0.60);
    ("stripe_effect_ashida", 0.55);
    ("pattern_scale_effect", 0.40);
    ("fit_flare_pear_origin", 0.50);
    ("cowl_bust_volume", 0.50);
    ("contour_smoothness", 0.45) ].

(** One entry of [FABRIC_LOOKUP]. *)
Record FabricData := fabric {
  fd_base_gsm : Q;
  fd_fiber : string;
  fd_construction : string;
  fd_surface : string;
  fd_drape : Q;
  fd_typical_stretch : Q
}.

Definition FABRIC_LOOKUP : list (string * FabricData) :=
  [
    ("cotton_poplin", fabric 120 "cotton" "woven" "matte" 4 0);
    ("cotton_jersey", fabric 180 "cotton" "knit_jersey" "matte" 6 15);
    ("silk_charmeuse", fabric 90 "silk" "woven" "moderate_sheen" 9 0);
    ("silk_chiffon", fabric 40 "silk" "woven" "subtle_sheen" 10 0);
    ("wool_flannel", fabric 280 "wool" "woven" "deep_matte" 3 0);
    ("wool_crepe", fabric 200 "wool" "woven" "matte" 6 2);
    ("ponte", fabric 300 "polyester" "knit_double" "subtle_sheen" 4 20);
    ("denim", fabric 350 "cotton" "woven" "matte" 2 0);
    ("stretch_denim", fabric 320 "cotton" "woven" "matte" 3 8);
    ("satin", fabric 130 "polyester" "woven" "moderate_sheen" 8 0);
    ("linen", fabric 180 "linen" "woven" "matte" 3 0);
    ("rayon_challis", fabric 110 "rayon" "woven" "subtle_sheen" 8 0);
    ("polyester_crepe", fabric 150 "polyester" "woven" "subtle_sheen" 7 0);
    ("modal_jersey", fabric 170 "modal" "knit_jersey" "subtle_sheen" 7 20);
    ("tencel_twill", fabric 200 "tencel" "woven" "subtle_sheen" 6 0);
    ("velvet", fabric 280 "polyester" "woven" "deep_matte" 5 0);
    ("crushed_velvet", fabric 250 "polyester" "woven" "crushed" 6 5);
    ("neoprene", fabric 350 "polyester" "knit_double" "matte" 2 15);
    ("organza", fabric 50 "polyester" "woven" "subtle_sheen" 2 0);
    ("tulle", fabric 30 "nylon" "knit" "subtle_sheen" 3 5);
    ("rib_knit", fabric 220 "cotton" "knit_rib" "matte" 5 30);
    ("french_terry", fabric 280 "cotton" "knit" "matte" 4 10);
    ("scuba", fabric 320 "polyester" "knit_double" "matte" 3 12);
    ("leather", fabric 500 "leather" "woven" "moderate_sheen" 2 0);
    ("faux_leather", fabric 350 "polyester" "woven" "high_shine" 3 5);
    ("viscose_twill", fabric 160 "viscose" "woven" "subtle_sheen" 7 0);
    ("cotton_sateen", fabric 150 "cotton" "woven" "subtle_sheen" 5 0);
    ("silk_crepe_de_chine", fabric 80 "silk" "woven" "subtle_sheen" 8 0);
    ("wool_gabardine", fabric 260 "wool" "woven" "matte" 3 0);
    ("chambray", fabric 140 "cotton" "woven" "matte" 5 0);
    ("tweed", fabric 320 "wool" "woven" "deep_matte" 2 0);
    ("sequin_mesh", fabric 200 "polyester" "knit" "maximum_shine" 5 10);
    ("spandex_blend", fabric 200 "nylon" "knit" "subtle_sheen" 6 40);
    ("poplin_stretch", fabric 130 "cotton" "woven" "matte" 4 5);
    ("chiffon_poly", fabric 50 "polyester" "woven" "subtle_sheen" 9 0);
    ("double_crepe", fabric 220 "polyester" "woven" "matte" 5 2);
    ("power_mesh", fabric 100 "nylon" "knit" "subtle_sheen" 7 50);
    ("bengaline", fabric 250 "polyester" "woven" "subtle_sheen" 3 8);
    ("jacquard", fabric 250 "polyester" "woven" "moderate_sheen" 4 0);
    ("brocade", fabric 300 "polyester" "woven" "moderate_sheen" 3 0);
    ("interlock_knit", fabric 200 "cotton" "knit_double" "matte" 5 18);
    ("bamboo_jersey", fabric 160 "viscose" "knit_jersey" "subtle_sheen" 7 15);
    ("wool_jersey", fabric 220 "wool" "knit_jersey" "matte" 5 12);
    ("terry_cloth", fabric 400 "cotton" "woven" "deep_matte" 3 0);
    ("crepe_back_satin", fabric 150 "polyester" "woven" "moderate_sheen" 7 0);
    ("lyocell_twill", fabric 190 "tencel" "woven" "subtle_sheen" 6 0);
    ("cupro", fabric 100 "viscose" "woven" "subtle_sheen" 9 0);
    ("taffeta", fabric 100 "polyester" "woven" "moderate_sheen" 2 0);
    ("mesh", fabric 80 "polyester" "knit" "subtle_sheen" 6 20);
    ("corduroy", fabric 300 "cotton" "woven" "deep_matte" 3 0);
    ("stretch_crepe", fabric 200 "polyester" "woven" "matte" 6 5);
    ("scuba_knit", fabric 300 "polyester" "knit_double" "subtle_sheen" 3 15);
    ("performance_knit", fabric 160 "polyester" "knit" "subtle_sheen" 5 25);
    ("double_georgette", fabric 100 "polyester" "woven" "subtle_sheen" 8 0);
    ("stretch_poplin", fabric 130 "cotton" "woven" "matte" 4 5) ].

Definition get_fabric_data (fabric_name : string) : option FabricData :=
  dict_find FABRIC_LOOKUP fabric_name.

Fixpoint bust_threshold_in (table : list (Q * Q)) (bust_differential : Q) : Q :=
  match table with
  | [] => 3.5
  | (bd_max, threshold) :: rest =>
      if bust_differential <=? bd_max then threshold
      else bust_threshold_in rest bust_differential
  end.

Definition get_bust_dividing_threshold (bust_differential : Q) : Q :=
  bust_threshold_in BUST_DIVIDING_THRESHOLDS bust_differential.

(* ================================================================ *)
(** ** fabric_gate.py *)
(* ================================================================ *)

Record ResolvedFabric := {
  rf_total_stretch_pct : Q;
  rf_effective_gsm : Q;
  rf_sheen_score : Q;
  rf_drape_coefficient : Q;
  rf_cling_risk_base : Q;
  rf_is_structured : bool;
  rf_photo_reality_discount : Q;
  rf_surface_friction : Q
}.

Definition resolve_fabric_properties (garment : GarmentProfile) : ResolvedFabric :=
  let fabric_data :=
    if Text.truthy (fabric_name garment)
    then get_fabric_data (Text.or_else (fabric_name garment) EmptyString)
    else None in
  let construction_key := construction_value (construction garment) in
  let elastane_mult := dict_get ELASTANE_MULTIPLIERS construction_key 2.0 in
  let total_stretch := elastane_pct garment * elastane_mult in
  let total_stretch :=
    match fabric_data with
    | Some fd =>
        if (elastane_pct garment =? 0) && (fd_typical_stretch fd >? 0)
        then fd_typical_stretch fd else total_stretch
    | None => total_stretch
    end in
  let fiber_mult := dict_get FIBER_GSM_MULTIPLIERS (primary_fiber garment) 1.0 in
  let effective_gsm := gsm_estimated garment * fiber_mult in
  let sheen := dict_get SHEEN_MAP (surface_value (surface garment)) 0.10 in
  let drape_coeff := drape garment * 10 in
  let gsm_factor := Num.max 0 (1 - effective_gsm / 300) in
  let friction_factor := Num.max 0 (1 - surface_friction garment) in
  let cling_base :=
    Num.min 1 ((total_stretch / 20 + gsm_factor + friction_factor) / 3) in
  {| rf_total_stretch_pct := total_stretch;
     rf_effective_gsm := effective_gsm;
     rf_sheen_score := sheen;
     rf_drape_coefficient := drape_coeff;
     rf_cling_risk_base := cling_base;
     rf_is_structured := is_structured garment || has_lining garment;
     rf_photo_reality_discount := 0;
     rf_surface_friction := surface_friction garment |}.

Definition mk_exception (id rule reason : string) (conf : Q) : ExceptionTriggered :=
  {| ex_exception_id := id; ex_rule_overridden := rule;
     ex_reason := reason; ex_confidence := conf |}.

Definition run_fabric_gates (garment : GarmentProfile) (body : BodyProfile)
    (resolved : ResolvedFabric) : list ExceptionTriggered :=
  (if is_dark garment && (rf_sheen_score resolved >? 0.50) then
     [mk_exception "GATE_DARK_SHINY" "dark_slimming"
        ("Dark (L=" ++ Text.num ++ ") + high sheen (SI=" ++ Text.num
         ++ "): sheen amplifies body contours, partially negating dark slimming benefit")
        0.80]
   else [])
  ++
  (if Silhouette_beq (silhouette garment) A_LINE
      && (rf_drape_coefficient resolved >=? 65) then
     [mk_exception "GATE_ALINE_SHELF" "aline_balance"
        ("A-line + stiff fabric (DC=" ++ Text.num
         ++ "%): fabric won't drape, creates shelf effect at hips")
        0.82]
   else [])
  ++
  (if NecklineType_beq (neckline garment) WRAP
      && (bust_differential body >=? 6)
      && (rf_surface_friction resolved <? 0.3) then
     [mk_exception "GATE_WRAP_GAPPING" "wrap_neckline"
        ("Wrap neckline + large bust (BD=" ++ Text.num
         ++ Text.dq ++ ") + slippery fabric (friction=" ++ Text.num
         ++ "): high gaping risk")
        0.75]
   else [])
  ++
  (if rf_is_structured resolved then
     [mk_exception "GATE_STRUCTURED" "negative_penalties"
        ("Structured garment (boning/lining): negative penalties "
         ++ "reduced ~70% — construction provides body sculpting")
        0.85]
   else [])
  ++
  (if (rf_drape_coefficient resolved >? 60) && (belly_zone body >? 0.3)
      && negb (Silhouette_beq (silhouette garment) FITTED
               || Silhouette_beq (silhouette garment) SEMI_FITTED) then
     [mk_exception "GATE_FLUID_APPLE_BELLY" "tent_concealment"
        ("Fluid/drapey fabric (DC=" ++ Text.num ++ "%) on belly concern zone ("
         ++ Text.num ++ "): fabric clings to belly contour instead of skimming")
        0.72]
   else [])
  ++
  (if (rf_sheen_score resolved <? 0.30) && (rf_cling_risk_base resolved >? 0.6)
      && (is_plus_size body || (hip_zone body >? 0.5) || (belly_zone body >? 0.5)) then
     [mk_exception "GATE_CLING_TRAP" "matte_zone"
        ("Matte (SI=" ++ Text.num ++ ") but clingy (cling=" ++ Text.num
         ++ "): creates second-skin effect on curves, overriding matte benefit")
        0.78]
   else []).

Definition get_structured_penalty_reduction
    (exceptions : list ExceptionTriggered) : Q :=
  if existsb (fun ex => String.eqb (ex_exception_id ex) "GATE_STRUCTURED") exceptions
  then 0.30 else 1.0.

(* ================================================================ *)
(** ** body_garment_translator.py: hemline *)
(* ================================================================ *)

Record HemlineResult := {
  hr_hem_from_floor : Q;
  hr_hem_zone : string;
  hr_danger_zones : list (Q * Q);
  hr_safe_zone : option (Q * Q);
  hr_safe_zone_size : Q;
  hr_fabric_rise : Q;
  hr_proportion_cut_ratio : Q;
  hr_narrowest_point_bonus : Q
}.

Definition _hem_label_to_height (label : string) (body : BodyProfile) : Q :=
  let mapping :=
    [ ("mini", h_knee body + 6);
      ("above_knee", h_knee body + 3);
      ("knee", h_knee body);
      ("below_knee", h_knee body - 3);
      ("midi", h_calf_max body);
      ("below_calf", h_calf_min body);
      ("ankle", h_ankle body + 2);
      ("floor", 1.0) ] in
  dict_get mapping label (h_knee body).

Definition fabric_drape_adjustment (sil : Silhouette) (fabric_weight : string)
    (hip_circ stomach_projection : Q) : Q :=
  let rise := 0 in
  let rise :=
    if Silhouette_beq sil A_LINE || Silhouette_beq sil FIT_AND_FLARE then
      let rise := if hip_circ >? 40 then rise + 1.0 else rise in
      if stomach_projection >? 2 then rise + 0.5 else rise
    else rise in
  let rise := if Silhouette_beq sil FITTED then rise + 0.5 else rise in
  if String.eqb fabric_weight "light" then rise * 1.3
  else if String.eqb fabric_weight "heavy" then rise * 0.7
  else rise.

Definition translate_hemline (garment : GarmentProfile) (body : BodyProfile)
    : HemlineResult :=
  (* Step 1 *)
  let hem_from_floor :=
    match garment_length_inches garment with
    | Some len =>
        let scale := height body / 66 in
        height body - len * scale
    | None => _hem_label_to_height (hem_position garment) body
    end in
  (* Step 2 *)
  let fabric_weight :=
    if gsm_estimated garment <? 120 then "light"
    else if gsm_estimated garment >? 280 then "heavy" else "medium" in
  let rise := fabric_drape_adjustment (silhouette garment) fabric_weight
                (hip body) (belly_projection body) in
  let hem_from_floor := hem_from_floor + rise in
  (* Step 3 *)
  let knee_center := h_knee body in
  let knee_danger := (knee_center - 1.0, knee_center + 1.5) in
  let calf_widest := h_calf_max body in
  let calf_danger_radius := 1.0 + (calf_prominence body - 1.0) * 3.0 in
  let calf_danger :=
    (calf_widest - calf_danger_radius, calf_widest + calf_danger_radius) in
  let thigh_widest_h := h_knee body + 6 in
  let thigh_danger := (thigh_widest_h - 1.0, thigh_widest_h + 1.0) in
  let danger_zones := [thigh_danger; knee_danger; calf_danger] in
  (* Step 4 *)
  let safe_zone_top := fst knee_danger in
  let safe_zone_bottom := snd calf_danger in
  let safe_zone_size := safe_zone_top - safe_zone_bottom in
  let safe_zone :=
    if safe_zone_size >? 0 then Some (safe_zone_bottom, safe_zone_top) else None in
  (* Step 5 *)
  let hem_zone :=
    if hem_from_floor >? knee_center + 2.5 then "above_knee"
    else if hem_from_floor >? snd knee_danger then "above_knee_near"
    else if hem_from_floor >=? fst knee_danger then "knee_danger"
    else if (safe_zone_size >? 0) && (hem_from_floor >? snd calf_danger)
      then "safe_zone"
    else if (safe_zone_size <=? 0) && (hem_from_floor >? snd calf_danger)
      then "collapsed_zone"
    else if hem_from_floor >=? fst calf_danger then "calf_danger"
    else if hem_from_floor >? h_ankle body + 2 then "below_calf"
    else if hem_from_floor >? h_ankle body - 1 then "ankle"
    else "floor" in
  (* Step 6 *)
  let cut_ratio := if height body >? 0 then hem_from_floor / height body else 0.3 in
  (* Step 7 *)
  let narrow_points := [ (h_ankle body + 2, 2); (h_calf_min body, 1) ] in
  let narrowest_bonus :=
    fold_left
      (fun acc point =>
         if Num.abs (hem_from_floor - fst point) <=? 1.5
         then Num.max acc (snd point) else acc)
      narrow_points 0 in
  {| hr_hem_from_floor := hem_from_floor;
     hr_hem_zone := hem_zone;
     hr_danger_zones := danger_zones;
     hr_safe_zone := safe_zone;
     hr_safe_zone_size := safe_zone_size;
     hr_fabric_rise := rise;
     hr_proportion_cut_ratio := cut_ratio;
     hr_narrowest_point_bonus := narrowest_bonus |}.

(* ================================================================ *)
(** ** body_garment_translator.py: sleeve *)
(* ================================================================ *)

Record SleeveResult := {
  sl_endpoint_position : Q;
  sl_perceived_width : Q;
  sl_actual_width : Q;
  sl_delta_vs_actual : Q;
  sl_arm_prominence_severity : Q;
  sl_arm_prominence_radius : Q;
  sl_score_from_delta : Q;
  sl_shoulder_width_effect : Q
}.

Definition sleeve_value (s : SleeveType) : string :=
  match s with
  | SLEEVELESS => "sleeveless" | CAP => "cap" | SHORT => "short"
  | THREE_QUARTER => "three_quarter" | LONG => "long" | RAGLAN => "raglan"
  | DOLMAN => "dolman" | PUFF => "puff" | FLUTTER => "flutter"
  | BELL => "bell" | SET_IN => "set_in"
  end.

Definition SHOULDER_WIDTH_MODIFIERS : list (string * Q) :=
  [ ("set_in", 0.0); ("raglan", -0.5); ("dropped", -0.75); ("puff", 1.5);
    ("structured", 0.5); ("cap", 0.25); ("dolman", -0.5); ("off_shoulder", 0.0) ].

(** The loop over consecutive landmarks of [_interpolate_arm_circ]. *)
Fixpoint bracket_in (landmarks : list (Q * Q)) (position fallback : Q) : Q :=
  match landmarks with
  | (p0, c0) :: (((p1, c1) :: _) as rest) =>
      if (p0 <=? position) && (position <=? p1) then
        if p1 =? p0 then c0
        else
          let t := (position - p0) / (p1 - p0) in
          c0 + t * (c1 - c0)
      else bracket_in rest position fallback
  | _ => fallback
  end.

Definition _interpolate_arm_circ (body : BodyProfile) (position : Q) : Q :=
  let landmarks :=
    [ (0.0, shoulder_width body / 2 * Num.math_pi / 2);
      (c_upper_arm_max_position body, c_upper_arm_max body);
      (arm_length body * 0.52, c_elbow body);
      (arm_length body * 0.65, c_forearm_max body);
      (c_forearm_min_position body, c_forearm_min body);
      (arm_length body, c_wrist body) ] in
  if position <=? 0.0 then shoulder_width body / 2 * Num.math_pi / 2
  else if position >=? arm_length body then c_wrist body
  else bracket_in landmarks position (c_upper_arm_max body).

Definition _arm_prominence_severity (body : BodyProfile) : Q * Q :=
  let combined := arm_prominence_combined body in
  if combined <? 1.35 then (0.3, 0.5)
  else if combined <? 1.50 then (0.5, 0.75)
  else if combined <? 1.65 then (0.75, 1.0)
  else if combined <? 1.80 then (1.0, 1.5)
  else if combined <? 2.00 then (1.3, 2.0)
  else if combined <? 2.20 then (1.6, 2.5)
  else (2.0, 3.0).

Definition _sleeve_type_to_position (st : SleeveType) (body : BodyProfile)
    : Q * Q * string :=
  match st with
  | SLEEVELESS => (0.0, 0.0, "clean_hem")
  | CAP => (2.5, -0.5, "clean_hem")
  | SHORT => (6.0, 1.0, "clean_hem")
  | THREE_QUARTER => (17.0, 0.5, "clean_hem")
  | LONG => (arm_length body, 0.0, "clean_hem")
  | RAGLAN => (arm_length body, 1.0, "clean_hem")
  | DOLMAN => (arm_length body, 12.0, "clean_hem")
  | PUFF => (4.0, 6.0, "elastic")
  | FLUTTER => (3.0, 3.0, "flutter")
  | BELL => (arm_length body * 0.7, 8.0, "clean_hem")
  | SET_IN => (arm_length body, 1.0, "clean_hem")
  end.

(** The breakpoints from delta to the raw sleeve score, used by
    [translate_sleeve] and again by [score_sleeve]. *)
Definition delta_to_score (delta : Q) : Q :=
  if delta >? 0.30 then -4.0
  else if delta >? 0.15 then -2.0
  else if delta >? 0 then -1.0
  else if delta >? -0.30 then 1.0
  else if delta >? -0.60 then 3.0
  else 5.0.

Definition apply_severity (score severity : Q) : Q :=
  if score <? 0 then score * severity
  else score * (1 + (severity - 1) * 0.5).

Definition translate_sleeve (garment : GarmentProfile) (body : BodyProfile)
    : SleeveResult :=
  let '(endpoint, ease, hem_type) :=
    match sleeve_length_inches garment with
    | Some len => (len, sleeve_ease_inches garment, "clean_hem")
    | None => _sleeve_type_to_position (sleeve_type garment) body
    end in
  let actual_circ := _interpolate_arm_circ body endpoint in
  let actual_width := actual_circ / Num.math_pi in
  let frame_width :=
    if ease >=? 0 then actual_width + ease / Num.math_pi
    else if ease >? -1.0 then actual_width + Num.abs ease * 0.3
    else actual_width + Num.abs ease * 0.5 in
  let hem_mod := dict_get HEM_TYPE_MODIFIERS hem_type 0.0 in
  let frame_width := frame_width + hem_mod in
  let taper_impression :=
    if endpoint <? arm_length body then
      let mid_visible := (endpoint + arm_length body) / 2 in
      let visible_circ := _interpolate_arm_circ body mid_visible in
      let avg_visible_width := visible_circ / Num.math_pi in
      (avg_visible_width - frame_width) * 0.4
    else 0.0 in
  let perceived_width := frame_width + taper_impression in
  let delta :=
    if endpoint <=? c_upper_arm_max_position body + 1.5 then
      let widest_arm_width := c_upper_arm_max body / Num.math_pi in
      let cap_frame_delta := frame_width - widest_arm_width + 0.20 in
      Num.max (perceived_width - actual_width) cap_frame_delta
    else perceived_width - actual_width in
  let '(severity, radius) := _arm_prominence_severity body in
  let score := apply_severity (delta_to_score delta) severity in
  let shoulder_effect :=
    dict_get SHOULDER_WIDTH_MODIFIERS (sleeve_value (sleeve_type garment)) 0.0 in
  {| sl_endpoint_position := endpoint;
     sl_perceived_width := perceived_width;
     sl_actual_width := actual_width;
     sl_delta_vs_actual := delta;
     sl_arm_prominence_severity := severity;
     sl_arm_prominence_radius := radius;
     sl_score_from_delta := score;
     sl_shoulder_width_effect := shoulder_effect |}.

(* ================================================================ *)
(** ** body_garment_translator.py: waistline *)
(* ================================================================ *)

Record WaistlineResult := {
  wl_visual_waist_height : Q;
  wl_visual_leg_ratio : Q;
  wl_proportion_improvement : Q;
  wl_proportion_score : Q;
  wl_waist_position_label : string
}.

Definition translate_waistline (garment : GarmentProfile) (body : BodyProfile)
    : WaistlineResult :=
  let position := waist_position garment in
  let multiplier := dict_get WAIST_POSITION_MULTIPLIERS position None in
  let visual_waist_from_shoulder :=
    match multiplier with
    | None => torso_length body
    | Some m => torso_length body * m
    end in
  let shift := torso_length body - visual_waist_from_shoulder in
  let perceptual_shift := shift * 0.25 in
  let visual_leg_length := leg_length_visual body + perceptual_shift in
  let visual_waist_height := height body - torso_length body + perceptual_shift in
  let visual_leg_ratio :=
    if height body >? 0 then visual_leg_length / height body else 0.618 in
  let current_ratio := leg_ratio body in
  let deviation_before := Num.abs (current_ratio - GOLDEN_RATIO) in
  let deviation_after := Num.abs (visual_leg_ratio - GOLDEN_RATIO) in
  let improvement := deviation_before - deviation_after in
  let proportion_score := clamp3 (improvement * 8.0) (-0.80) 0.80 in
  {| wl_visual_waist_height := visual_waist_height;
     wl_visual_leg_ratio := visual_leg_ratio;
     wl_proportion_improvement := improvement;
     wl_proportion_score := proportion_score;
     wl_waist_position_label := position |}.

(* ================================================================ *)
(** ** kridha_engine.py: principle scorers 1-10 *)
(* ================================================================ *)

(** Every scorer returns [(score, reasoning)].  [R] is the list the source
    appends to: [push R s] is [R.append(s)] and [ret score R] is
    [return clamp(score), " | ".join(R)]. *)
Definition push (R : list string) (s : string) : list string := (R ++ [s])%list.

Definition ret (score : Q) (R : list string) : Q * string :=
  (clamp score, Text.join " | " R).

Definition zone_is (g : GarmentProfile) (z : string) : bool :=
  String.eqb (zone g) z.

Definition _neckline_str (g : GarmentProfile) : string :=
  neckline_value (neckline g).

(** [x and x > c] for an [Optional[float]] that is known to be present. *)
Definition truthy_gt (x c : Q) : bool := negb (x =? 0) && (x >? c).

Definition score_horizontal_stripes (g : GarmentProfile) (b : BodyProfile)
    : Q * string :=
  if negb (has_horizontal_stripes g) && negb (has_vertical_stripes g) then
    (0, "No stripes — N/A")
  else if has_vertical_stripes g && negb (has_horizontal_stripes g) then
    let R := ["V stripes vs solid: ~5% wider (Thompson 2011)"] in
    if is_shape b RECTANGLE && zone_is g "torso" then
      ret 0.03 (push R "Rectangle torso: V adds desired shoulder width")
    else if is_shape b INVERTED_TRIANGLE && zone_is g "lower_body" then
      ret (-0.08) (push R "INVT lower: V thins already-narrow hips")
    else ret (-0.05) R
  else
    let base := 0.03 in
    let R := ["H stripe base vs solid: +0.03 (Koutsoumpis 2021)"] in
    let '(size_mod, R) :=
      if is_plus_size b then
        (-0.10, push R "Plus-size: Helmholtz nullifies/reverses (Ashida)")
      else if is_petite b then
        (0.05, push R "Petite: Helmholtz amplified on small frames")
      else (0.0, R) in
    let '(zone_mod, R) :=
      match body_shape b with
      | PEAR =>
          if zone_is g "torso" then
            (0.08, push R "Pear top: H adds shoulder width (+)")
          else if zone_is g "lower_body" then
            (-0.05, push R "Pear bottom: attention to hip zone (-)")
          else (0.0, R)
      | INVERTED_TRIANGLE =>
          if zone_is g "torso" then
            (-0.12, push R "INVT top: attention to broad shoulders (-)")
          else if zone_is g "lower_body" then
            (0.10, push R "INVT bottom: adds hip volume (+)")
          else (0.0, R)
      | APPLE =>
          if covers_waist g then
            (-0.05, push R "Apple midsection: H width emphasis (-)")
          else (0.0, R)
      | RECTANGLE => (0.05, push R "Rectangle: H adds visual interest (+)")
      | HOURGLASS => (0.03, push R "Hourglass: standard effect")
      end in
    let '(sw_mod, R) :=
      if stripe_width_cm g >? 0 then
        if stripe_width_cm g <? 1.0 then
          (0.03, push R "Fine stripes: stronger illusion")
        else if (stripe_width_cm g >? 2.0) && is_plus_size b then
          (-0.05, push R "Wide stripes + plus: measurement markers")
        else (0.0, R)
      else (0.0, R) in
    let '(lum_mod, R) :=
      if is_dark g && has_horizontal_stripes g then
        (0.04, push R "Dark H stripes: luminance bonus (Koutsoumpis)")
      else (0.0, R) in
    ret (base + size_mod + zone_mod + sw_mod + lum_mod) R.

Definition score_dark_slimming (g : GarmentProfile) (b : BodyProfile)
    : Q * string :=
  let L := color_lightness g in
  if L >? 0.65 then
    let penalty := -0.05 * ((L - 0.65) / 0.35) in
    ret penalty ["Light color (L=" ++ Text.num ++ "): slight expansion"]
  else if L >=? 0.25 then
    let benefit := 0.15 * (1 - (L - 0.10) / 0.55) in
    let benefit := Num.max 0 benefit in
    ret benefit ["Mid color (L=" ++ Text.num ++ "): proportional benefit "
                 ++ Text.num]
  else
    let base := 0.15 in
    let R := ["Dark color (L=" ++ Text.num ++ "): base slimming +0.15"] in
    let '(bt_mult, R) :=
      if is_petite b && zone_is g "full_body" then
        (0.6, push R "Petite all-dark: height collapse (x0.6)")
      else if is_petite b && negb (zone_is g "full_body") then
        (0.9, push R "Petite zone-dark: mild reduction (x0.9)")
      else if is_tall b then
        (1.2, push R "Tall: amplified lean silhouette (x1.2)")
      else if is_shape b INVERTED_TRIANGLE && zone_is g "torso" then
        (1.4, push R "INVT upper body: maximum shoulder reduction (x1.4)")
      else if is_shape b HOURGLASS then
        (0.7, push R "Hourglass: dark flattens curves (x0.7)")
      else (1.0, R) in
    let '(skin_mult, R) :=
      if zone_is g "torso" || zone_is g "full_body" then
        if SkinUndertone_beq (skin_undertone b) WARM then
          let sallow_strength := Num.max 0.0 (1.0 - L / 0.22) in
          let skin_mult := 1.0 - sallow_strength in
          let R := push R ("Warm undertone near face: sallow x" ++ Text.num) in
          if skin_mult <? 0.3 then
            (skin_mult, push R "RECOMMEND: dark chocolate brown or burgundy")
          else (skin_mult, R)
        else if skin_darkness b >? 0.7 then
          (0.5, push R "Dark skin + dark: low contrast (x0.5)")
        else (1.0, R)
      else (1.0, R) in
    let si := sheen_index g in
    let '(sheen_penalty, R) :=
      if si >? 0.5 then
        let sheen_penalty := -0.15 * ((si - 0.5) / 0.5) in
        let '(sheen_penalty, R) :=
          if is_shape b APPLE || is_plus_size b then
            (sheen_penalty * 1.5,
             push R "Apple/Plus + high sheen: amplified specular penalty")
          else (sheen_penalty, R) in
        (sheen_penalty, push R ("High sheen (SI=" ++ Text.num ++ "): specular invert"))
      else (0.0, R) in
    let score := base * bt_mult * Num.max skin_mult 0.0 + sheen_penalty in
    ret score R.

Definition score_rise_elongation (g : GarmentProfile) (b : BodyProfile)
    : Q * string :=
  match rise_cm g with
  | None => (0, "No rise data — N/A")
  | Some rc =>
    let MID_RISE := 20.0 in
    let rise_delta := rc - MID_RISE in
    let base := clamp3 (rise_delta * 0.015) (-0.20) 0.20 in
    let R := ["Rise " ++ Text.num ++ "cm: base " ++ Text.num] in
    if is_petite b && (torso_score b <=? -1.0) && (rc >? 26) then
      ret (-0.30) (push R "Petite + short torso + high rise: INVERTED")
    else
      let '(base, R) :=
        if is_petite b then
          if torso_score b >=? 1.0 then
            (base * 1.5, push R "Petite + long torso: amplified (x1.5)")
          else (base * 1.3, push R "Petite + proportional: amplified (x1.3)")
        else (base, R) in
      let '(base, R) :=
        if is_tall b then (base * 0.5, push R "Tall: diminishing returns (x0.5)")
        else (base, R) in
      let belly_gate :=
        (is_shape b APPLE || is_plus_size b) && (belly_zone b >? 0.3) in
      if belly_gate
         && negb ((waistband_width_cm g >=? 5.0) && (waistband_stretch_pct g >=? 8.0))
         && (waistband_width_cm g <? 3.0) && (waistband_stretch_pct g <? 5.0) then
        ret (-0.25) (push R "Narrow rigid waistband: muffin top -> -0.25")
      else
        let '(base, R) :=
          if belly_gate
             && (waistband_width_cm g >=? 5.0) && (waistband_stretch_pct g >=? 8.0) then
            (base + 0.10, push R "Wide elastic waistband: smooth containment (+0.10)")
          else (base, R) in
        let '(base, R) :=
          if is_shape b HOURGLASS && truthy_gt rc 24 then
            (base + 0.03, push R "Hourglass + high rise: smooth waist-to-hip (+0.03)")
          else (base, R) in
        let '(base, R) :=
          if is_shape b INVERTED_TRIANGLE
             && truthy_gt rc 26 && (expansion_rate g <? 0.03) then
            (base * 0.6, push R "INVT + high rise + slim leg (x0.6)")
          else (base, R) in
        ret base R
  end.

Definition score_aline_balance (g : GarmentProfile) (b : BodyProfile)
    : Q * string :=
  if expansion_rate g <? 0.03 then (0, "ER < 0.03: not A-line — N/A")
  else
    let er := expansion_rate g in
    let base :=
      if er <=? 0.06 then 0.10 + (er - 0.03) * (0.15 / 0.03)
      else if er <=? 0.12 then 0.25
      else if er <=? 0.18 then 0.25 - (er - 0.12) * (0.15 / 0.06)
      else Num.max (-0.10) (0.10 - (er - 0.18) * (0.10 / 0.12)) in
    let R := ["ER=" ++ Text.num ++ ": base A-line = " ++ Text.num] in
    let dc := drape_coefficient g in
    let '(drape_mult, R) :=
      if dc <? 40 then
        (1.0, push R ("DC=" ++ Text.num ++ "% (drapey): full benefit"))
      else if dc <? 65 then
        (0.7, push R ("DC=" ++ Text.num ++ "% (medium): x0.7"))
      else
        (-0.5, push R ("DC=" ++ Text.num ++ "% (stiff): shelf effect INVERSION")) in
    let '(bt_mod, R) :=
      if is_shape b INVERTED_TRIANGLE then
        (0.15, push R "INVT: max A-line benefit (+0.15)")
      else if is_tall b then (0.10, push R "Tall: carries volume (+0.10)")
      else if is_petite b then
        (if er >? 0.12 then -0.15 else 0.05,
         push R ("Petite: " ++ (if er >? 0.12 then "overwhelms frame"
                                else "scale-appropriate")))
      else if is_shape b HOURGLASS then (0.05, R)
      else if is_shape b PEAR then (0.05, R)
      else if is_shape b APPLE then (0.03, R)
      else (0.0, R) in
    let '(drape_mult, R) :=
      if is_plus_size b && (drape_mult <? 0) then
        (drape_mult * 1.5, push R "Plus + stiff A-line: shelf amplified")
      else (drape_mult, R) in
    let hem_mod :=
      if is_shape b PEAR then
        if String.eqb (hem_position g) "mid_thigh" then -0.10
        else if String.eqb (hem_position g) "knee" then 0.05
        else 0.0
      else 0.0 in
    let score := base * Num.max drape_mult (-1.0) + bt_mod + hem_mod in
    ret score R.

Definition score_tent_concealment (g : GarmentProfile) (b : BodyProfile)
    : Q * string :=
  if (0.03 <=? expansion_rate g) && (expansion_rate g <=? 0.08) then
    let score := 0.15 in
    let R := ["ER=" ++ Text.num ++ ": semi-fitted optimal"] in
    let '(score, R) :=
      if is_shape b HOURGLASS then
        (0.05, push R "Hourglass: semi-fitted slightly masks curves")
      else (score, R) in
    let '(score, R) :=
      if is_plus_size b && is_structured g then
        (0.20, push R "Plus + structured semi-fitted: smooth containment")
      else (score, R) in
    ret score R
  else if expansion_rate g <? 0.12 then
    (0, "ER=" ++ Text.num ++ ": not tent — N/A")
  else
    let er := expansion_rate g in
    let has_concealment := has_goal b CONCEALMENT || has_goal b HIDE_MIDSECTION in
    let has_slimming := has_goal b SLIMMING || has_goal b SLIM_HIPS in
    let '(base, R) :=
      if has_concealment && negb has_slimming then
        (if er >? 0.20 then 0.35 else 0.25,
         ["Goal=concealment: excellent hiding (" ++ Text.num ++ ")"])
      else if has_slimming && negb has_concealment then
        (if er >? 0.20 then -0.40 else -0.20,
         ["Goal=slimming: perceived bigger (" ++ Text.num ++ ")";
          "CONCEALMENT PARADOX: hides contours but amplifies size"])
      else
        let concealment := if er >? 0.20 then 0.35 else 0.25 in
        let slimming := if er >? 0.20 then -0.40 else -0.20 in
        (concealment * 0.3 + slimming * 0.7,
         ["Goal=balance: weighted toward slimming (" ++ Text.num ++ ")"]) in
    let '(bt_mod, R) :=
      if is_shape b HOURGLASS then
        (-0.20, push R "HOURGLASS REVERSAL: tent destroys WHR (-0.20)")
      else if is_petite b then
        (-0.15, push R "PETITE REVERSAL: fabric overwhelms frame (-0.15)")
      else if is_plus_size b then
        (-0.10, push R "PLUS REVERSAL: max size overestimate (-0.10)")
      else if is_shape b INVERTED_TRIANGLE then
        (-0.10, push R "INVT: lampshade from shoulders (-0.10)")
      else if is_tall b then (0.10, push R "Tall: carries volume (+0.10)")
      else if is_shape b RECTANGLE then
        (0.05, push R "Rectangle: less curve to hide (+0.05)")
      else (0.0, R) in
    ret (base + bt_mod) R.

Definition score_color_break (g : GarmentProfile) (b : BodyProfile)
    : Q * string :=
  if negb (has_contrasting_belt g) && negb (has_tonal_belt g) then
    (0, "No belt/break — N/A")
  else if has_tonal_belt g && negb (has_contrasting_belt g) then
    (-0.03, "Tonal belt: mild break (-0.03)")
  else
    let base := -0.10 in
    let R := ["Contrasting belt: base leg shortening -0.10"] in
    if is_shape b HOURGLASS then
      let score := if belt_width_cm g >=? 5 then 0.25 else 0.20 in
      ret score (push R ("HOURGLASS REVERSAL: belt highlights waist ("
                         ++ Text.num ++ ")"))
    else
      let '(base, R) :=
        if is_petite b then
          (base * 1.5, push R "Petite: can't afford shortening (x1.5)")
        else if is_shape b APPLE then
          (-0.25, push R "Apple: belt spotlights widest zone (-0.25)")
        else if is_tall b then
          (base * 0.3, push R "Tall: can afford shortening (x0.3)")
        else if is_shape b INVERTED_TRIANGLE then
          (0.08, push R "INVT: draws eye to waist (+0.08)")
        else if is_shape b RECTANGLE then
          (0.05, push R "Rectangle: creates waist definition (+0.05)")
        else if is_shape b PEAR then
          if whr b <? 0.75 then
            (0.05, push R ("Pear + narrow waist (WHR=" ++ Text.num ++ "): +0.05"))
          else (-0.10, push R "Pear + moderate waist: -0.10")
        else (base, R) in
      let '(base, R) :=
        if is_plus_size b then
          if belly_zone b >? 0.5 then
            (Num.min base (-0.20), push R "Plus + belly: belt at widest (-0.20)")
          else if belly_zone b <? 0.2 then
            (Num.max base 0.05, push R "Plus + no belly: belt creates waist (+0.05)")
          else (base, R)
        else (base, R) in
      ret base R.

Definition score_bodycon_mapping (g : GarmentProfile) (b : BodyProfile)
    : Q * string :=
  if expansion_rate g >? 0.03 then
    (0, "ER=" ++ Text.num ++ ": not bodycon — N/A")
  else
    let is_thin := (gsm_estimated g <? 200) && negb (is_structured g) in
    let is_structured_ := (gsm_estimated g >=? 250) || is_structured g in
    if is_shape b HOURGLASS then
      let score := if is_structured_ then 0.35 else 0.30 in
      let R := ["HOURGLASS REVERSAL: bodycon maps best feature (" ++ Text.num ++ ")"] in
      if belly_zone b >? 0.5 then
        ret (score - 0.15) (push R "Belly concern offset (-0.15)")
      else ret score R
    else if is_shape b APPLE then
      if is_athletic b then
        (clamp 0.20, "Athletic apple: showcases tone (+0.20)")
      else
        let score := if is_thin then -0.40 else -0.12 in
        ret score ["Apple + " ++ (if is_thin then "thin" else "structured")
                   ++ " bodycon: " ++ Text.num]
    else if is_shape b PEAR then
      let score := if is_thin then -0.30 else -0.09 in
      ret score ["Pear + " ++ (if is_thin then "thin" else "structured")
                 ++ ": " ++ Text.num]
    else if is_plus_size b then
      let score := if is_thin then -0.40 else -0.05 in
      ret score ["Plus + " ++ (if is_thin then "thin" else "structured (sculpts)")
                 ++ ": " ++ Text.num]
    else if is_shape b INVERTED_TRIANGLE then
      let score :=
        if zone_is g "full_body" then -0.15
        else if zone_is g "lower_body" then -0.05
        else -0.10 in
      ret score ["INVT bodycon " ++ zone g ++ ": " ++ Text.num]
    else if is_shape b RECTANGLE then
      (0, "Rectangle + bodycon: neutral")
    else (clamp (-0.10), "Default bodycon: mild penalty").

Definition score_matte_zone (g : GarmentProfile) (b : BodyProfile)
    : Q * string :=
  let si := sheen_index g in
  let '(base, R) :=
    if si <? 0.15 then (0.08, ["Deeply matte (SI=" ++ Text.num ++ "): +0.08"])
    else if si <? 0.35 then
      (0.08 * (1 - (si - 0.15) / 0.20),
       ["Low sheen (SI=" ++ Text.num ++ "): " ++ Text.num])
    else if si <=? 0.50 then (0.0, ["Neutral sheen (SI=" ++ Text.num ++ ")"])
    else
      (-0.10 * ((si - 0.50) / 0.50),
       ["High sheen (SI=" ++ Text.num ++ "): " ++ Text.num]) in
  let '(bt_mult, base, R) :=
    if is_shape b APPLE then (1.5, base, R)
    else if is_plus_size b then (1.5, base, R)
    else if is_shape b PEAR && (zone_is g "lower_body" || zone_is g "full_body")
      then (1.3, base, R)
    else if is_shape b HOURGLASS then
      if (0.35 <? si) && (si <? 0.55) then
        (0.5, 0.05, push R "Hourglass + moderate sheen: curves enhanced")
      else (0.5, base, R)
    else if is_shape b INVERTED_TRIANGLE && zone_is g "torso" then (1.2, base, R)
    else (1.0, base, R) in
  let cling := cling_risk g in
  if (cling >? 0.6) && (si <? 0.30) && is_plus_size b then
    (clamp (-0.15), "CLING TRAP: matte+clingy on plus (-0.15)")
  else if (cling >? 0.6) && (si <? 0.30) && is_shape b PEAR then
    (clamp (-0.10), "CLING TRAP: matte+clingy on pear (-0.10)")
  else if (cling >? 0.6) && (si <? 0.30) && is_shape b APPLE then
    (clamp (-0.12), "CLING TRAP: matte+clingy on apple (-0.12)")
  else ret (base * bt_mult) R.

Definition score_vneck_elongation (g : GarmentProfile) (b : BodyProfile)
    : Q * string :=
  let neck := _neckline_str g in
  if negb (String.eqb neck "v_neck") && negb (String.eqb neck "deep_v") then
    if String.eqb neck "crew" then (0, "Crew neck: neutral")
    else if Text.mem neck ["boat"; "off_shoulder"] then
      if is_shape b INVERTED_TRIANGLE then
        (clamp (-0.15), "Boat/off-shoulder on INVT: widens shoulders (-0.15)")
      else if is_shape b RECTANGLE then
        (clamp 0.08, "Boat on rectangle: adds width (+0.08)")
      else if is_shape b PEAR then
        (clamp 0.05, "Boat on pear: shoulder balance (+0.05)")
      else (0, "Neckline '" ++ neck ++ "': neutral")
    else if String.eqb neck "scoop" then
      let base := if is_shape b INVERTED_TRIANGLE then 0.08 else 0.05 in
      (clamp base, "Scoop: mild elongation (" ++ Text.num ++ ")")
    else if String.eqb neck "turtleneck" then
      if is_shape b INVERTED_TRIANGLE then
        (clamp (-0.05), "Turtleneck on INVT: upper mass (-0.05)")
      else if is_petite b && (torso_score b <=? -1.0) then
        (clamp 0.10, "Turtleneck petite short-torso: keeps eye UP (+0.10)")
      else (0, "Turtleneck: neutral")
    else if String.eqb neck "wrap" then
      ret 0.08 ["Wrap neckline: mild V-effect (+0.08)"]
    else (0, "Neckline '" ++ neck ++ "': not scored")
  else
    let R := ["V-neck: base elongation +0.10"] in
    let '(base, R) :=
      if is_shape b INVERTED_TRIANGLE then
        (0.18, push R "INVT: narrows shoulder line (+0.18)")
      else if is_shape b HOURGLASS then
        (0.12, push R "Hourglass: frames bust to waist (+0.12)")
      else if is_petite b then
        if torso_score b <=? -1.0 then
          if match rise_cm g with Some rc => truthy_gt rc 26 | None => false end then
            (-0.05, push R "Petite short-torso + V + high rise: CONFLICT (-0.05)")
          else
            (0.15, push R "Petite short-torso + V + mid rise: harmonious (+0.15)")
        else (0.12, push R "Petite: vertical channel (+0.12)")
      else if is_shape b APPLE then
        (0.10, push R "Apple: eye to face, away from belly (+0.10)")
      else if is_tall b then (0.05, push R "Tall: diminishing returns (+0.05)")
      else if is_shape b PEAR then
        (0.10, push R "Pear: attention upward (+0.10)")
      else (0.10, R) in
    ret base R.

Definition score_monochrome_column (g : GarmentProfile) (b : BodyProfile)
    : Q * string :=
  if negb (is_monochrome_outfit g) then (0, "Not monochrome — N/A")
  else
    let dark_bonus := if is_dark g then 0.07 else 0.0 in
    let '(base, R) :=
      if is_petite b then (0.15, ["Petite: AMPLIFIED monochrome (+0.15)"])
      else if is_tall b then (0.03, ["Tall: doesn't need height (+0.03)"])
      else if is_shape b HOURGLASS then
        if has_contrasting_belt g || has_tonal_belt g then
          (0.12, ["Hourglass + mono + belt: best of both (+0.12)"])
        else (0.03, [])
      else if is_shape b INVERTED_TRIANGLE then (0.05, [])
      else if is_shape b APPLE then (0.08, [])
      else if is_shape b PEAR then
        (if color_lightness g <? 0.30 then 0.12 else 0.05, [])
      else if is_plus_size b then (0.10, [])
      else (0.08, []) in
    let '(dark_bonus, R) :=
      if is_plus_size b && is_dark g then
        (Num.max dark_bonus 0.08, push R "Plus + dark mono: most reliable combo")
      else (dark_bonus, R) in
    ret (base + dark_bonus) R.

(* ================================================================ *)
(** ** kridha_engine.py: principle scorers 11-16 *)
(* ================================================================ *)

(** The body of [score_hemline] once [hem = translate_hemline(g, b)] is known. *)
Definition score_hemline_with (hem : HemlineResult)
    (g : GarmentProfile) (b : BodyProfile) : Q * string :=
  let zone := hr_hem_zone hem in
  let R := ["Hem " ++ Text.num ++ Text.dq ++ " from floor -> " ++ zone] in
  if Text.mem zone ["above_knee"; "above_knee_near"] then
    let inches_above := hr_hem_from_floor hem - h_knee b in
    let elongation := Num.min (inches_above * 0.20) 0.60 in
    let '(elongation, R) :=
      if is_petite b then
        (Num.min (elongation + (63 - height b) / 50) 0.80,
         push R ("Petite above-knee: elongation " ++ Text.num))
      else (elongation, R) in
    let '(elongation, R) :=
      if is_tall b && (leg_ratio b >? 0.62) then
        (elongation * 0.65, push R "Tall + long legs: diminished above-knee benefit")
      else (elongation, R) in
    let thigh_penalty :=
      if c_thigh_max b >? 27 then -0.35
      else if c_thigh_max b >? 24 then -0.20
      else if c_thigh_max b >? 22 then -0.10
      else 0.0 in
    let thigh_penalty :=
      if Text.opt_eqb (goal_legs b) "showcase" then thigh_penalty * 0.5
      else if Text.opt_eqb (goal_hip b) "narrower" then thigh_penalty * 1.2
      else thigh_penalty in
    let apple_bonus :=
      if is_shape b APPLE then
        if c_thigh_max b <? 22 then 0.15
        else if c_thigh_max b <? 24 then 0.08
        else 0.0
      else 0.0 in
    ret (elongation + thigh_penalty + apple_bonus) R
  else if String.eqb zone "knee_danger" then
    let score := if is_petite b then -0.40 else -0.30 in
    ret score (push R ("Knee danger zone: " ++ Text.num))
  else if String.eqb zone "safe_zone" then
    let score :=
      match hr_safe_zone hem with
      | Some sz =>
          let zone_position :=
            (snd sz - hr_hem_from_floor hem) / hr_safe_zone_size hem in
          if (0.25 <=? zone_position) && (zone_position <=? 0.75) then 0.30 else 0.15
      | None => 0.15
      end in
    let score := if is_tall b then score + 0.10 else score in
    ret score (push R ("Safe zone: " ++ Text.num))
  else if String.eqb zone "collapsed_zone" then
    ret (-0.20) (push R "Collapsed safe zone: -0.20")
  else if String.eqb zone "calf_danger" then
    let calf_prom := calf_prominence b in
    let base :=
      if calf_prom >? 1.3 then -0.50
      else if calf_prom >? 1.2 then -0.42
      else -0.35 in
    let base := if is_petite b then base * 1.15 else base in
    ret base (push R ("Calf danger zone: " ++ Text.num))
  else if String.eqb zone "below_calf" then
    (clamp 0.15, "Below calf: safe (+0.15)")
  else if String.eqb zone "ankle" then
    let score :=
      if is_petite b then
        if Silhouette_beq (silhouette g) OVERSIZED
           || Silhouette_beq (silhouette g) SHIFT then -0.15
        else if Silhouette_beq (silhouette g) FITTED && has_waist_definition g
          then 0.40
        else if Silhouette_beq (silhouette g) FITTED then 0.15
        else 0.10
      else if is_tall b then 0.45
      else 0.25 in
    let score :=
      if is_shape b HOURGLASS && negb (has_waist_definition g)
      then score - 0.15 else score in
    ret score (push R ("Ankle: " ++ Text.num))
  else if String.eqb zone "floor" then
    let score :=
      if is_tall b then 0.15 else if is_petite b then -0.10 else 0.05 in
    ret score (push R ("Floor: " ++ Text.num))
  else (0, "Unknown zone: " ++ zone ++ " — N/A").

Definition score_hemline (g : GarmentProfile) (b : BodyProfile) : Q * string :=
  score_hemline_with (translate_hemline g b) g b.

Definition score_sleeve (g : GarmentProfile) (b : BodyProfile) : Q * string :=
  if SleeveType_beq (sleeve_type g) SLEEVELESS then
    (0, "Sleeveless: baseline — N/A")
  else
    let sleeve := translate_sleeve g b in
    let delta := sl_delta_vs_actual sleeve in
    let severity := sl_arm_prominence_severity sleeve in
    let R := ["Sleeve endpoint " ++ Text.num ++ Text.dq ++ ", delta=" ++ Text.num
              ++ Text.dq ++ ", severity=" ++ Text.num] in
    let score := apply_severity (delta_to_score delta) severity in
    let '(score, R) :=
      if SleeveType_beq (sleeve_type g) FLUTTER then
        (score + 2.0, push R "Flutter: +2 qualitative bonus (visual ambiguity)")
      else (score, R) in
    let normalized := clamp3 (score / 5.0) (-1.0) 1.0 in
    (normalized,
     Text.join " | "
       (push R ("Raw score " ++ Text.num ++ " -> normalized " ++ Text.num))).

Definition score_waist_placement (g : GarmentProfile) (b : BodyProfile)
    : Q * string :=
  if String.eqb (waist_position g) "no_waist" then
    (0, "No waist definition — N/A")
  else
    let waist := translate_waistline g b in
    let prop_score := wl_proportion_score waist in
    let R := ["Waist=" ++ waist_position g ++ ": visual leg ratio " ++ Text.num
              ++ " (golden=" ++ Text.num ++ "), improvement=" ++ Text.num] in
    let is_empire := String.eqb (waist_position g) "empire" in
    let '(prop_score, R) :=
      if is_empire && is_shape b HOURGLASS then
        let stretch := elastane_pct g * 1.6 in
        if stretch >? 10 then
          (prop_score - 0.10,
           push R "Empire + hourglass + stretch: mild shape loss (-0.10)")
        else if drape g >? 7 then
          (prop_score - 0.15,
           push R "Empire + hourglass + drapey: shape loss (-0.15)")
        else
          (prop_score - 0.30,
           push R "Empire + hourglass + stiff: significant shape loss (-0.30)")
      else (prop_score, R) in
    let '(prop_score, R) :=
      if is_empire && (bust_differential b >=? 6) then
        let bust_proj := bust_differential b * 0.4 in
        if drape g <? 4 then
          let tent_severity := bust_proj * (1.0 - drape g / 10.0) in
          if tent_severity >? 2.0 then
            (prop_score - 0.45,
             push R "Empire + large bust + stiff: tent effect (-0.45)")
          else if tent_severity >? 1.0 then (prop_score - 0.25, R)
          else (prop_score - 0.10, R)
        else (prop_score, R)
      else (prop_score, R) in
    let '(prop_score, R) :=
      if String.eqb (waist_position g) "drop" then
        if leg_ratio b <? 0.55 then
          (prop_score - 0.30,
           push R "Drop waist + short legs: proportion penalty (-0.30)")
        else if leg_ratio b <? 0.58 then (prop_score - 0.15, R)
        else (prop_score, R)
      else (prop_score, R) in
    let '(prop_score, R) :=
      if is_shape b APPLE && String.eqb (waist_position g) "natural"
         && has_contrasting_belt g && (whr b >? 0.85) then
        (prop_score - (if whr b >? 0.88 then 0.30 else -0.15),
         push R "Apple + belt at natural waist: spotlights widest")
      else (prop_score, R) in
    (clamp3 prop_score (-0.80) 0.80, Text.join " | " R).

Definition score_color_value (g : GarmentProfile) (b : BodyProfile)
    : Q * string :=
  let L := color_lightness g * 100 in
  let slim_pct :=
    if L <=? 10 then 0.04
    else if L <=? 25 then 0.03
    else if L <=? 40 then 0.02
    else if L <=? 60 then 0.005
    else if L <=? 80 then -0.005
    else -0.01 in
  let slim_score := slim_pct * 6.25 in
  let R := ["Color L=" ++ Text.num ++ ": slim_pct=" ++ Text.num
            ++ ", score=" ++ Text.num] in
  let '(shape_loss, R) :=
    if (L <=? 25) && is_shape b HOURGLASS then
      let whd := bust b - waist b in
      let shape_loss :=
        if whd >=? 8 then -0.30 * (1.0 - L / 25)
        else if whd >=? 6 then -0.20 * (1.0 - L / 25)
        else -0.10 * (1.0 - L / 25) in
      (shape_loss, push R ("Hourglass dark shape loss: " ++ Text.num))
    else if (L <=? 25) && is_shape b RECTANGLE then
      (0.05, push R "Rectangle dark: clean column bonus (+0.05)")
    else (0.0, R) in
  let contrast_mod :=
    if (L <=? 15) && (zone_is g "torso" || zone_is g "full_body") then
      let skin_garment_contrast := Num.abs (skin_tone_L b / 100 - L / 100) in
      if skin_garment_contrast >? 0.70 then -0.05
      else if skin_garment_contrast <? 0.30 then 0.05
      else 0.0
    else 0.0 in
  ret (slim_score + shape_loss + contrast_mod) R.

Definition score_fabric_zone (g : GarmentProfile) (b : BodyProfile)
    : Q * string :=
  let resolved := resolve_fabric_properties g in
  let cling_score :=
    if rf_cling_risk_base resolved >? 0.6 then
      if is_plus_size b || (belly_zone b >? 0.5) then -0.40 else -0.20
    else if rf_cling_risk_base resolved >? 0.3 then -0.05
    else 0.10 in
  let struct_score :=
    if rf_is_structured resolved then 0.15
    else if rf_effective_gsm resolved >? 250 then 0.08
    else if rf_effective_gsm resolved <? 100 then -0.10
    else 0.0 in
  let sheen_score := fst (score_matte_zone g b) in
  let dc := rf_drape_coefficient resolved in
  let drape_score :=
    if dc <? 30 then 0.10
    else if dc <? 50 then 0.05
    else if dc <? 70 then 0.0
    else -0.10 in
  let scores :=
    [ (cling_score, 0.30); (struct_score, 0.20); (sheen_score, 0.15);
      (drape_score, 0.10); (0.0, 0.08); (0.0, 0.05); (0.0, 0.05);
      (0.0, 0.04); (0.0, 0.03) ] in
  let total := Num.sum (map (fun sw => fst sw * snd sw) scores) in
  let total_w := Num.sum (map snd scores) in
  let composite := if total_w >? 0 then total / total_w else 0.0 in
  ret composite ["Fabric zone: stretch=" ++ Text.num ++ "%, GSM=" ++ Text.num
                 ++ ", sheen=" ++ Text.num].

Definition score_neckline_compound (g : GarmentProfile) (b : BodyProfile)
    : Q * string :=
  let neck := _neckline_str g in
  if negb (Text.mem neck ["v_neck"; "deep_v"; "wrap"; "scoop"]) then
    (0, "Neckline '" ++ neck ++ "': no compound scoring — N/A")
  else
    let fallback_depth := if v_depth_cm g >? 0 then v_depth_cm g / 2.54 else 4.0 in
    let depth :=
      match neckline_depth g with
      | Some d => if d =? 0 then fallback_depth else d
      | None => fallback_depth
      end in
    let bd := bust_differential b in
    let threshold := get_bust_dividing_threshold bd in
    let fabric_stretch := elastane_pct g * 0.01 in
    let effective_depth := depth + fabric_stretch * 1.0 in
    let effective_depth :=
      if is_shape b HOURGLASS && (bd >=? 6) then effective_depth + 0.75
      else effective_depth in
    let effective_depth :=
      if is_plus_size b && (bd >=? 8) then effective_depth + 1.0
      else effective_depth in
    let depth_ratio := if threshold >? 0 then effective_depth / threshold else 1.0 in
    let by_goal (enhance minimize other : Q) : Q :=
      if Text.opt_eqb (goal_bust b) "enhance" then enhance
      else if Text.opt_eqb (goal_bust b) "minimize" then minimize
      else other in
    let bust_score :=
      if depth_ratio <? 0.60 then 0.30
      else if depth_ratio <? 0.85 then 0.50
      else if depth_ratio <? 1.0 then by_goal 0.70 (-0.20) 0.30
      else if depth_ratio <? 1.15 then by_goal 0.30 (-0.60) (-0.15)
      else by_goal 0.10 (-0.85) (-0.35) in
    let R := ["Bust: depth=" ++ Text.num ++ Text.dq ++ ", threshold=" ++ Text.num
              ++ Text.dq ++ ", ratio=" ++ Text.num ++ ", score=" ++ Text.num] in
    let v_width := v_depth_cm g * 0.8 in
    let v_angle := if depth >? 0 then v_width / depth else 1.0 in
    let torso_base :=
      if v_angle <? 0.5 then 0.25
      else if v_angle <? 1.0 then 0.18
      else if v_angle <? 1.5 then 0.10
      else 0.05 in
    let torso_base :=
      if is_shape b APPLE then torso_base * 1.30
      else if is_shape b RECTANGLE then torso_base * 1.15
      else torso_base in
    let balance :=
      if is_shape b INVERTED_TRIANGLE then 0.45
      else if is_shape b PEAR then 0.30
      else if is_shape b RECTANGLE then 0.20
      else if is_shape b HOURGLASS then 0.10
      else 0.15 in
    let compound := bust_score * 0.40 + torso_base * 0.30 + balance * 0.30 in
    ret compound
      (push R ("Compound: bust=" ++ Text.num ++ "*0.4 + torso=" ++ Text.num
               ++ "*0.3 + balance=" ++ Text.num ++ "*0.3 = " ++ Text.num)).

(* ================================================================ *)
(** ** garment_types.py: routing and classification *)
(* ================================================================ *)

Definition pants_skip : list string :=
  ["V-Neck Elongation"; "Neckline Compound"; "Sleeve"; "Rise Elongation"; "Hemline"].

(** [_SCORERS_TO_SKIP.get(category, set())]. *)
Definition get_scorers_to_skip (category : GarmentCategory) : list string :=
  match category with
  | DRESS => []
  | TOP => ["Hemline"]
  | SWEATSHIRT => ["Hemline"]
  | BODYSUIT => ["Hemline"]
  | BOTTOM_PANTS => pants_skip
  | BOTTOM_SHORTS => pants_skip
  | SKIRT => ["V-Neck Elongation"; "Neckline Compound"; "Sleeve"; "Rise Elongation"]
  | JUMPSUIT => []
  | ROMPER => []
  | JACKET => ["Hemline"]
  | COAT => []
  | CARDIGAN => ["Hemline"]
  | VEST => ["Hemline"; "Sleeve"]
  | _ => []
  end.

(** [_EXTRA_SCORERS.get(category, [])]. *)
Definition get_extra_scorer_names (category : GarmentCategory) : list string :=
  match category with
  | TOP | SWEATSHIRT | BODYSUIT | CARDIGAN => ["Top Hemline"]
  | BOTTOM_PANTS | BOTTOM_SHORTS => ["Pant Rise"; "Leg Shape"]
  | JACKET | COAT => ["Jacket Scoring"]
  | _ => []
  end.

Definition is_layer_garment (category : GarmentCategory) : bool :=
  match category with
  | JACKET | COAT | CARDIGAN | VEST => true
  | _ => false
  end.

Definition TYPE_SCORER_ZONE_MAPPING : list (string * list string) :=
  [ ("Top Hemline", ["hip"; "torso"]);
    ("Pant Rise", ["waist"]);
    ("Leg Shape", ["hip"; "thigh"]);
    ("Jacket Scoring", ["shoulder"; "waist"; "hip"; "torso"]) ].

Definition TYPE_SCORER_WEIGHTS : list (string * Q) :=
  [ ("Top Hemline", 0.15); ("Pant Rise", 0.18);
    ("Leg Shape", 0.15); ("Jacket Scoring", 0.18) ].

Definition _TITLE_KEYWORDS : list (GarmentCategory * list string) :=
  [ (DRESS, ["maxi dress"; "mini dress"; "midi dress"; "shift dress";
             "wrap dress"; "dress"; "gown"; "frock"]);
    (TOP, ["crop top"; "halter top"; "t-shirt"; "blouse"; "shirt"; "tee";
           "cami"; "camisole"; "tank"; "tunic"; "henley"; "polo"; "top";
           "bustier"; "corset top"; "bralette"]);
    (BOTTOM_PANTS, ["wide-leg"; "straight-leg"; "slim pant"; "pants"; "trouser";
                    "jeans"; "denim"; "chino"; "legging"; "jogger"; "cargo";
                    "palazzo"; "culottes"; "sweatpant"]);
    (BOTTOM_SHORTS, ["shorts"; "bermuda"; "hot pants"]);
    (SKIRT, ["denim skirt"; "mini skirt"; "midi skirt"; "maxi skirt";
             "pencil skirt"; "a-line skirt"; "pleated skirt"; "skirt"; "skort"]);
    (JUMPSUIT, ["jumpsuit"]);
    (ROMPER, ["romper"; "playsuit"]);
    (JACKET, ["denim jacket"; "leather jacket"; "cropped jacket";
              "jacket"; "blazer"; "bomber"; "moto"; "shacket"]);
    (COAT, ["overcoat"; "trench"; "parka"; "peacoat"; "puffer";
            "down jacket"; "rain jacket"; "coat";
            "anorak"; "cape"; "poncho"]);
    (SWEATSHIRT, ["sweatshirt"; "hoodie"; "pullover"; "fleece"]);
    (CARDIGAN, ["cardigan"; "kimono"; "duster"]);
    (VEST, ["vest"; "gilet"; "waistcoat"]);
    (BODYSUIT, ["bodysuit"]);
    (ACTIVEWEAR, ["sports bra"; "yoga pants"; "workout top"; "athletic"]);
    (LOUNGEWEAR, ["pajama"; "robe"; "loungewear"; "nightgown"; "sleepwear"]);
    (SAREE, ["saree"; "sari"]);
    (SALWAR_KAMEEZ, ["salwar"; "kameez"; "kurta"; "kurti"; "anarkali"; "churidar"]);
    (LEHENGA, ["lehenga"; "lehnga"; "chaniya choli"]) ].

(** One element of [all_matches]: [(len(keyword), keyword, category)]. *)
Definition Match : Type := (nat * string * GarmentCategory)%type.

(** Python's order on these tuples; a [GarmentCategory] is a [str] and
    compares by its value. *)
Definition match_ltb (x y : Match) : bool :=
  let '(lx, kx, cx) := x in
  let '(ly, ky, cy) := y in
  if Nat.ltb lx ly then true
  else if Nat.ltb ly lx then false
  else match String.compare kx ky with
       | Lt => true
       | Gt => false
       | Eq => match String.compare (category_value cx) (category_value cy) with
               | Lt => true
               | _ => false
               end
       end.

Definition all_matches (title : string) : list Match :=
  flat_map
    (fun entry : GarmentCategory * list string =>
       let (category, keywords) := entry in
       flat_map
         (fun keyword =>
            if Text.contains keyword title
            then [(String.length keyword, keyword, category)] else [])
         keywords)
    _TITLE_KEYWORDS.

(** [all_matches.sort(reverse=True); all_matches[0]]: the greatest tuple. *)
Fixpoint greatest (best : Match) (rest : list Match) : Match :=
  match rest with
  | [] => best
  | m :: rest' => greatest (if match_ltb best m then m else best) rest'
  end.

Definition is_some {A : Type} (o : option A) : bool :=
  match o with Some _ => true | None => false end.

Definition attribute_fallback (garment : GarmentProfile) : GarmentCategory :=
  if is_some (rise garment) && is_some (leg_shape garment) then BOTTOM_PANTS
  else if is_some (skirt_construction garment) then SKIRT
  else if is_some (jacket_closure garment) then JACKET
  else category garment.

Definition classify_garment (garment : GarmentProfile) : GarmentCategory :=
  let title := Text.lower (Text.or_else (title garment) EmptyString) in
  if negb (String.eqb title EmptyString) then
    match all_matches title with
    | m :: rest => snd (greatest m rest)
    | [] => attribute_fallback garment
    end
  else attribute_fallback garment.

(* ================================================================ *)
(** ** garment_types.py: type-specific scorers *)
(* ================================================================ *)

Definition behavior_is (g : GarmentProfile) (t : TopHemBehavior) : bool :=
  match top_hem_behavior g with
  | Some x => TopHemBehavior_beq x t
  | None => false
  end.

Definition score_top_hemline (g : GarmentProfile) (b : BodyProfile) : Q * string :=
  let hem_pos := Text.or_else (top_hem_length g) "at_hip" in
  let shape := body_shape b in
  if behavior_is g TUCKED then
    let R := ["Tucked: hem invisible, waist definition +0.15"] in
    if gsm_estimated g >? 250 then
      ret (0.15 - 0.20) (push R "Heavy fabric tucked: bulk at waist (-0.20)")
    else ret 0.15 R
  else if behavior_is g HALF_TUCKED then
    let score := 0.20 in
    let R := ["Half-tucked: partial waist definition, asymmetric break +0.20"] in
    let '(score, R) :=
      match shape with
      | PEAR =>
          (score + 0.10, push R "Pear: asymmetric break disrupts hip-level line (+0.10)")
      | APPLE =>
          (score + 0.05, push R "Apple: partial tuck draws eye to waist area (+0.05)")
      | _ => (score, R)
      end in
    let '(score, R) :=
      if has_goal b HIGHLIGHT_WAIST then
        (score + 0.10, push R "highlight_waist: partial definition (+0.10)")
      else (score, R) in
    let '(score, R) :=
      if gsm_estimated g >? 250 then
        (score - 0.15, push R "Heavy fabric: bunching at tuck point (-0.15)")
      else (score, R) in
    ret score R
  else if behavior_is g HEM_BODYSUIT then
    (clamp 0.10, "Bodysuit: no visible hem, smooth line +0.10")
  else if behavior_is g CROPPED || String.eqb hem_pos "cropped" then
    let R := ["Cropped top: break above waist"] in
    let '(score, R) :=
      if is_petite b && (torso_leg_ratio b <? 0.48) then
        (-0.35, push R "Petite + short torso: further shortening (-0.35)")
      else if is_petite b then
        (0.30, push R "Petite + proportional torso: lengthens legs (+0.30)")
      else (0.15, R) in
    let '(score, R) :=
      if BodyShape_beq shape APPLE && has_goal b HIDE_MIDSECTION then
        (-0.70, push R "Apple + hide_midsection: crop exposes midsection (-0.70)")
      else (score, R) in
    ret score R
  else if String.eqb hem_pos "at_waist" then
    let score := 0.20 in
    let R := ["At waist: defines waist (+0.20)"] in
    ret (if has_goal b HIGHLIGHT_WAIST then score + 0.15 else score) R
  else if String.eqb hem_pos "just_below_waist" then
    (clamp 0.15, "Just below waist: slight torso lengthening (+0.15)")
  else if String.eqb hem_pos "at_hip" then
    let R := ["At hip: critical zone"] in
    let fit := Text.or_else (fit_category g) (silhouette_label g) in
    let '(score, R) :=
      match shape with
      | PEAR =>
          let score := if Text.mem fit ["relaxed"; "loose"] then -0.30 else -0.45 in
          let R := push R ("Pear: line at widest hip point (" ++ Text.num ++ ")") in
          if has_goal b SLIM_HIPS then
            (score - 0.10, push R "+ slim_hips goal: amplified")
          else (score, R)
      | INVERTED_TRIANGLE =>
          (0.35, push R "INVT: hip-level hem adds visual weight below (+0.35)")
      | APPLE =>
          if Text.mem fit ["relaxed"; "loose"] then
            (0.20, push R "Apple + relaxed: skims past midsection (+0.20)")
          else (-0.15, push R "Apple + fitted: pulls at midsection (-0.15)")
      | _ => (0.0, push R "Neutral body type: hip-level is default")
      end in
    ret score R
  else if Text.mem hem_pos ["below_hip"; "tunic_length"] then
    let R := [hem_pos ++ ": covers hips, shortens leg line"] in
    let score := 0.0 in
    let '(score, R) :=
      if has_goal b SLIM_HIPS || has_goal b HIDE_MIDSECTION then
        (score + 0.35,
         push R "Coverage goal met: good for hip/midsection hiding (+0.35)")
      else (score, R) in
    let '(score, R) :=
      if has_goal b LOOK_TALLER then
        let penalty := if String.eqb hem_pos "tunic_length" then -0.35 else -0.20 in
        (score + penalty, push R ("Shortens leg line (" ++ Text.num ++ ")"))
      else (score, R) in
    let '(score, R) :=
      if is_petite b && String.eqb hem_pos "tunic_length" then
        (score - 0.20, push R "Petite + tunic: overwhelms frame (-0.20)")
      else (score, R) in
    ret score R
  else (0, "Top hemline '" ++ hem_pos ++ "' — N/A").

(** The rise label [score_pant_rise] works with: [g.rise], or a label
    inferred from [rise_cm], or nothing. *)
Definition resolve_rise (g : GarmentProfile) : option string :=
  match rise g with
  | Some r => Some r
  | None =>
      match rise_cm g with
      | Some rc =>
          if rc >? 26 then Some "high"
          else if rc >? 22 then Some "mid"
          else Some "low"
      | None => None
      end
  end.

Definition score_pant_rise (g : GarmentProfile) (b : BodyProfile) : Q * string :=
  match resolve_rise g with
  | None => (0, "No rise data — N/A")
  | Some rise =>
    let shape := body_shape b in
    if Text.mem rise ["high"; "ultra_high"] then
      let score := 0.25 in
      let R := ["High rise: leg elongation base +0.25"] in
      let '(score, R) :=
        if has_goal b LOOK_TALLER then
          (score + 0.25, push R "look_taller goal: amplified (+0.25)")
        else (score, R) in
      let '(score, R) :=
        if has_goal b HIGHLIGHT_WAIST then
          (score + 0.15, push R "highlight_waist: waistband cinches (+0.15)")
        else (score, R) in
      let '(score, R) :=
        if BodyShape_beq shape APPLE && (whr b >? 0.85) then
          if negb (waistband_stretch_pct g =? 0) && (waistband_stretch_pct g >=? 8.0)
          then
            (score - 0.10,
             push R "Apple: stretch waistband mitigates muffin risk (-0.10)")
          else
            (score - 0.25, push R "Apple: muffin-top risk at midsection (-0.25)")
        else (score, R) in
      let '(score, R) :=
        if is_petite b then
          (score + 0.10, push R "Petite: high rise strongly benefits (+0.10)")
        else (score, R) in
      ret score R
    else if String.eqb rise "mid" then
      (clamp 0.05, "Mid rise: neutral-positive +0.05")
    else if String.eqb rise "low" then
      let score := -0.15 in
      let R := ["Low rise: shortens leg line -0.15"] in
      let '(score, R) :=
        if has_goal b LOOK_TALLER then
          (score - 0.25, push R "look_taller goal: strongly fights (-0.25)")
        else (score, R) in
      let '(score, R) :=
        if is_petite b then
          (score - 0.15, push R "Petite: low rise significantly shortens leg (-0.15)")
        else (score, R) in
      let '(score, R) :=
        if has_goal b HIDE_MIDSECTION then
          (score - 0.15, push R "hide_midsection: low rise exposes gap (-0.15)")
        else (score, R) in
      ret score R
    else (0, "Rise '" ++ rise ++ "' — N/A")
  end.

Definition rise_is_high (g : GarmentProfile) : bool :=
  Text.opt_mem (rise g) ["high"; "ultra_high"].

Definition score_leg_shape (g : GarmentProfile) (b : BodyProfile) : Q * string :=
  match leg_shape g with
  | None => (0, "No leg shape data — N/A")
  | Some leg =>
    let shape := body_shape b in
    let '(thigh_cling_penalty, R) :=
      if Text.mem leg ["skinny"; "slim"] then
        let _CONSTRUCTION_MULT :=
          [ ("woven", 1.6); ("knit", 4.0); ("knit_rib", 5.5);
            ("knit_double", 3.5); ("knit_jersey", 4.0) ] in
        let constr_val := construction_value (construction g) in
        let total_stretch :=
          elastane_pct g * dict_get _CONSTRUCTION_MULT constr_val 2.0 in
        if (total_stretch <? 8) && (c_thigh_max b >? 24) then
          (-0.10, ["Low-stretch skinny + large thigh (" ++ Text.num ++ Text.dq
                   ++ "): cling risk (-0.10)"])
        else if (total_stretch <? 8) && (c_thigh_max b >? 22) then
          (-0.05, ["Low-stretch " ++ leg
                   ++ " + moderate thigh: mild cling risk (-0.05)"])
        else (0.0, [])
      else (0.0, []) in
    if Text.mem leg ["skinny"; "slim"] then
      let R := push R (leg ++ ": follows body contour") in
      let '(score, R) :=
        match shape with
        | PEAR =>
            let '(score, R) :=
              if has_goal b SLIM_HIPS then
                (-0.35,
                 push R "Pear + slim_hips: emphasizes hip-to-ankle taper (-0.35)")
              else (-0.10, push R "Pear: shows hip curve (-0.10)") in
            if rise_is_high g then
              (score + 0.10,
               push R "+ high rise: elongation partially offsets (+0.10)")
            else (score, R)
        | INVERTED_TRIANGLE =>
            (-0.25, push R "INVT: narrow bottom emphasizes shoulder width (-0.25)")
        | RECTANGLE => (0.15, push R "Rectangle: clean line (+0.15)")
        | HOURGLASS => (0.15, push R "Hourglass: follows natural curve (+0.15)")
        | APPLE => (0.0, R)
        end in
      ret (score + thigh_cling_penalty) R
    else if Text.mem leg ["wide_leg"; "palazzo"] then
      let R := push R (leg ++ ": adds volume at leg") in
      let '(score, R) :=
        if is_petite b then
          if rise_is_high g then
            (0.15, push R "Petite + high rise: volume manageable (+0.15)")
          else
            (-0.30, push R "Petite without high rise: overwhelms frame (-0.30)")
        else
          match shape with
          | PEAR =>
              let R := push R "Pear: skims over hips and thighs (+0.40)" in
              if rise_is_high g then
                (0.40 + 0.10,
                 push R "+ high rise: defines waist before volume starts (+0.10)")
              else if Text.opt_eqb (rise g) "low" then
                (0.40 - 0.20,
                 push R "+ low rise: volume starts too early, no waist anchor (-0.20)")
              else (0.40, R)
          | INVERTED_TRIANGLE =>
              let R := push R "INVT: leg volume balances shoulders (+0.40)" in
              if rise_is_high g then
                (0.40 + 0.05, push R "+ high rise: clean proportion line (+0.05)")
              else (0.40, R)
          | APPLE =>
              let R := push R "Apple: volume below balances midsection (+0.25)" in
              if rise_is_high g && (waistband_stretch_pct g >=? 8.0) then
                (0.25 + 0.10,
                 push R "+ stretch high rise: smooth waist transition (+0.10)")
              else if Text.opt_eqb (rise g) "low" then
                (0.25 - 0.15, push R "+ low rise: gap at midsection (-0.15)")
              else (0.25, R)
          | _ => (0.15, R)
          end in
      ret score R
    else if String.eqb leg "straight" then
      (clamp 0.15, "Straight: clean, balanced line (+0.15)")
    else if Text.mem leg ["bootcut"; "flare"] then
      let R := push R (leg ++ ": volume at hem") in
      let '(score, R) :=
        if BodyShape_beq shape PEAR then
          (0.30, push R "Pear: flare balances hip width (+0.30)")
        else (0.15, R) in
      let '(score, R) :=
        if has_goal b LOOK_TALLER then
          (score + 0.15,
           push R "look_taller: flare + heel creates long line (+0.15)")
        else (score, R) in
      ret score R
    else if String.eqb leg "tapered" then
      let R := push R "Tapered: relaxed through thigh, narrow at ankle" in
      if BodyShape_beq shape PEAR then
        ret (-0.15) (push R "Pear: taper emphasizes hip-ankle contrast (-0.15)")
      else ret 0.10 R
    else if String.eqb leg "jogger" then
      let R := push R "Jogger: elastic cuff at ankle" in
      if is_petite b then
        ret (-0.15) (push R "Petite: elastic cuff shortens leg line (-0.15)")
      else ret 0.0 R
    else (0, "Leg shape '" ++ leg ++ "' — N/A")
  end.

Definition score_jacket_scoring (g : GarmentProfile) (b : BodyProfile)
    : Q * string :=
  let score := 0.0 in
  let R : list string := [] in
  let shape := body_shape b in
  let structure := Text.or_else (shoulder_structure g) "natural" in
  let '(score, R) :=
    if Text.mem structure ["padded"; "structured"] then
      match shape with
      | PEAR => (score + 0.50, push R "Structured shoulders balance pear hips (+0.50)")
      | INVERTED_TRIANGLE =>
          (score - 0.40,
           push R "Padded shoulders widen already-broad shoulders (-0.40)")
      | RECTANGLE =>
          (score + 0.25, push R "Structure creates shape on straight frame (+0.25)")
      | _ => (score + 0.10, push R "Structured shoulders: mild positive")
      end
    else if Text.mem structure ["dropped"; "oversized"] then
      if BodyShape_beq shape INVERTED_TRIANGLE then
        (score + 0.20, push R "Dropped shoulders soften broad shoulder line (+0.20)")
      else if is_petite b then
        (score - 0.30, push R "Oversized shoulders overwhelm petite frame (-0.30)")
      else (score + 0.05, R)
    else (score, R) in
  let length := Text.or_else (jacket_length g) "hip" in
  let '(score, R) :=
    if String.eqb length "cropped" then
      let score := score + 0.30 in
      let R := push R "Cropped jacket defines waist (+0.30)" in
      if has_goal b LOOK_TALLER then
        (score + 0.15, push R "look_taller: short jacket = longer leg line (+0.15)")
      else (score, R)
    else if String.eqb length "hip" then
      match shape with
      | PEAR => (score - 0.30, push R "Hip-length ends at pear's widest point (-0.30)")
      | INVERTED_TRIANGLE =>
          (score + 0.20, push R "Hip-length adds visual weight below (+0.20)")
      | _ => (score, R)
      end
    else if Text.mem length ["mid_thigh"; "knee"; "below_knee"; "full_length"] then
      let '(score, R) :=
        if has_goal b LOOK_TALLER then
          (score - 0.20, push R "Long jacket shortens visible leg line (-0.20)")
        else (score, R) in
      if has_goal b HIDE_MIDSECTION || has_goal b SLIM_HIPS then
        (score + 0.30,
         push R "Long jacket provides midsection/hip coverage (+0.30)")
      else (score, R)
    else (score, R) in
  let '(score, R) :=
    if Text.opt_eqb (jacket_closure g) "open_front" then
      (score + 0.20, push R "Open front: vertical line elongates torso (+0.20)")
    else if Text.opt_eqb (jacket_closure g) "double_breasted" then
      match shape with
      | APPLE => (score - 0.15, push R "Double-breasted adds midsection bulk (-0.15)")
      | RECTANGLE => (score + 0.10, push R "Double-breasted adds dimension (+0.10)")
      | _ => (score, R)
      end
    else (score, R) in
  ret score R.

(* ================================================================ *)
(** ** kridha_engine.py: the composite scorer *)
(* ================================================================ *)

Definition Scorer : Type := GarmentProfile -> BodyProfile -> Q * string.

Definition _SCORERS : list (string * Scorer) :=
  [ ("H-Stripe Thinning", score_horizontal_stripes);
    ("Dark/Black Slimming", score_dark_slimming);
    ("Rise Elongation", score_rise_elongation);
    ("A-Line Balance", score_aline_balance);
    ("Tent Concealment", score_tent_concealment);
    ("Color Break", score_color_break);
    ("Bodycon Mapping", score_bodycon_mapping);
    ("Matte Zone", score_matte_zone);
    ("V-Neck Elongation", score_vneck_elongation);
    ("Monochrome Column", score_monochrome_column);
    ("Hemline", score_hemline);
    ("Sleeve", score_sleeve);
    ("Waist Placement", score_waist_placement);
    ("Color Value", score_color_value);
    ("Fabric Zone", score_fabric_zone);
    ("Neckline Compound", score_neckline_compound) ].

Definition _BASE_WEIGHTS : list (string * Q) :=
  [ ("H-Stripe Thinning", 0.10);
    ("Dark/Black Slimming", 0.08);
    ("Rise Elongation", 0.08);
    ("A-Line Balance", 0.10);
    ("Tent Concealment", 0.12);
    ("Color Break", 0.08);
    ("Bodycon Mapping", 0.12);
    ("Matte Zone", 0.06);
    ("V-Neck Elongation", 0.10);
    ("Monochrome Column", 0.06);
    ("Hemline", 0.18);
    ("Sleeve", 0.15);
    ("Waist Placement", 0.15);
    ("Color Value", 0.08);
    ("Fabric Zone", 0.10);
    ("Neckline Compound", 0.12) ].

Definition _GOAL_WEIGHT_BOOSTS (goal : StylingGoal) : list (string * Q) :=
  match goal with
  | LOOK_TALLER =>
      [ ("Monochrome Column", 1.5); ("Rise Elongation", 1.3);
        ("V-Neck Elongation", 1.3); ("Hemline", 1.3);
        ("Pant Rise", 1.5); ("Top Hemline", 1.2) ]
  | HIGHLIGHT_WAIST =>
      [ ("Color Break", 1.5); ("Bodycon Mapping", 1.3);
        ("Waist Placement", 1.5);
        ("Pant Rise", 1.3); ("Jacket Scoring", 1.2) ]
  | HIDE_MIDSECTION =>
      [ ("Tent Concealment", 1.5); ("Dark/Black Slimming", 1.3);
        ("Matte Zone", 1.3); ("Fabric Zone", 1.2);
        ("Top Hemline", 1.3); ("Jacket Scoring", 1.2) ]
  | SLIM_HIPS =>
      [ ("Dark/Black Slimming", 1.5); ("A-Line Balance", 1.3);
        ("Matte Zone", 1.3); ("Hemline", 1.2);
        ("Leg Shape", 1.5); ("Top Hemline", 1.3) ]
  | LOOK_PROPORTIONAL =>
      [ ("Waist Placement", 1.5); ("Hemline", 1.3);
        ("Rise Elongation", 1.3);
        ("Pant Rise", 1.3) ]
  | MINIMIZE_ARMS =>
      [ ("Sleeve", 1.5); ("Matte Zone", 1.3);
        ("Jacket Scoring", 1.2) ]
  | SLIMMING =>
      [ ("Dark/Black Slimming", 1.5); ("Matte Zone", 1.5);
        ("H-Stripe Thinning", 1.3); ("Tent Concealment", 1.5) ]
  | CONCEALMENT =>
      [ ("Tent Concealment", 1.5); ("Matte Zone", 1.3) ]
  | EMPHASIS =>
      [ ("Bodycon Mapping", 1.5); ("Color Break", 1.5);
        ("V-Neck Elongation", 1.5) ]
  | BALANCE => []
  end.

Definition _TYPE_SCORER_FUNCS : list (string * Scorer) :=
  [ ("Top Hemline", score_top_hemline);
    ("Pant Rise", score_pant_rise);
    ("Leg Shape", score_leg_shape);
    ("Jacket Scoring", score_jacket_scoring) ].

(** *** Layer 2: element scoring *)

(** [s.replace(old, new)] for one-character [old] and [new]. *)
Fixpoint replace_char (old new : ascii) (s : string) : string :=
  match s with
  | EmptyString => EmptyString
  | String c r =>
      String (if Ascii.eqb c old then new else c) (replace_char old new r)
  end.

(** [name.lower().replace(" ", "_").replace("/", "_")]. *)
Definition confidence_key (name : string) : string :=
  replace_char "/"%char "_"%char (replace_char " "%char "_"%char (Text.lower name)).

(** [abs(score) < 0.001 and "n/a" in reasoning.lower()]. *)
Definition reads_not_applicable (score : Q) (reasoning : string) : bool :=
  (Num.abs score <? 0.001) && Text.contains "n/a" (Text.lower reasoning).

Definition apply_penalty_reduction (penalty_reduction score : Q) : Q :=
  if (score <? 0) && (penalty_reduction <? 1.0) then score * penalty_reduction
  else score.

Definition skipped_result (name : string) (category : GarmentCategory)
    : PrincipleResult :=
  {| pr_name := name; pr_score := 0;
     pr_reasoning := "N/A for " ++ category_value category;
     pr_weight := 0; pr_applicable := false; pr_confidence := 0 |}.

(** The body of the loops over scorers, after the scorer has run. *)
Definition scored_result (name : string) (out : Q * string)
    (penalty_reduction base_weight confidence : Q) : PrincipleResult :=
  let '(score, reasoning) := out in
  let score := apply_penalty_reduction penalty_reduction score in
  let na := reads_not_applicable score reasoning in
  {| pr_name := name; pr_score := score; pr_reasoning := reasoning;
     pr_weight := if na then 0 else base_weight;
     pr_applicable := negb na;
     pr_confidence := confidence |}.

Definition run_generic_scorer (garment : GarmentProfile) (body : BodyProfile)
    (category : GarmentCategory) (penalty_reduction : Q)
    (entry : string * Scorer) : PrincipleResult :=
  let (name, scorer) := entry in
  if Text.mem name (get_scorers_to_skip category) then skipped_result name category
  else
    scored_result name (scorer garment body) penalty_reduction
      (dict_get _BASE_WEIGHTS name 0.10)
      (dict_get PRINCIPLE_CONFIDENCE (confidence_key name) 0.70).

Definition run_extra_scorer (garment : GarmentProfile) (body : BodyProfile)
    (penalty_reduction : Q) (extra_name : string) : list PrincipleResult :=
  match dict_find _TYPE_SCORER_FUNCS extra_name with
  | None => []
  | Some scorer_fn =>
      [ scored_result extra_name (scorer_fn garment body) penalty_reduction
          (dict_get TYPE_SCORER_WEIGHTS extra_name 0.10) 0.70 ]
  end.

Definition element_scoring (garment : GarmentProfile) (body : BodyProfile)
    (category : GarmentCategory) (penalty_reduction : Q) : list PrincipleResult :=
  (map (run_generic_scorer garment body category penalty_reduction) _SCORERS
   ++ flat_map (run_extra_scorer garment body penalty_reduction)
        (get_extra_scorer_names category))%list.

(** *** Layer 3: perceptual calibration *)

Definition applicable_weight_total (prs : list PrincipleResult) : Q :=
  Num.sum (map pr_weight (filter pr_applicable prs)).

(** The weight after the goal boosts and the negative amplification. *)
Definition boosted_weight (goals : list StylingGoal) (r : PrincipleResult) : Q :=
  let w :=
    fold_left
      (fun w goal =>
         match dict_find (_GOAL_WEIGHT_BOOSTS goal) (pr_name r) with
         | Some k => w * k
         | None => w
         end)
      goals (pr_weight r) in
  if pr_score r <? -0.15 then w * 1.2 else w.

(** The cap the loop computes while it stands at one result: [results] is
    the whole list as it is at that moment. *)
Definition weight_cap (results : list PrincipleResult) : Q :=
  if existsb pr_applicable results then 0.35 * applicable_weight_total results
  else 0.35.

(** One iteration of the loop on the result [r], with the results before it
    ([done], already calibrated) and after it ([rest], not yet visited). *)
Definition calibrate_one (goals : list StylingGoal)
    (done : list PrincipleResult) (r : PrincipleResult)
    (rest : list PrincipleResult) : PrincipleResult :=
  if negb (pr_applicable r) then r
  else
    let r1 := set_weight (boosted_weight goals r) r in
    set_weight (Num.min (pr_weight r1) (weight_cap (done ++ r1 :: rest)%list)) r1.

Fixpoint calibrate_from (goals : list StylingGoal)
    (done todo : list PrincipleResult) : list PrincipleResult :=
  match todo with
  | [] => done
  | r :: rest =>
      calibrate_from goals (done ++ [calibrate_one goals done r rest])%list rest
  end.

Definition calibrate (goals : list StylingGoal) (prs : list PrincipleResult)
    : list PrincipleResult :=
  calibrate_from goals [] prs.

(** *** Helpers of layer 7 *)

Definition zone_mapping : list (string * list string) :=
  ([ ("H-Stripe Thinning", ["torso"]);
     ("Dark/Black Slimming", ["torso"]);
     ("Rise Elongation", ["waist"]);
     ("A-Line Balance", ["hip"]);
     ("Tent Concealment", ["torso"; "hip"]);
     ("Color Break", ["waist"]);
     ("Bodycon Mapping", ["torso"; "hip"; "thigh"]);
     ("Matte Zone", ["torso"; "hip"]);
     ("V-Neck Elongation", ["bust"; "shoulder"]);
     ("Monochrome Column", ["torso"]);
     ("Hemline", ["knee"; "calf"; "ankle"]);
     ("Sleeve", ["upper_arm"; "shoulder"]);
     ("Waist Placement", ["waist"]);
     ("Color Value", ["torso"]);
     ("Fabric Zone", ["torso"; "hip"]);
     ("Neckline Compound", ["bust"]) ]
   ++ TYPE_SCORER_ZONE_MAPPING)%list.

(** The dict [zones]: zone name to its scores and flags. *)
Definition Zones : Type := list (string * (list Q * list string)).

Fixpoint zone_add (zones : Zones) (z : string) (score : Q) (flag : list string)
    : Zones :=
  match zones with
  | [] => [(z, ([score], flag))]
  | (z', (scores, flags)) :: rest =>
      if String.eqb z z' then (z', (scores ++ [score], flags ++ flag)%list) :: rest
      else (z', (scores, flags)) :: zone_add rest z score flag
  end.

Fixpoint insert_zone (x : string * (list Q * list string)) (sorted : Zones) : Zones :=
  match sorted with
  | [] => [x]
  | y :: rest =>
      match String.compare (fst x) (fst y) with
      | Lt => x :: y :: rest
      | _ => y :: insert_zone x rest
      end
  end.

Definition _compute_zone_scores (principles : list PrincipleResult)
    : list ZoneScore :=
  let zones : Zones :=
    fold_left
      (fun zones p =>
         if negb (pr_applicable p) then zones
         else
           fold_left
             (fun zones z =>
                zone_add zones z (pr_score p)
                  (if pr_score p <? -0.20
                   then [pr_name p ++ ": " ++ Text.num] else []))
             (dict_get zone_mapping (pr_name p) [])
             zones)
      principles [] in
  map
    (fun entry : string * (list Q * list string) =>
       let '(zone_name, (scores, flags)) := entry in
       let avg :=
         match scores with
         | [] => 0.0
         | _ => Num.sum scores / inject_Z (Z.of_nat (List.length scores))
         end in
       {| zs_zone := zone_name; zs_score := Num.round_nd 3 avg; zs_flags := flags |})
    (fold_left (fun sorted x => insert_zone x sorted) zones []).

Definition fix_suggestions : list (string * (string * Q)) :=
  [ ("Tent Concealment", ("Try semi-fitted silhouette (ER 0.03-0.08)", 0.20));
    ("Bodycon Mapping",
       ("Add structured layer or choose heavier fabric (GSM 250+)", 0.25));
    ("Color Break", ("Remove contrasting belt or switch to tonal belt", 0.10));
    ("A-Line Balance", ("Choose fabric with lower drape coefficient (<40%)", 0.15));
    ("Rise Elongation", ("Choose wider elastic waistband (5cm+, 8%+ stretch)", 0.15));
    ("V-Neck Elongation", ("Choose V-neck instead of boat/turtleneck", 0.12));
    ("Hemline", ("Adjust hem to avoid knee/calf danger zones", 0.20));
    ("Sleeve", ("Choose 3/4 sleeve for optimal arm slimming", 0.25));
    ("H-Stripe Thinning",
       ("Replace horizontal stripes with solid or vertical lines", 0.10));
    ("Dark/Black Slimming",
       ("Choose dark chocolate/burgundy for warm skin tones", 0.08));
    ("Top Hemline", ("Try tucking in or choosing a cropped/waist-length top", 0.20));
    ("Pant Rise", ("Choose high-rise pants to elongate your leg line", 0.25));
    ("Leg Shape", ("Try wide-leg or straight-leg pants for your body type", 0.20));
    ("Jacket Scoring",
       ("Try a cropped or waist-length jacket with natural shoulders", 0.15)) ].

(** Stable insertion by ascending score, as [sorted(..., key=score)] orders. *)
Fixpoint insert_by_score (p : PrincipleResult) (sorted : list PrincipleResult)
    : list PrincipleResult :=
  match sorted with
  | [] => [p]
  | q :: rest =>
      if pr_score p <? pr_score q then p :: q :: rest
      else q :: insert_by_score p rest
  end.

Definition _suggest_fixes (principles : list PrincipleResult) : list Fix :=
  let worst :=
    fold_left (fun sorted p => insert_by_score p sorted)
      (filter (fun p => pr_applicable p && (pr_score p <? -0.15)) principles) [] in
  flat_map
    (fun p =>
       match dict_find fix_suggestions (pr_name p) with
       | Some (what, improvement) =>
           [ {| fix_what_to_change := what;
                fix_expected_improvement := improvement;
                fix_priority := if pr_score p <? -0.30 then 1%Z else 2%Z |} ]
       | None => []
       end)
    (firstn 3 worst).

(** [min(sil_scores)]. *)
Definition min_of (first : Q) (rest : list Q) : Q := fold_left Num.min rest first.

Definition sil_names : list string := ["Tent Concealment"; "Bodycon Mapping"].

Definition worst_sil_of (active : list PrincipleResult) : Q :=
  match map pr_score (filter (fun r => Text.mem (pr_name r) sil_names) active) with
  | [] => 0.0
  | s :: rest => min_of s rest
  end.

Definition has_slimming_goal (body : BodyProfile) : bool :=
  has_goal body SLIMMING || has_goal body SLIM_HIPS || has_goal body HIDE_MIDSECTION.

(** The weighted-and-confidence-weighted average over the active results. *)
Definition weighted_composite (active : list PrincipleResult) : Q :=
  let tw := Num.sum (map pr_weight active) in
  if tw =? 0 then 0.0
  else
    Num.sum (map (fun r => pr_score r * pr_weight r * pr_confidence r) active)
    / Num.sum (map (fun r => pr_weight r * pr_confidence r) active).

Definition silhouette_dominates (active : list PrincipleResult)
    (body : BodyProfile) : bool :=
  (worst_sil_of active <? -0.20) && has_slimming_goal body
  && (weighted_composite active >? 0).

(** *** Layer 7: composite *)

Definition composite_layer (principle_results : list PrincipleResult)
    (body : BodyProfile) (exceptions : list ExceptionTriggered) : ScoreResult :=
  let active := filter pr_applicable principle_results in
  match active with
  | [] =>
      {| sr_overall_score := 5.0; sr_composite_raw := 0.0; sr_confidence := 0.50;
         sr_principle_scores := principle_results;
         sr_zone_scores := []; sr_exceptions := exceptions; sr_fixes := [] |}
  | _ =>
      let composite := weighted_composite active in
      let composite :=
        if silhouette_dominates active body then worst_sil_of active * 0.3
        else composite in
      let composite := clamp composite in
      let overall := rescale_display (score_to_ten composite) in
      let avg_confidence :=
        Num.sum (map pr_confidence active)
        / inject_Z (Z.of_nat (List.length active)) in
      {| sr_overall_score := Num.round_nd 1 overall;
         sr_composite_raw := Num.round_nd 4 composite;
         sr_confidence := Num.round_nd 2 avg_confidence;
         sr_principle_scores := principle_results;
         sr_zone_scores := _compute_zone_scores principle_results;
         sr_exceptions := exceptions;
         sr_fixes := _suggest_fixes principle_results |}
  end.

(** *** The pipeline *)

(** The optional [context] dict.  Layer 6 turns it into a dict of
    adjustments of which only the size is logged; nothing below reads it. *)
Definition Context : Type := list (string * string).

(** The principle results as they stand after layer 3, together with the
    garment object as layer 2 leaves it. *)
Definition calibrated_results (garment : GarmentProfile) (body : BodyProfile)
    : list PrincipleResult :=
  let resolved := resolve_fabric_properties garment in
  let gate_exceptions := run_fabric_gates garment body resolved in
  let penalty_reduction := get_structured_penalty_reduction gate_exceptions in
  let category := classify_garment garment in
  let garment := set_category category garment in
  calibrate (styling_goals body)
    (element_scoring garment body category penalty_reduction).

(** [score_garment] with the objects it was handed: the result, and the
    garment and body objects as the call leaves them. *)
Definition score_garment_run (garment : GarmentProfile) (body : BodyProfile)
    (context : option Context) : ScoreResult * (GarmentProfile * BodyProfile) :=
  (* Layer 1 *)
  let resolved := resolve_fabric_properties garment in
  let gate_exceptions := run_fabric_gates garment body resolved in
  let exceptions := gate_exceptions in
  let penalty_reduction := get_structured_penalty_reduction gate_exceptions in
  (* Layer 2 *)
  let category := classify_garment garment in
  let garment := set_category category garment in
  let principle_results :=
    element_scoring garment body category penalty_reduction in
  (* Layer 3 *)
  let principle_results := calibrate (styling_goals body) principle_results in
  (* Layers 4 to 6 read the results and write only to the log. *)
  (* Layer 7 *)
  (composite_layer principle_results body exceptions, (garment, body)).

Definition score_garment (garment : GarmentProfile) (body : BodyProfile)
    (context : option Context) : ScoreResult :=
  fst (score_garment_run garment body context).

(* ================================================================ *)
(** ** schemas.py: body tags *)
(* ================================================================ *)

(** [tags.append(t)] under a condition. *)
Definition tag_if (c : bool) (t : string) : list string := if c then [t] else [].

Definition body_tags (b : BodyProfile) : list string :=
  (tag_if (height b <? 63) "petite"
   ++ tag_if (height b >? 68) "tall"
   ++ tag_if ((hip b - bust b >=? 3) && (whr b <? 0.78)) "pear"
   ++ tag_if (whr b >? 0.85) "apple"
   ++ tag_if ((Num.abs (bust b - hip b) <=? 2)
              && (bust_differential b >=? 6) && (whr b <=? 0.75)) "hourglass"
   ++ tag_if ((Num.abs (bust b - waist b) <=? 4)
              && (Num.abs (waist b - hip b) <=? 4)) "rectangle"
   ++ tag_if (shoulder_hip_diff b >? 3) "inverted_triangle"
   ++ tag_if ((bust b >? 42) || (hip b >? 44)) "plus_size")%list.

(* ================================================================ *)
(** ** fabric_gate.py: cling model and photo-to-reality discount *)
(* ================================================================ *)

Record ClingResult := {
  cr_stretch_demand_pct : Q;
  cr_base_threshold : Q;
  cr_exceeds_threshold : bool;
  cr_severity : Q
}.

Definition compute_cling_risk (resolved : ResolvedFabric)
    (zone_circ garment_rest_circ curvature_rate : Q) : ClingResult :=
  let stretch_range := garment_rest_circ * (rf_total_stretch_pct resolved / 100.0) in
  let stretch_range := if stretch_range <=? 0 then 0.01 else stretch_range in
  let stretch_demand := ((zone_circ - garment_rest_circ) / stretch_range) * 100.0 in
  let stretch_demand := Num.max 0 stretch_demand in
  let base_threshold := Num.max 10 (62 - 26 * curvature_rate) in
  let exceeds := stretch_demand >? base_threshold in
  let severity :=
    if exceeds && (base_threshold >? 0)
    then Num.min 1.0 ((stretch_demand - base_threshold) / base_threshold)
    else 0.0 in
  {| cr_stretch_demand_pct := stretch_demand;
     cr_base_threshold := base_threshold;
     cr_exceeds_threshold := exceeds;
     cr_severity := severity |}.

Definition _REF_MODEL : list (string * Q) :=
  [ ("bust", 34.0); ("waist", 25.0); ("hip", 35.0);
    ("upper_arm", 10.0); ("thigh", 20.0) ].

Definition _ZONE_GAP_COEFFICIENTS : list (string * Q) :=
  [ ("bust", 0.08); ("waist", 0.06); ("hip", 0.10);
    ("upper_arm", 0.04); ("thigh", 0.07) ].

Definition _BRAND_MULTIPLIERS : list (string * Q) :=
  [ ("luxury", 0.85); ("premium", 0.90); ("mid_market", 1.00);
    ("mass_market", 1.10); ("fast_fashion", 1.20) ].

Definition brand_tier_value (t : BrandTier) : string :=
  match t with
  | LUXURY => "luxury" | PREMIUM => "premium" | MID_MARKET => "mid_market"
  | MASS_MARKET => "mass_market" | FAST_FASHION => "fast_fashion"
  end.

(** [_REF_MODEL[key]]: every key the function reads is in the table. *)
Definition ref_model (key : string) : Q := dict_get _REF_MODEL key 0.

Definition photo_to_reality_discount (garment : GarmentProfile)
    (body : BodyProfile) : Q :=
  let zones :=
    [ ("bust", (bust body, ref_model "bust"));
      ("waist", (waist body, ref_model "waist"));
      ("hip", (hip body, ref_model "hip"));
      ("upper_arm", (c_upper_arm_max body, ref_model "upper_arm"));
      ("thigh", (c_thigh_max body, ref_model "thigh")) ] in
  let total_gap :=
    fold_left
      (fun total_gap (entry : string * (Q * Q)) =>
         let '(zone_name, (user_circ, model_circ)) := entry in
         let gap := Num.abs (user_circ - model_circ) in
         let coeff := dict_get _ZONE_GAP_COEFFICIENTS zone_name 0.05 in
         total_gap + gap * coeff)
      zones 0.0 in
  let brand_mult :=
    dict_get _BRAND_MULTIPLIERS (brand_tier_value (brand_tier garment)) 1.0 in
  Num.min 0.55 (total_gap * brand_mult).

(* ================================================================ *)
(** ** body_garment_translator.py: proportion shift and the master
       translation *)
(* ================================================================ *)

(** [HEEL_EFFICIENCY]: [(min_inches, max_inches)] to efficiency, in the
    order of the dict. *)
Definition HEEL_EFFICIENCY : list ((Q * Q) * Q) :=
  [ ((0, 3), 0.70); ((3, 5), 0.60); ((5, 99), 0.50) ].

Record ProportionResult := {
  pp_visual_leg_length : Q;
  pp_heel_extension : Q;
  pp_shoe_modifier : Q;
  pp_total_visual_height : Q
}.

(** The loop over [HEEL_EFFICIENCY.items()] with its [break]. *)
Fixpoint heel_efficiency_in (tiers : list ((Q * Q) * Q)) (default heel : Q) : Q :=
  match tiers with
  | [] => default
  | ((lo, hi), eff) :: rest =>
      if (lo <=? heel) && (heel <? hi) then eff
      else heel_efficiency_in rest default heel
  end.

Definition compute_proportion_shift (body : BodyProfile) (heel_height_inches : Q)
    (is_nude_shoe is_contrast_shoe : bool) : ProportionResult :=
  let efficiency := heel_efficiency_in HEEL_EFFICIENCY 0.70 heel_height_inches in
  let heel_extension := heel_height_inches * efficiency in
  let shoe_mod := 0.0 in
  let shoe_mod :=
    if is_nude_shoe then Num.min 2.0 (heel_height_inches * 0.3) else shoe_mod in
  let shoe_mod := if is_contrast_shoe then shoe_mod - 1.0 else shoe_mod in
  let visual_leg_length := leg_length_visual body + heel_extension + shoe_mod in
  let total_visual_height := height body + heel_extension in
  {| pp_visual_leg_length := visual_leg_length;
     pp_heel_extension := heel_extension;
     pp_shoe_modifier := shoe_mod;
     pp_total_visual_height := total_visual_height |}.

Record BodyAdjustedGarment := {
  ba_hem_from_floor : Q;
  ba_hem_zone : string;
  ba_hemline_danger_zones : list (Q * Q);
  ba_hemline_safe_zone : option (Q * Q);
  ba_fabric_rise_adjustment : Q;
  ba_sleeve_endpoint_position : Q;
  ba_perceived_arm_width : Q;
  ba_arm_width_delta : Q;
  ba_arm_prominence_severity : Q;
  ba_visual_waist_height : Q;
  ba_visual_leg_ratio : Q;
  ba_proportion_improvement : Q;
  ba_total_stretch_pct : Q;
  ba_effective_gsm : Q;
  ba_sheen_score : Q;
  ba_photo_reality_discount : Q
}.

Definition category_in (c : GarmentCategory) (l : list GarmentCategory) : bool :=
  existsb (GarmentCategory_beq c) l.

Definition _HEM_CATEGORIES : list GarmentCategory :=
  [DRESS; SKIRT; JUMPSUIT; ROMPER; COAT].

Definition _SLEEVE_CATEGORIES : list GarmentCategory :=
  [DRESS; TOP; JUMPSUIT; ROMPER; JACKET; COAT; SWEATSHIRT; CARDIGAN; BODYSUIT;
   LOUNGEWEAR; ACTIVEWEAR; SAREE; SALWAR_KAMEEZ; LEHENGA].

Definition _WAIST_CATEGORIES : list GarmentCategory :=
  [DRESS; JUMPSUIT; ROMPER; COAT; BOTTOM_PANTS; BOTTOM_SHORTS; SKIRT].

Definition translate_garment_to_body (garment : GarmentProfile)
    (body : BodyProfile) : BodyAdjustedGarment :=
  let category := category garment in
  let '(hem_from_floor, hem_zone, danger_zones, safe_zone, fabric_rise) :=
    if category_in category _HEM_CATEGORIES then
      let hem := translate_hemline garment body in
      (hr_hem_from_floor hem, hr_hem_zone hem, hr_danger_zones hem,
       hr_safe_zone hem, hr_fabric_rise hem)
    else (0.0, EmptyString, [], None, 0.0) in
  let '(sleeve_endpoint, perceived_width, arm_delta, arm_severity) :=
    if category_in category _SLEEVE_CATEGORIES then
      let sleeve := translate_sleeve garment body in
      (sl_endpoint_position sleeve, sl_perceived_width sleeve,
       sl_delta_vs_actual sleeve, sl_arm_prominence_severity sleeve)
    else (0.0, 0.0, 0.0, 0.5) in
  let '(visual_waist_height, visual_leg_ratio, proportion_improvement) :=
    if category_in category _WAIST_CATEGORIES then
      let waist := translate_waistline garment body in
      (wl_visual_waist_height waist, wl_visual_leg_ratio waist,
       wl_proportion_improvement waist)
    else (0.0, GOLDEN_RATIO, 0.0) in
  let resolved := resolve_fabric_properties garment in
  {| ba_hem_from_floor := hem_from_floor;
     ba_hem_zone := hem_zone;
     ba_hemline_danger_zones := danger_zones;
     ba_hemline_safe_zone := safe_zone;
     ba_fabric_rise_adjustment := fabric_rise;
     ba_sleeve_endpoint_position := sleeve_endpoint;
     ba_perceived_arm_width := perceived_width;
     ba_arm_width_delta := arm_delta;
     ba_arm_prominence_severity := arm_severity;
     ba_visual_waist_height := visual_waist_height;
     ba_visual_leg_ratio := visual_leg_ratio;
     ba_proportion_improvement := proportion_improvement;
     ba_total_stretch_pct := rf_total_stretch_pct resolved;
     ba_effective_gsm := rf_effective_gsm resolved;
     ba_sheen_score := rf_sheen_score resolved;
     ba_photo_reality_discount := rf_photo_reality_discount resolved |}.

(* ================================================================ *)
(** ** garment_types.py: layer interaction *)
(* ================================================================ *)

(** One entry of the list [modifications]: a dict with these four keys. *)
Record LayerModification := {
  lm_type : string;
  lm_description : string;
  lm_zones_affected : list string;
  lm_score_modification : string
}.

(** The dict [compute_layer_modifications] returns. *)
Record LayerInfo := {
  li_layer_modifications : list LayerModification;
  li_styling_notes : list string
}.

Definition _generate_layer_styling_notes (garment : GarmentProfile)
    (body : BodyProfile) : list string :=
  let body_shape := body_shape body in
  if category_in (category garment) [JACKET; COAT] then
    match body_shape with
    | PEAR =>
        ["Pair with wide-leg or straight pants to balance your silhouette"]
        ++ (if Text.opt_eqb (jacket_length garment) "hip" then
              ["Consider wearing open to create a vertical line past your hips"]
            else [])
    | APPLE =>
        ["Pair with a V-neck underneath for maximum elongation"]
        ++ (if negb (Text.opt_eqb (jacket_closure garment) "open_front") then
              ["Wear unbuttoned to create a slimming vertical line"]
            else [])
    | INVERTED_TRIANGLE => ["Balance with wide-leg or flare pants"]
    | _ => []
    end%list
  else if GarmentCategory_beq (category garment) CARDIGAN then
    ((if has_goal_in LOOK_TALLER (styling_goals body) then
        ["Wear open with same-color base for an unbroken vertical line"]
      else [])
     ++ (if has_goal_in HIDE_MIDSECTION (styling_goals body) then
           ["Longer cardigan provides coverage without structure"]
         else []))%list
  else [].

Definition compute_layer_modifications (garment : GarmentProfile)
    (body : BodyProfile) : LayerInfo :=
  let is_structured :=
    Text.opt_mem (shoulder_structure garment) ["padded"; "structured"] in
  let is_open := Text.opt_eqb (jacket_closure garment) "open_front" in
  let fit := Text.or_else (fit_category garment) (silhouette_label garment) in
  let modifications :=
    ((if is_structured then
        [ {| lm_type := "cling_neutralization";
             lm_description :=
               "Structured layer reduces cling of underneath garment";
             lm_zones_affected := ["bust"; "midsection"; "upper_arm"];
             lm_score_modification := "reduce_negative_by_70%" |} ]
      else [])
     ++ (if is_open then
           [ {| lm_type := "vertical_line_creation";
                lm_description := "Open front creates elongating vertical line";
                lm_zones_affected := ["torso"];
                lm_score_modification := "+0.3 to torso elongation" |} ]
         else [])
     ++ (if Text.mem fit ["relaxed"; "loose"; "oversized"] then
           [ {| lm_type := "volume_addition";
                lm_description := "Loose layer adds visual volume";
                lm_zones_affected := ["shoulder"; "bust"; "torso"];
                lm_score_modification := "body_type_dependent" |} ]
         else [])
     ++ (if Text.truthy (jacket_length garment) then
           [ {| lm_type := "proportion_break_override";
                lm_description :=
                  "Jacket hem at "
                  ++ Text.or_else (jacket_length garment) EmptyString
                  ++ " becomes the visual break point";
                lm_zones_affected := ["proportion"];
                lm_score_modification := "replaces_base_proportion_break" |} ]
         else []))%list in
  {| li_layer_modifications := modifications;
     li_styling_notes := _generate_layer_styling_notes garment body |}.

(* ================================================================ *)
(** ** context_modifiers.py *)
(* ================================================================ *)

Definition _COLOR_SYMBOLISM
    : list (string * list (string * list (string * Q))) :=
  [ ("india",
     [ ("red", [("wedding_bride", 0.95); ("wedding_guest", -0.30);
                ("general", 0.0)]);
       ("white", [("celebration", -0.90); ("funeral", 0.50); ("general", 0.0)]);
       ("black", [("wedding_ceremony", -0.70); ("sangeet", -0.20);
                  ("general", 0.0)]);
       ("gold", [("wedding", 0.80); ("general", 0.20)]) ]);
    ("us",
     [ ("red", [("general", 0.0)]);
       ("white", [("wedding_bride", 0.90); ("wedding_guest", -0.50);
                  ("general", 0.0)]);
       ("black", [("evening", 0.90); ("funeral", 0.50); ("general", 0.0)]) ]) ].

Record OccasionReqs := occasion_reqs {
  min_sleeve : string;
  min_hem : string;
  max_neckline_depth : Q;
  structured_preferred : bool
}.

Definition _OCCASION_COVERAGE : list (string * OccasionReqs) :=
  [ ("formal", occasion_reqs "short" "knee" 4.0 true);
    ("business", occasion_reqs "short" "above_knee" 5.0 true);
    ("business_casual", occasion_reqs "sleeveless" "above_knee" 6.0 false);
    ("casual", occasion_reqs "sleeveless" "mini" 8.0 false);
    ("date_night", occasion_reqs "sleeveless" "above_knee" 7.0 false);
    ("wedding_guest", occasion_reqs "sleeveless" "knee" 5.0 false);
    ("interview", occasion_reqs "short" "knee" 5.0 true);
    ("athletic", occasion_reqs "sleeveless" "mini" 6.0 false);
    ("brunch", occasion_reqs "sleeveless" "above_knee" 7.0 false);
    ("evening", occasion_reqs "sleeveless" "above_knee" 8.0 false) ].

Definition _HEM_ORDER : list string :=
  ["floor"; "ankle"; "below_calf"; "midi"; "below_knee"; "knee"; "above_knee";
   "mini"].

(** [l.index(x)]: the first position of [x], [None] where Python raises
    [ValueError]. *)
Fixpoint index_of (x : string) (l : list string) : option nat :=
  match l with
  | [] => None
  | y :: rest =>
      if String.eqb x y then Some O
      else match index_of x rest with
           | Some i => Some (S i)
           | None => None
           end
  end.

Definition _hem_is_above (actual minimum : string) : bool :=
  match index_of actual _HEM_ORDER with
  | Some actual_idx =>
      match index_of minimum _HEM_ORDER with
      | Some min_idx => Nat.ltb min_idx actual_idx
      | None => false
      end
  | None => false
  end.

(** The dict [adjustments], in insertion order.  Every key is written by one
    statement only; the two loops over [principles] write the same value each
    time they write. *)
Definition apply_context_modifiers (context : list (string * string))
    (principles : list PrincipleResult) (body : BodyProfile)
    (garment : GarmentProfile) : list (string * Q) :=
  (* Cultural color modifiers *)
  let culture := Text.lower (dict_get context "culture" EmptyString) in
  let event_type := dict_get context "event_type" "general" in
  let garment_color := Text.lower (dict_get context "garment_color" EmptyString) in
  let cultural :=
    match dict_find _COLOR_SYMBOLISM culture with
    | Some rules =>
        if negb (String.eqb garment_color EmptyString) then
          let color_rules := dict_get rules garment_color [] in
          let cultural_score :=
            dict_get color_rules event_type (dict_get color_rules "general" 0.0) in
          if negb (cultural_score =? 0.0) then [("cultural_color", cultural_score)]
          else []
        else []
    | None => []
    end in
  (* Occasion coverage check *)
  let occasion := Text.lower (dict_get context "occasion" EmptyString) in
  let coverage :=
    match dict_find _OCCASION_COVERAGE occasion with
    | Some reqs =>
        ((if _hem_is_above (hem_position garment) (min_hem reqs) then
            [("occasion_hem_violation", -0.20)]
          else [])
         ++
         (let fallback := v_depth_cm garment / 2.54 in
          let neckline_depth :=
            match neckline_depth garment with
            | Some d => if d =? 0 then fallback else d
            | None => fallback
            end in
          if neckline_depth >? max_neckline_depth reqs then
            [("occasion_neckline_violation", -0.15)]
          else []))%list
    | None => []
    end in
  (* Climate modifiers *)
  let climate := Text.lower (dict_get context "climate" EmptyString) in
  let climatic :=
    if String.eqb climate "hot_humid" then
      ((if gsm_estimated garment >? 250 then [("climate_heavy_fabric", -0.10)]
        else [])
       ++
       (if Text.mem (primary_fiber garment) ["polyester"; "nylon"]
           && negb (Text.truthy (fabric_name garment)) then
          [("climate_non_breathable", -0.05)]
        else []))%list
    else if String.eqb climate "cold" then
      if gsm_estimated garment <? 120 then [("climate_light_fabric", -0.10)]
      else []
    else [] in
  (* Age range modifiers *)
  let age_range := dict_get context "age_range" EmptyString in
  let age :=
    if String.eqb age_range "50+" then
      if existsb
           (fun p => String.eqb (pr_name p) "Bodycon Mapping" && (pr_score p >? 0.20))
           principles
      then [("age_bodycon_comfort", -0.05)] else []
    else if String.eqb age_range "18-25" then
      if existsb
           (fun p => String.eqb (pr_name p) "Tent Concealment"
                     && (pr_score p <? -0.20))
           principles
      then [("age_oversized_trend", 0.05)] else []
    else [] in
  (cultural ++ coverage ++ climatic ++ age)%list.

(* ================================================================ *)
(** ** goal_scorers.py *)
(* ================================================================ *)

Record GoalMapping := goal_mapping {
  gm_positive : list string;
  gm_negative : list string;
  gm_weights : list (string * Q)
}.

Definition GOAL_PRINCIPLE_MAP (goal : StylingGoal) : GoalMapping :=
  match goal with
  | LOOK_TALLER =>
      goal_mapping
        ["Monochrome Column"; "Rise Elongation"; "V-Neck Elongation";
         "Hemline"; "Waist Placement"; "Pant Rise"]
        ["Color Break"; "H-Stripe Thinning"; "Top Hemline"]
        [("Monochrome Column", 1.5); ("Rise Elongation", 1.3);
         ("V-Neck Elongation", 1.2); ("Hemline", 1.3);
         ("Waist Placement", 1.2); ("Color Break", 1.3); ("Pant Rise", 1.5);
         ("Top Hemline", 1.2)]
  | HIGHLIGHT_WAIST =>
      goal_mapping
        ["Color Break"; "Bodycon Mapping"; "Waist Placement"; "Pant Rise";
         "Jacket Scoring"]
        ["Tent Concealment"]
        [("Color Break", 1.5); ("Bodycon Mapping", 1.2);
         ("Waist Placement", 1.5); ("Tent Concealment", 1.3);
         ("Pant Rise", 1.3); ("Jacket Scoring", 1.2)]
  | HIDE_MIDSECTION =>
      goal_mapping
        ["Tent Concealment"; "Dark/Black Slimming"; "Matte Zone";
         "Fabric Zone"; "Top Hemline"; "Jacket Scoring"]
        ["Bodycon Mapping"; "Color Break"; "Pant Rise"]
        [("Tent Concealment", 1.5); ("Dark/Black Slimming", 1.3);
         ("Matte Zone", 1.2); ("Bodycon Mapping", 1.5); ("Color Break", 1.2);
         ("Top Hemline", 1.3); ("Jacket Scoring", 1.2); ("Pant Rise", 1.2)]
  | SLIM_HIPS =>
      goal_mapping
        ["Dark/Black Slimming"; "A-Line Balance"; "Matte Zone"; "Hemline";
         "Leg Shape"]
        ["H-Stripe Thinning"; "Bodycon Mapping"; "Top Hemline"]
        [("Dark/Black Slimming", 1.5); ("A-Line Balance", 1.3);
         ("Matte Zone", 1.2); ("Hemline", 1.2); ("H-Stripe Thinning", 1.3);
         ("Bodycon Mapping", 1.3); ("Leg Shape", 1.5); ("Top Hemline", 1.3)]
  | LOOK_PROPORTIONAL =>
      goal_mapping
        ["Waist Placement"; "Hemline"; "Rise Elongation"; "Monochrome Column";
         "Pant Rise"; "Jacket Scoring"]
        ["Tent Concealment"]
        [("Waist Placement", 1.5); ("Hemline", 1.3); ("Rise Elongation", 1.2);
         ("Tent Concealment", 1.2); ("Pant Rise", 1.3);
         ("Jacket Scoring", 1.1)]
  | MINIMIZE_ARMS =>
      goal_mapping
        ["Sleeve"; "Matte Zone"; "Jacket Scoring"]
        []
        [("Sleeve", 1.5); ("Matte Zone", 1.2); ("Jacket Scoring", 1.2)]
  | SLIMMING =>
      goal_mapping
        ["Dark/Black Slimming"; "Matte Zone"; "H-Stripe Thinning";
         "Color Value"]
        ["Tent Concealment"; "Bodycon Mapping"]
        [("Dark/Black Slimming", 1.5); ("Matte Zone", 1.3);
         ("Tent Concealment", 1.5)]
  | CONCEALMENT =>
      goal_mapping
        ["Tent Concealment"; "Matte Zone"; "Dark/Black Slimming"]
        ["Bodycon Mapping"]
        [("Tent Concealment", 1.5); ("Matte Zone", 1.3)]
  | EMPHASIS =>
      goal_mapping
        ["Bodycon Mapping"; "Color Break"; "V-Neck Elongation"]
        ["Tent Concealment"]
        [("Bodycon Mapping", 1.5); ("Color Break", 1.3);
         ("V-Neck Elongation", 1.3)]
  | BALANCE =>
      goal_mapping
        ["Waist Placement"; "A-Line Balance"; "Hemline"]
        []
        []
  end.

Record GoalVerdict := {
  gv_goal : StylingGoal;
  gv_verdict : string;
  gv_score : Q;
  gv_supporting_principles : list string;
  gv_reasoning : string
}.

(** The dict [by_name = {p.name: p for p in principles if p.applicable}]:
    of several applicable results with one name the last one stays. *)
Definition by_name (principles : list PrincipleResult) (name : string)
    : option PrincipleResult :=
  find (fun p => String.eqb (pr_name p) name)
    (rev (filter pr_applicable principles)).

(** The running [(weighted_sum, total_weight, supporting)]. *)
Definition GoalAcc : Type := Q * Q * list string.

(** The two loops of [_score_single_goal].  The source walks the names as
    Python sets, whose order is not fixed: the sums do not depend on it, the
    order of [supporting] follows the order of the names given here. *)
Definition positive_step (principles : list PrincipleResult)
    (weights : list (string * Q)) (acc : GoalAcc) (name : string) : GoalAcc :=
  let '(weighted_sum, total_weight, supporting) := acc in
  match by_name principles name with
  | None => acc
  | Some p =>
      let w := dict_get weights name 1.0 in
      (weighted_sum + pr_score p * w, total_weight + w,
       if pr_score p >? 0.05
       then push supporting ("+" ++ name ++ " (" ++ Text.num ++ ")")
       else supporting)
  end.

Definition negative_step (principles : list PrincipleResult)
    (weights : list (string * Q)) (acc : GoalAcc) (name : string) : GoalAcc :=
  let '(weighted_sum, total_weight, supporting) := acc in
  match by_name principles name with
  | None => acc
  | Some p =>
      let w := dict_get weights name 1.0 in
      (weighted_sum - pr_score p * w, total_weight + w,
       if pr_score p <? -0.05
       then push supporting ("-" ++ name ++ " avoided (" ++ Text.num ++ ")")
       else supporting)
  end.

Definition goal_totals (goal : StylingGoal) (principles : list PrincipleResult)
    : GoalAcc :=
  let mapping := GOAL_PRINCIPLE_MAP goal in
  let weights := gm_weights mapping in
  fold_left (negative_step principles weights) (gm_negative mapping)
    (fold_left (positive_step principles weights) (gm_positive mapping)
       (0.0, 0.0, [])).

Definition _score_single_goal (goal : StylingGoal)
    (principles : list PrincipleResult) : GoalVerdict :=
  let '(weighted_sum, total_weight, supporting) := goal_totals goal principles in
  if total_weight =? 0 then
    {| gv_goal := goal; gv_verdict := "caution"; gv_score := 0.0;
       gv_supporting_principles := [];
       gv_reasoning := "No applicable principles for this goal" |}
  else
    let final_score := weighted_sum / total_weight in
    let verdict :=
      if final_score >? 0.15 then "pass"
      else if final_score <? -0.15 then "fail"
      else "caution" in
    {| gv_goal := goal; gv_verdict := verdict;
       gv_score := Num.round_nd 3 final_score;
       gv_supporting_principles := supporting;
       gv_reasoning := "Weighted score: " ++ Text.num ++ " (" ++ verdict ++ ")" |}.

Definition score_goals (principles : list PrincipleResult) (body : BodyProfile)
    : list GoalVerdict :=
  map (fun goal => _score_single_goal goal principles) (styling_goals body).

(* ================================================================ *)
(** ** kridha_engine.py: what the pipeline returns besides the scores *)
(* ================================================================ *)

(** The fields of [ScoreResult] that layer 4, layer 5 and the layer
    interaction fill: [goal_verdicts], [body_adjusted], [layer_modifications]
    and [styling_notes].  ([reasoning_chain], a log of formatted numbers, is
    left out.) *)
Record ScoreDetails := {
  sr_goal_verdicts : list GoalVerdict;
  sr_body_adjusted : option BodyAdjustedGarment;
  sr_layer_modifications : option LayerInfo;
  sr_styling_notes : list string
}.

(** Layer 6: the dict [context_adjustments].  A context that is [None] or
    an empty dict is falsy and leaves it empty. *)
Definition context_adjustments (garment : GarmentProfile) (body : BodyProfile)
    (context : option Context) : list (string * Q) :=
  let principle_results := calibrated_results garment body in
  let garment := set_category (classify_garment garment) garment in
  match context with
  | Some (entry :: rest) =>
      apply_context_modifiers (entry :: rest) principle_results body garment
  | _ => []
  end.

Definition score_garment_details (garment : GarmentProfile) (body : BodyProfile)
    (context : option Context) : ScoreDetails :=
  (* Layers 1 to 3 *)
  let principle_results := calibrated_results garment body in
  let category := classify_garment garment in
  let garment := set_category category garment in
  (* Layer 4 *)
  let goal_verdicts := score_goals principle_results body in
  (* Layer 5 *)
  let body_adjusted := translate_garment_to_body garment body in
  (* Layer 7 *)
  match filter pr_applicable principle_results with
  | [] =>
      {| sr_goal_verdicts := goal_verdicts;
         sr_body_adjusted := Some body_adjusted;
         sr_layer_modifications := None;
         sr_styling_notes := [] |}
  | _ =>
      let layer_info :=
        if is_layer_garment category
        then Some (compute_layer_modifications garment body) else None in
      {| sr_goal_verdicts := goal_verdicts;
         sr_body_adjusted := Some body_adjusted;
         sr_layer_modifications := layer_info;
         sr_styling_notes :=
           match layer_info with
           | Some info => li_styling_notes info
           | None => []
           end |}
  end.

(* ================================================================ *)
(** ** Concrete profiles *)
(* ================================================================ *)

(** The body of the end-to-end scenario: [BodyProfile(height=66, bust=38,
    waist=27, hip=39, styling_goals=[EMPHASIS])]. *)
Definition body_scenario : BodyProfile :=
  {| height := 66; bust := 38; underbust := 32; waist := 27; hip := 39;
     shoulder_width := 15.5; neck_length := 3.5; neck_circumference := 13;
     torso_length := 15; leg_length_visual := 41; inseam := 30; arm_length := 23;
     c_upper_arm_max := 12; c_upper_arm_max_position := 3; c_elbow := 10;
     c_forearm_max := 9.5; c_forearm_min := 8.5; c_forearm_min_position := 17;
     c_wrist := 6.5; h_knee := 18; h_calf_max := 14; h_calf_min := 10; h_ankle := 4;
     c_thigh_max := 22; c_calf_max := 14.5; c_calf_min := 9; c_ankle := 8.5;
     bust_projection := 2; belly_projection := 1; hip_projection := 1.5;
     body_composition := "average"; tissue_firmness := 0.5; skin_tone_L := 50;
     contour_smoothness := 0.5; skin_undertone := NEUTRAL; skin_darkness := 0.5;
     belly_zone := 0; hip_zone := 0; upper_arm_zone := 0; bust_zone := 0;
     is_athletic := false; styling_goals := [EMPHASIS]; style_philosophy := "balance";
     climate := TEMPERATE; wear_context := GENERAL; goal_bust := None; goal_waist := None;
     goal_belly := None; goal_hip := None; goal_arm := None; goal_neck := None;
     goal_legs := None; goal_shoulders := None |}.

(** The garment of the end-to-end scenario. *)
Definition garment_scenario : GarmentProfile :=
  {| primary_fiber := "polyester"; primary_fiber_pct := 100; secondary_fiber := None;
     secondary_fiber_pct := 0; elastane_pct := 0; fabric_name := None;
     construction := WOVEN; gsm_estimated := 280; surface := MATTE;
     surface_friction := 0.5; drape := 5; category := DRESS; silhouette := SEMI_FITTED;
     expansion_rate := 0.02; silhouette_label := "fitted"; neckline := V_NECK;
     v_depth_cm := 0; neckline_depth := None; sleeve_type := SET_IN;
     sleeve_length_inches := None; sleeve_ease_inches := 1; rise_cm := None;
     waistband_width_cm := 3; waistband_stretch_pct := 5; waist_position := "natural";
     has_waist_definition := false; hem_position := "knee"; garment_length_inches := None;
     covers_waist := true; covers_hips := true; zone := "torso"; color_lightness := 0.08;
     color_saturation := 0.5; color_temperature := "neutral";
     is_monochrome_outfit := true; has_pattern := false; pattern_type := None;
     has_horizontal_stripes := false; has_vertical_stripes := false; stripe_width_cm := 0;
     stripe_spacing_cm := 0; pattern_scale := "none"; pattern_scale_inches := 0;
     pattern_contrast := 0.5; has_contrasting_belt := true; has_tonal_belt := false;
     belt_width_cm := 5.0; is_structured := true; has_darts := false; has_lining := false;
     is_faux_wrap := false; garment_ease_inches := 3; brand_tier := MID_MARKET;
     uses_diverse_model := false; model_estimated_size := 2%Z; garment_layer := BASE;
     title := None; fit_category := None; top_hem_length := None;
     top_hem_behavior := None; rise := None; leg_shape := None; leg_opening_width := None;
     bottom_length := None; jacket_closure := None; jacket_length := None;
     shoulder_structure := None; skirt_construction := None |}.

(** The hourglass fixture of [test_engine.py] with the EMPHASIS goal: the
    scenario body with [shoulder_width=14.0]. *)
Definition body_fixture : BodyProfile :=
  {| height := 66; bust := 38; underbust := 32; waist := 27; hip := 39;
     shoulder_width := 14.0; neck_length := 3.5; neck_circumference := 13;
     torso_length := 15; leg_length_visual := 41; inseam := 30; arm_length := 23;
     c_upper_arm_max := 12; c_upper_arm_max_position := 3; c_elbow := 10;
     c_forearm_max := 9.5; c_forearm_min := 8.5; c_forearm_min_position := 17;
     c_wrist := 6.5; h_knee := 18; h_calf_max := 14; h_calf_min := 10; h_ankle := 4;
     c_thigh_max := 22; c_calf_max := 14.5; c_calf_min := 9; c_ankle := 8.5;
     bust_projection := 2; belly_projection := 1; hip_projection := 1.5;
     body_composition := "average"; tissue_firmness := 0.5; skin_tone_L := 50;
     contour_smoothness := 0.5; skin_undertone := NEUTRAL; skin_darkness := 0.5;
     belly_zone := 0; hip_zone := 0; upper_arm_zone := 0; bust_zone := 0;
     is_athletic := false; styling_goals := [EMPHASIS]; style_philosophy := "balance";
     climate := TEMPERATE; wear_context := GENERAL; goal_bust := None; goal_waist := None;
     goal_belly := None; goal_hip := None; goal_arm := None; goal_neck := None;
     goal_legs := None; goal_shoulders := None |}.

(** The garment of scenario A in [test_engine.py]: the scenario garment with
    [v_depth_cm=10] and [zone=full_body]. *)
Definition garment_fixture : GarmentProfile :=
  {| primary_fiber := "polyester"; primary_fiber_pct := 100; secondary_fiber := None;
     secondary_fiber_pct := 0; elastane_pct := 0; fabric_name := None;
     construction := WOVEN; gsm_estimated := 280; surface := MATTE;
     surface_friction := 0.5; drape := 5; category := DRESS; silhouette := SEMI_FITTED;
     expansion_rate := 0.02; silhouette_label := "fitted"; neckline := V_NECK;
     v_depth_cm := 10; neckline_depth := None; sleeve_type := SET_IN;
     sleeve_length_inches := None; sleeve_ease_inches := 1; rise_cm := None;
     waistband_width_cm := 3; waistband_stretch_pct := 5; waist_position := "natural";
     has_waist_definition := false; hem_position := "knee"; garment_length_inches := None;
     covers_waist := true; covers_hips := true; zone := "full_body";
     color_lightness := 0.08; color_saturation := 0.5; color_temperature := "neutral";
     is_monochrome_outfit := true; has_pattern := false; pattern_type := None;
     has_horizontal_stripes := false; has_vertical_stripes := false; stripe_width_cm := 0;
     stripe_spacing_cm := 0; pattern_scale := "none"; pattern_scale_inches := 0;
     pattern_contrast := 0.5; has_contrasting_belt := true; has_tonal_belt := false;
     belt_width_cm := 5.0; is_structured := true; has_darts := false; has_lining := false;
     is_faux_wrap := false; garment_ease_inches := 3; brand_tier := MID_MARKET;
     uses_diverse_model := false; model_estimated_size := 2%Z; garment_layer := BASE;
     title := None; fit_category := None; top_hem_length := None;
     top_hem_behavior := None; rise := None; leg_shape := None; leg_opening_width := None;
     bottom_length := None; jacket_closure := None; jacket_length := None;
     shoulder_structure := None; skirt_construction := None |}.

(** The apple fixture without belly concern, with the goal hide_midsection. *)
Definition body_apple_hide : BodyProfile :=
  {| height := 66; bust := 40; underbust := 36; waist := 36; hip := 38;
     shoulder_width := 15.5; neck_length := 3.5; neck_circumference := 13;
     torso_length := 15; leg_length_visual := 41; inseam := 30; arm_length := 23;
     c_upper_arm_max := 12; c_upper_arm_max_position := 3; c_elbow := 10;
     c_forearm_max := 9.5; c_forearm_min := 8.5; c_forearm_min_position := 17;
     c_wrist := 6.5; h_knee := 18; h_calf_max := 14; h_calf_min := 10; h_ankle := 4;
     c_thigh_max := 22; c_calf_max := 14.5; c_calf_min := 9; c_ankle := 8.5;
     bust_projection := 2; belly_projection := 1; hip_projection := 1.5;
     body_composition := "average"; tissue_firmness := 0.5; skin_tone_L := 50;
     contour_smoothness := 0.5; skin_undertone := NEUTRAL; skin_darkness := 0.5;
     belly_zone := 0; hip_zone := 0; upper_arm_zone := 0; bust_zone := 0;
     is_athletic := false; styling_goals := [HIDE_MIDSECTION];
     style_philosophy := "balance"; climate := TEMPERATE; wear_context := GENERAL;
     goal_bust := None; goal_waist := None; goal_belly := None; goal_hip := None;
     goal_arm := None; goal_neck := None; goal_legs := None; goal_shoulders := None |}.

(** A thin, dark, monochrome bodycon dress with a V neck, three-quarter sleeves
    and an ankle hem. *)
Definition garment_thin_bodycon : GarmentProfile :=
  {| primary_fiber := "polyester"; primary_fiber_pct := 100; secondary_fiber := None;
     secondary_fiber_pct := 0; elastane_pct := 0; fabric_name := None;
     construction := WOVEN; gsm_estimated := 150; surface := MATTE;
     surface_friction := 0.5; drape := 5; category := DRESS; silhouette := SEMI_FITTED;
     expansion_rate := 0.01; silhouette_label := "fitted"; neckline := V_NECK;
     v_depth_cm := 0; neckline_depth := None; sleeve_type := THREE_QUARTER;
     sleeve_length_inches := None; sleeve_ease_inches := 1; rise_cm := None;
     waistband_width_cm := 3; waistband_stretch_pct := 5; waist_position := "natural";
     has_waist_definition := false; hem_position := "ankle";
     garment_length_inches := None; covers_waist := true; covers_hips := true;
     zone := "torso"; color_lightness := 0.08; color_saturation := 0.5;
     color_temperature := "neutral"; is_monochrome_outfit := true; has_pattern := false;
     pattern_type := None; has_horizontal_stripes := false; has_vertical_stripes := false;
     stripe_width_cm := 0; stripe_spacing_cm := 0; pattern_scale := "none";
     pattern_scale_inches := 0; pattern_contrast := 0.5; has_contrasting_belt := false;
     has_tonal_belt := false; belt_width_cm := 0; is_structured := false;
     has_darts := false; has_lining := false; is_faux_wrap := false;
     garment_ease_inches := 3; brand_tier := MID_MARKET; uses_diverse_model := false;
     model_estimated_size := 2%Z; garment_layer := BASE; title := None;
     fit_category := None; top_hem_length := None; top_hem_behavior := None; rise := None;
     leg_shape := None; leg_opening_width := None; bottom_length := None;
     jacket_closure := None; jacket_length := None; shoulder_structure := None;
     skirt_construction := None |}.

(** The default body with the goals look_taller and highlight_waist. *)
Definition body_taller_waist : BodyProfile :=
  {| height := 66; bust := 36; underbust := 32; waist := 30; hip := 38;
     shoulder_width := 15.5; neck_length := 3.5; neck_circumference := 13;
     torso_length := 15; leg_length_visual := 41; inseam := 30; arm_length := 23;
     c_upper_arm_max := 12; c_upper_arm_max_position := 3; c_elbow := 10;
     c_forearm_max := 9.5; c_forearm_min := 8.5; c_forearm_min_position := 17;
     c_wrist := 6.5; h_knee := 18; h_calf_max := 14; h_calf_min := 10; h_ankle := 4;
     c_thigh_max := 22; c_calf_max := 14.5; c_calf_min := 9; c_ankle := 8.5;
     bust_projection := 2; belly_projection := 1; hip_projection := 1.5;
     body_composition := "average"; tissue_firmness := 0.5; skin_tone_L := 50;
     contour_smoothness := 0.5; skin_undertone := NEUTRAL; skin_darkness := 0.5;
     belly_zone := 0; hip_zone := 0; upper_arm_zone := 0; bust_zone := 0;
     is_athletic := false; styling_goals := [LOOK_TALLER; HIGHLIGHT_WAIST];
     style_philosophy := "balance"; climate := TEMPERATE; wear_context := GENERAL;
     goal_bust := None; goal_waist := None; goal_belly := None; goal_hip := None;
     goal_arm := None; goal_neck := None; goal_legs := None; goal_shoulders := None |}.

(** High-rise straight-leg pants, relaxed (ER 0.10), no waist definition. *)
Definition garment_high_rise_pants : GarmentProfile :=
  {| primary_fiber := "polyester"; primary_fiber_pct := 100; secondary_fiber := None;
     secondary_fiber_pct := 0; elastane_pct := 0; fabric_name := None;
     construction := WOVEN; gsm_estimated := 150; surface := MATTE;
     surface_friction := 0.5; drape := 5; category := BOTTOM_PANTS;
     silhouette := SEMI_FITTED; expansion_rate := 0.10; silhouette_label := "fitted";
     neckline := CREW; v_depth_cm := 0; neckline_depth := None; sleeve_type := SET_IN;
     sleeve_length_inches := None; sleeve_ease_inches := 1; rise_cm := None;
     waistband_width_cm := 3; waistband_stretch_pct := 5; waist_position := "no_waist";
     has_waist_definition := false; hem_position := "knee"; garment_length_inches := None;
     covers_waist := true; covers_hips := true; zone := "torso"; color_lightness := 0.5;
     color_saturation := 0.5; color_temperature := "neutral";
     is_monochrome_outfit := false; has_pattern := false; pattern_type := None;
     has_horizontal_stripes := false; has_vertical_stripes := false; stripe_width_cm := 0;
     stripe_spacing_cm := 0; pattern_scale := "none"; pattern_scale_inches := 0;
     pattern_contrast := 0.5; has_contrasting_belt := false; has_tonal_belt := false;
     belt_width_cm := 0; is_structured := false; has_darts := false; has_lining := false;
     is_faux_wrap := false; garment_ease_inches := 3; brand_tier := MID_MARKET;
     uses_diverse_model := false; model_estimated_size := 2%Z; garment_layer := BASE;
     title := None; fit_category := None; top_hem_length := None;
     top_hem_behavior := None; rise := Some "high"; leg_shape := Some "straight";
     leg_opening_width := None; bottom_length := None; jacket_closure := None;
     jacket_length := None; shoulder_structure := None; skirt_construction := None |}.

(** [GarmentProfile(category=BOTTOM_PANTS)]: pants with no rise and no leg-shape data. *)
Definition garment_bare_pants : GarmentProfile :=
  {| primary_fiber := "polyester"; primary_fiber_pct := 100; secondary_fiber := None;
     secondary_fiber_pct := 0; elastane_pct := 0; fabric_name := None;
     construction := WOVEN; gsm_estimated := 150; surface := MATTE;
     surface_friction := 0.5; drape := 5; category := BOTTOM_PANTS;
     silhouette := SEMI_FITTED; expansion_rate := 0.05; silhouette_label := "fitted";
     neckline := CREW; v_depth_cm := 0; neckline_depth := None; sleeve_type := SET_IN;
     sleeve_length_inches := None; sleeve_ease_inches := 1; rise_cm := None;
     waistband_width_cm := 3; waistband_stretch_pct := 5; waist_position := "natural";
     has_waist_definition := false; hem_position := "knee"; garment_length_inches := None;
     covers_waist := true; covers_hips := true; zone := "torso"; color_lightness := 0.5;
     color_saturation := 0.5; color_temperature := "neutral";
     is_monochrome_outfit := false; has_pattern := false; pattern_type := None;
     has_horizontal_stripes := false; has_vertical_stripes := false; stripe_width_cm := 0;
     stripe_spacing_cm := 0; pattern_scale := "none"; pattern_scale_inches := 0;
     pattern_contrast := 0.5; has_contrasting_belt := false; has_tonal_belt := false;
     belt_width_cm := 0; is_structured := false; has_darts := false; has_lining := false;
     is_faux_wrap := false; garment_ease_inches := 3; brand_tier := MID_MARKET;
     uses_diverse_model := false; model_estimated_size := 2%Z; garment_layer := BASE;
     title := None; fit_category := None; top_hem_length := None;
     top_hem_behavior := None; rise := None; leg_shape := None; leg_opening_width := None;
     bottom_length := None; jacket_closure := None; jacket_length := None;
     shoulder_structure := None; skirt_construction := None |}.

(** A profile whose category says pants and whose title says dress. *)
Definition garment_pants_titled_dress : GarmentProfile :=
  {| primary_fiber := "polyester"; primary_fiber_pct := 100; secondary_fiber := None;
     secondary_fiber_pct := 0; elastane_pct := 0; fabric_name := None;
     construction := WOVEN; gsm_estimated := 150; surface := MATTE;
     surface_friction := 0.5; drape := 5; category := BOTTOM_PANTS;
     silhouette := SEMI_FITTED; expansion_rate := 0.05; silhouette_label := "fitted";
     neckline := CREW; v_depth_cm := 0; neckline_depth := None; sleeve_type := SET_IN;
     sleeve_length_inches := None; sleeve_ease_inches := 1; rise_cm := None;
     waistband_width_cm := 3; waistband_stretch_pct := 5; waist_position := "natural";
     has_waist_definition := false; hem_position := "knee"; garment_length_inches := None;
     covers_waist := true; covers_hips := true; zone := "torso"; color_lightness := 0.5;
     color_saturation := 0.5; color_temperature := "neutral";
     is_monochrome_outfit := false; has_pattern := false; pattern_type := None;
     has_horizontal_stripes := false; has_vertical_stripes := false; stripe_width_cm := 0;
     stripe_spacing_cm := 0; pattern_scale := "none"; pattern_scale_inches := 0;
     pattern_contrast := 0.5; has_contrasting_belt := false; has_tonal_belt := false;
     belt_width_cm := 0; is_structured := false; has_darts := false; has_lining := false;
     is_faux_wrap := false; garment_ease_inches := 3; brand_tier := MID_MARKET;
     uses_diverse_model := false; model_estimated_size := 2%Z; garment_layer := BASE;
     title := Some "Summer Dress"; fit_category := None; top_hem_length := None;
     top_hem_behavior := None; rise := None; leg_shape := None; leg_opening_width := None;
     bottom_length := None; jacket_closure := None; jacket_length := None;
     shoulder_structure := None; skirt_construction := None |}.

(** [GarmentProfile(category=TOP)]. *)
Definition garment_top : GarmentProfile :=
  {| primary_fiber := "polyester"; primary_fiber_pct := 100; secondary_fiber := None;
     secondary_fiber_pct := 0; elastane_pct := 0; fabric_name := None;
     construction := WOVEN; gsm_estimated := 150; surface := MATTE;
     surface_friction := 0.5; drape := 5; category := TOP; silhouette := SEMI_FITTED;
     expansion_rate := 0.05; silhouette_label := "fitted"; neckline := CREW;
     v_depth_cm := 0; neckline_depth := None; sleeve_type := SET_IN;
     sleeve_length_inches := None; sleeve_ease_inches := 1; rise_cm := None;
     waistband_width_cm := 3; waistband_stretch_pct := 5; waist_position := "natural";
     has_waist_definition := false; hem_position := "knee"; garment_length_inches := None;
     covers_waist := true; covers_hips := true; zone := "torso"; color_lightness := 0.5;
     color_saturation := 0.5; color_temperature := "neutral";
     is_monochrome_outfit := false; has_pattern := false; pattern_type := None;
     has_horizontal_stripes := false; has_vertical_stripes := false; stripe_width_cm := 0;
     stripe_spacing_cm := 0; pattern_scale := "none"; pattern_scale_inches := 0;
     pattern_contrast := 0.5; has_contrasting_belt := false; has_tonal_belt := false;
     belt_width_cm := 0; is_structured := false; has_darts := false; has_lining := false;
     is_faux_wrap := false; garment_ease_inches := 3; brand_tier := MID_MARKET;
     uses_diverse_model := false; model_estimated_size := 2%Z; garment_layer := BASE;
     title := None; fit_category := None; top_hem_length := None;
     top_hem_behavior := None; rise := None; leg_shape := None; leg_opening_width := None;
     bottom_length := None; jacket_closure := None; jacket_length := None;
     shoulder_structure := None; skirt_construction := None |}.

(** A petite hourglass: the hourglass fixture at height 61. *)
Definition body_petite_hourglass : BodyProfile :=
  {| height := 61; bust := 38; underbust := 32; waist := 27; hip := 39;
     shoulder_width := 14.0; neck_length := 3.5; neck_circumference := 13;
     torso_length := 15; leg_length_visual := 41; inseam := 30; arm_length := 23;
     c_upper_arm_max := 12; c_upper_arm_max_position := 3; c_elbow := 10;
     c_forearm_max := 9.5; c_forearm_min := 8.5; c_forearm_min_position := 17;
     c_wrist := 6.5; h_knee := 18; h_calf_max := 14; h_calf_min := 10; h_ankle := 4;
     c_thigh_max := 22; c_calf_max := 14.5; c_calf_min := 9; c_ankle := 8.5;
     bust_projection := 2; belly_projection := 1; hip_projection := 1.5;
     body_composition := "average"; tissue_firmness := 0.5; skin_tone_L := 50;
     contour_smoothness := 0.5; skin_undertone := NEUTRAL; skin_darkness := 0.5;
     belly_zone := 0; hip_zone := 0; upper_arm_zone := 0; bust_zone := 0;
     is_athletic := false; styling_goals := []; style_philosophy := "balance";
     climate := TEMPERATE; wear_context := GENERAL; goal_bust := None; goal_waist := None;
     goal_belly := None; goal_hip := None; goal_arm := None; goal_neck := None;
     goal_legs := None; goal_shoulders := None |}.

(** The petite fixture of [test_engine.py]. *)
Definition body_petite : BodyProfile :=
  {| height := 61; bust := 34; underbust := 30; waist := 27; hip := 36;
     shoulder_width := 14.0; neck_length := 3.5; neck_circumference := 13;
     torso_length := 13.0; leg_length_visual := 41; inseam := 30; arm_length := 23;
     c_upper_arm_max := 12; c_upper_arm_max_position := 3; c_elbow := 10;
     c_forearm_max := 9.5; c_forearm_min := 8.5; c_forearm_min_position := 17;
     c_wrist := 6.5; h_knee := 18; h_calf_max := 14; h_calf_min := 10; h_ankle := 4;
     c_thigh_max := 22; c_calf_max := 14.5; c_calf_min := 9; c_ankle := 8.5;
     bust_projection := 2; belly_projection := 1; hip_projection := 1.5;
     body_composition := "average"; tissue_firmness := 0.5; skin_tone_L := 50;
     contour_smoothness := 0.5; skin_undertone := NEUTRAL; skin_darkness := 0.5;
     belly_zone := 0; hip_zone := 0; upper_arm_zone := 0; bust_zone := 0;
     is_athletic := false; styling_goals := []; style_philosophy := "balance";
     climate := TEMPERATE; wear_context := GENERAL; goal_bust := None; goal_waist := None;
     goal_belly := None; goal_hip := None; goal_arm := None; goal_neck := None;
     goal_legs := None; goal_shoulders := None |}.

(** [GarmentProfile(has_contrasting_belt=True, belt_width_cm=4.0)]. *)
Definition garment_belted : GarmentProfile :=
  {| primary_fiber := "polyester"; primary_fiber_pct := 100; secondary_fiber := None;
     secondary_fiber_pct := 0; elastane_pct := 0; fabric_name := None;
     construction := WOVEN; gsm_estimated := 150; surface := MATTE;
     surface_friction := 0.5; drape := 5; category := DRESS; silhouette := SEMI_FITTED;
     expansion_rate := 0.05; silhouette_label := "fitted"; neckline := CREW;
     v_depth_cm := 0; neckline_depth := None; sleeve_type := SET_IN;
     sleeve_length_inches := None; sleeve_ease_inches := 1; rise_cm := None;
     waistband_width_cm := 3; waistband_stretch_pct := 5; waist_position := "natural";
     has_waist_definition := false; hem_position := "knee"; garment_length_inches := None;
     covers_waist := true; covers_hips := true; zone := "torso"; color_lightness := 0.5;
     color_saturation := 0.5; color_temperature := "neutral";
     is_monochrome_outfit := false; has_pattern := false; pattern_type := None;
     has_horizontal_stripes := false; has_vertical_stripes := false; stripe_width_cm := 0;
     stripe_spacing_cm := 0; pattern_scale := "none"; pattern_scale_inches := 0;
     pattern_contrast := 0.5; has_contrasting_belt := true; has_tonal_belt := false;
     belt_width_cm := 4.0; is_structured := false; has_darts := false;
     has_lining := false; is_faux_wrap := false; garment_ease_inches := 3;
     brand_tier := MID_MARKET; uses_diverse_model := false; model_estimated_size := 2%Z;
     garment_layer := BASE; title := None; fit_category := None; top_hem_length := None;
     top_hem_behavior := None; rise := None; leg_shape := None; leg_opening_width := None;
     bottom_length := None; jacket_closure := None; jacket_length := None;
     shoulder_structure := None; skirt_construction := None |}.

(** A profile whose elastane percentage is negative. *)
Definition garment_negative_elastane : GarmentProfile :=
  {| primary_fiber := "polyester"; primary_fiber_pct := 100; secondary_fiber := None;
     secondary_fiber_pct := 0; elastane_pct := -30; fabric_name := None;
     construction := WOVEN; gsm_estimated := 150; surface := MATTE;
     surface_friction := 0.5; drape := 5; category := DRESS; silhouette := SEMI_FITTED;
     expansion_rate := 0.05; silhouette_label := "fitted"; neckline := CREW;
     v_depth_cm := 0; neckline_depth := None; sleeve_type := SET_IN;
     sleeve_length_inches := None; sleeve_ease_inches := 1; rise_cm := None;
     waistband_width_cm := 3; waistband_stretch_pct := 5; waist_position := "natural";
     has_waist_definition := false; hem_position := "knee"; garment_length_inches := None;
     covers_waist := true; covers_hips := true; zone := "torso"; color_lightness := 0.5;
     color_saturation := 0.5; color_temperature := "neutral";
     is_monochrome_outfit := false; has_pattern := false; pattern_type := None;
     has_horizontal_stripes := false; has_vertical_stripes := false; stripe_width_cm := 0;
     stripe_spacing_cm := 0; pattern_scale := "none"; pattern_scale_inches := 0;
     pattern_contrast := 0.5; has_contrasting_belt := false; has_tonal_belt := false;
     belt_width_cm := 0; is_structured := false; has_darts := false; has_lining := false;
     is_faux_wrap := false; garment_ease_inches := 3; brand_tier := MID_MARKET;
     uses_diverse_model := false; model_estimated_size := 2%Z; garment_layer := BASE;
     title := None; fit_category := None; top_hem_length := None;
     top_hem_behavior := None; rise := None; leg_shape := None; leg_opening_width := None;
     bottom_length := None; jacket_closure := None; jacket_length := None;
     shoulder_structure := None; skirt_construction := None |}.

(** A ponte garment with no elastane information. *)
Definition garment_ponte : GarmentProfile :=
  {| primary_fiber := "cotton"; primary_fiber_pct := 100; secondary_fiber := None;
     secondary_fiber_pct := 0; elastane_pct := 0; fabric_name := Some "ponte";
     construction := WOVEN; gsm_estimated := 150; surface := MATTE;
     surface_friction := 0.5; drape := 5; category := DRESS; silhouette := SEMI_FITTED;
     expansion_rate := 0.05; silhouette_label := "fitted"; neckline := CREW;
     v_depth_cm := 0; neckline_depth := None; sleeve_type := SET_IN;
     sleeve_length_inches := None; sleeve_ease_inches := 1; rise_cm := None;
     waistband_width_cm := 3; waistband_stretch_pct := 5; waist_position := "natural";
     has_waist_definition := false; hem_position := "knee"; garment_length_inches := None;
     covers_waist := true; covers_hips := true; zone := "torso"; color_lightness := 0.5;
     color_saturation := 0.5; color_temperature := "neutral";
     is_monochrome_outfit := false; has_pattern := false; pattern_type := None;
     has_horizontal_stripes := false; has_vertical_stripes := false; stripe_width_cm := 0;
     stripe_spacing_cm := 0; pattern_scale := "none"; pattern_scale_inches := 0;
     pattern_contrast := 0.5; has_contrasting_belt := false; has_tonal_belt := false;
     belt_width_cm := 0; is_structured := false; has_darts := false; has_lining := true;
     is_faux_wrap := false; garment_ease_inches := 3; brand_tier := MID_MARKET;
     uses_diverse_model := false; model_estimated_size := 2%Z; garment_layer := BASE;
     title := None; fit_category := None; top_hem_length := None;
     top_hem_behavior := None; rise := None; leg_shape := None; leg_opening_width := None;
     bottom_length := None; jacket_closure := None; jacket_length := None;
     shoulder_structure := None; skirt_construction := None |}.


(* ================================================================ *)
(** ** Vocabulary of the statements *)
(* ================================================================ *)

(** "n/a" does not occur in a reasoning text, whatever its case. *)
Definition no_na (reasoning : string) : Prop :=
  Text.contains "n/a" (Text.lower reasoning) = false.

(** The result of a given name in a list of principle results. *)
Definition find_result (name : string) (prs : list PrincipleResult)
    : option PrincipleResult :=
  find (fun p => String.eqb (pr_name p) name) prs.

(** Two results that differ at most in their weight. *)
Definition same_but_weight (r r' : PrincipleResult) : Prop :=
  pr_name r' = pr_name r /\ pr_score r' = pr_score r
  /\ pr_reasoning r' = pr_reasoning r /\ pr_applicable r' = pr_applicable r
  /\ pr_confidence r' = pr_confidence r.

(** [r'] is [r] after calibration: only the weight may differ, and an
    inapplicable result is left as it is. *)
Definition calibrated_of (r r' : PrincipleResult) : Prop :=
  same_but_weight r r' /\ (pr_applicable r = false -> r' = r).

(** The category the title decides, when it decides one. *)
Definition title_category (g : GarmentProfile) : option GarmentCategory :=
  let t := Text.lower (Text.or_else (title g) EmptyString) in
  if negb (String.eqb t EmptyString) then
    match all_matches t with
    | m :: rest => Some (snd (greatest m rest))
    | [] => None
    end
  else None.

(** The construction multipliers, as the specification lists them. *)
Definition construction_multiplier (c : FabricConstruction) : Q :=
  match c with
  | WOVEN => 1.6 | KNIT => 4.0 | KNIT_RIB => 5.5
  | KNIT_DOUBLE => 3.5 | KNIT_JERSEY => 4.0
  end.

(** The named-fabric lookup of a garment, if it exists. *)
Definition fabric_lookup (g : GarmentProfile) : option FabricData :=
  match fabric_name g with
  | Some n => get_fabric_data n
  | None => None
  end.

(** The stretch as the specification words it: elastane times the
    construction multiplier, overridden by the lookup's typical stretch when
    the elastane percentage is 0 and the lookup exists. *)
Definition spec_total_stretch (g : GarmentProfile) : Q :=
  match fabric_lookup g with
  | Some fd =>
      if elastane_pct g =? 0 then fd_typical_stretch fd
      else elastane_pct g * construction_multiplier (construction g)
  | None => elastane_pct g * construction_multiplier (construction g)
  end.

(** The average of the three cling factors: stretch/20, max(0, 1 - gsm/300)
    on the effective GSM, and max(0, 1 - friction). *)
Definition spec_cling_average (g : GarmentProfile) : Q :=
  let r := resolve_fabric_properties g in
  (rf_total_stretch_pct r / 20
   + Num.max 0 (1 - rf_effective_gsm r / 300)
   + Num.max 0 (1 - surface_friction g)) / 3.

(** The nine zones of the hemline classification. *)
Definition hem_zones : list string :=
  ["above_knee"; "above_knee_near"; "knee_danger"; "safe_zone"; "collapsed_zone";
   "calf_danger"; "below_calf"; "ankle"; "floor"].

Definition known_rises : list string := ["high"; "ultra_high"; "mid"; "low"].

Definition known_leg_shapes : list string :=
  ["skinny"; "slim"; "wide_leg"; "palazzo"; "straight"; "bootcut"; "flare";
   "tapered"; "jogger"].

(** The rise label is one that [score_pant_rise] scores. *)
Definition rise_known (g : GarmentProfile) : bool :=
  match resolve_rise g with
  | Some r => Text.mem r known_rises
  | None => false
  end.

(** The leg shape is one that [score_leg_shape] scores. *)
Definition leg_shape_known (g : GarmentProfile) : bool :=
  match leg_shape g with
  | Some l => Text.mem l known_leg_shapes
  | None => false
  end.

(** Two principle results as layer 2 produces them for high-rise pants. *)
Definition sample_pant_rise : PrincipleResult :=
  {| pr_name := "Pant Rise"; pr_score := 0.65; pr_reasoning := "High rise";
     pr_weight := 0.18; pr_applicable := true; pr_confidence := 0.70 |}.

Definition sample_leg_shape : PrincipleResult :=
  {| pr_name := "Leg Shape"; pr_score := 0.15; pr_reasoning := "Straight";
     pr_weight := 0.15; pr_applicable := true; pr_confidence := 0.70 |}.

(** A scorer's output whose score is on the scale [-1, 1]. *)
Definition on_scale (out : Q * string) : Prop := -1 <= fst out <= 1.

(** The twenty scorers: the sixteen principle scorers and the four
    type-specific ones. *)
Definition all_scorers : list (string * Scorer) :=
  (_SCORERS ++ _TYPE_SCORER_FUNCS)%list.

(** The weight of a principle result is in order: strictly positive when the
    result is applicable, zero when it is not. *)
Definition well_weighted (r : PrincipleResult) : Prop :=
  if pr_applicable r then 0 < pr_weight r else pr_weight r == 0.

(** The principle results that layer 2 hands to layer 3. *)
Definition element_results (g : GarmentProfile) (b : BodyProfile)
    : list PrincipleResult :=
  element_scoring (set_category (classify_garment g) g) b (classify_garment g)
    (get_structured_penalty_reduction
       (run_fabric_gates g b (resolve_fabric_properties g))).

(** The identifiers of the six gate rules, in the order the rules run. *)
Definition gate_ids : list string :=
  ["GATE_DARK_SHINY"; "GATE_ALINE_SHELF"; "GATE_WRAP_GAPPING"; "GATE_STRUCTURED";
   "GATE_FLUID_APPLE_BELLY"; "GATE_CLING_TRAP"].

(** The names a goal looks at: its positive and its negative principles. *)
Definition goal_names (goal : StylingGoal) : list string :=
  (gm_positive (GOAL_PRINCIPLE_MAP goal) ++ gm_negative (GOAL_PRINCIPLE_MAP goal))%list.

(** The verdict of a goal none of whose principles is applicable. *)
Definition no_principle_verdict (goal : StylingGoal) : GoalVerdict :=
  {| gv_goal := goal; gv_verdict := "caution"; gv_score := 0.0;
     gv_supporting_principles := [];
     gv_reasoning := "No applicable principles for this goal" |}.

(** The running totals of a goal are balanced: the total weight is not
    negative and bounds the weighted sum on both sides. *)
Definition balanced (acc : GoalAcc) : Prop :=
  let '(weighted_sum, total_weight, _) := acc in
  0 <= total_weight /\ - total_weight <= weighted_sum <= total_weight.

(** Every applicable result of the list has its score on the scale. *)
Definition scores_on_scale (principles : list PrincipleResult) : Prop :=
  forall p, In p principles -> pr_applicable p = true -> -1 <= pr_score p <= 1.

(** The total weight of the running totals of a goal. *)
Definition weight_of (acc : GoalAcc) : Q := snd (fst acc).

(** An entry of the dict [zones] is in order: it holds at least one score
    and all its scores are on the scale. *)
Definition zone_ok (entry : string * (list Q * list string)) : Prop :=
  fst (snd entry) <> [] /\ Forall (fun s => -1 <= s <= 1) (fst (snd entry)).

(** The length of the keyword of a title match. *)
Definition match_length (m : Match) : nat := fst (fst m).

(** The circumferences at the six landmarks of the arm, shoulder to wrist. *)
Definition arm_landmark_circs (body : BodyProfile) : list Q :=
  [ shoulder_width body / 2 * Num.math_pi / 2; c_upper_arm_max body;
    c_elbow body; c_forearm_max body; c_forearm_min body; c_wrist body ].

(** [x] lies between two members of [l]. *)
Definition between_members (x : Q) (l : list Q) : Prop :=
  exists lo hi, In lo l /\ In hi l /\ lo <= x <= hi.

(** Split on every condition of the goal, then decide the closed text. *)
Ltac split_conditions :=
  repeat match goal with
         | |- context [if ?c then _ else _] => destruct c
         | |- context [match ?c with PEAR => _ | _ => _ end] => destruct c
         end.

Ltac decide_text := split_conditions; vm_compute; reflexivity.

Ltac eval_strings := cbv [Text.mem existsb String.eqb Ascii.eqb Bool.eqb orb].

(* ================================================================ *)
(** ** Comparisons, sums and rounding *)
(* ================================================================ *)

Section Comparisons.

Variables x y : Q.

Lemma ltb_lt : (x <? y) = true <-> x < y.
Proof.
  unfold Num.ltb. rewrite negb_true_iff. split; intro H.
  - apply Qnot_le_lt. intro Hle. apply Qle_bool_iff in Hle. congruence.
  - destruct (Qle_bool y x) eqn:E; [|reflexivity].
    apply Qle_bool_iff in E. exfalso. exact (Qlt_not_le _ _ H E).
Qed.

Lemma ltb_ge : (x <? y) = false <-> y <= x.
Proof. unfold Num.ltb. rewrite negb_false_iff. apply Qle_bool_iff. Qed.

Lemma leb_le : (x <=? y) = true <-> x <= y.
Proof. apply Qle_bool_iff. Qed.

Lemma min_le_r : Num.min x y <= y.
Proof.
  unfold Num.min. destruct (y <? x) eqn:E.
  - apply Qle_refl.
  - unfold Num.ltb in E. rewrite negb_false_iff in E.
    apply Qle_bool_iff in E. exact E.
Qed.

Lemma min_le_l : Num.min x y <= x.
Proof.
  unfold Num.min. destruct (y <? x) eqn:E.
  - unfold Num.ltb in E. rewrite negb_true_iff in E.
    apply Qlt_le_weak. apply Qnot_le_lt. intro Hle.
    apply Qle_bool_iff in Hle. congruence.
  - apply Qle_refl.
Qed.

Lemma plus_nonneg : 0 <= x -> 0 <= y -> 0 <= x + y.
Proof. intros Hx Hy. exact (Qplus_le_compat 0 x 0 y Hx Hy). Qed.

End Comparisons.

Lemma max0_nonneg (x : Q) : 0 <= Num.max 0 x.
Proof.
  unfold Num.max. destruct (0 <? x) eqn:E.
  - apply ltb_lt in E. apply Qlt_le_weak. exact E.
  - apply Qle_refl.
Qed.

Lemma clamp01_of_nonneg (x : Q) : 0 <= x -> clamp3 x 0 1 == Num.min 1 x.
Proof.
  intro H. unfold clamp3, Num.max.
  destruct (0 <? Num.min 1 x) eqn:E; [reflexivity|].
  apply ltb_ge in E.
  apply Qle_antisym; [|exact E].
  unfold Num.min. destruct (x <? 1); [exact H | discriminate].
Qed.

Lemma fold_sum_shift (l : list Q) (a : Q) :
  fold_left Qplus l a == a + Num.sum l.
Proof.
  unfold Num.sum. revert a. induction l as [|x l IH]; intro a; cbn [fold_left].
  - ring.
  - rewrite IH. rewrite (IH (0 + x)). ring.
Qed.

Lemma sum_cons (x : Q) (l : list Q) : Num.sum (x :: l) == x + Num.sum l.
Proof. unfold Num.sum at 1. cbn [fold_left]. rewrite fold_sum_shift. ring. Qed.

Lemma sum_scaled {A : Type} (f h : A -> Q) (c : Q) (l : list A) :
  (forall x, In x l -> h x == f x * c) ->
  Num.sum (map h l) == Num.sum (map f l) * c.
Proof.
  induction l as [|x l IH]; intro H; cbn [map].
  - reflexivity.
  - rewrite !sum_cons. rewrite IH by (intros y Hy; apply H; right; exact Hy).
    rewrite (H x) by (left; reflexivity). ring.
Qed.

Lemma round_of_integer (x : Q) (k : Z) :
  x == inject_Z k -> Num.round_half_even x = k.
Proof.
  intro H. unfold Num.round_half_even.
  assert (En : Qnum x = (k * Zpos (Qden x))%Z).
  { unfold Qeq in H. cbn in H. lia. }
  rewrite En. rewrite Z.div_mul by discriminate.
  rewrite Z.mod_mul by discriminate. reflexivity.
Qed.

(* ================================================================ *)
(** ** Text and lookup lemmas *)
(* ================================================================ *)

Lemma mem_In (s : string) (l : list string) : Text.mem s l = true -> In s l.
Proof.
  unfold Text.mem. intro H. apply existsb_exists in H.
  destruct H as [x [Hin E]]. apply String.eqb_eq in E. subst. exact Hin.
Qed.

Lemma dict_find_In {A : Type} (d : list (string * A)) (k : string) (v : A) :
  dict_find d k = Some v -> In (k, v) d.
Proof.
  induction d as [|[k' v'] d IH]; simpl; [discriminate|].
  destruct (String.eqb k k') eqn:E.
  - intro H. injection H as ->. apply String.eqb_eq in E. subst. left. reflexivity.
  - intro H. right. apply IH. exact H.
Qed.

Lemma is_shape_true (b : BodyProfile) (s : BodyShape) :
  is_shape b s = true <-> body_shape b = s.
Proof.
  unfold is_shape. split; intro H.
  - apply internal_BodyShape_dec_bl. exact H.
  - apply internal_BodyShape_dec_lb. exact H.
Qed.

Lemma is_shape_false (b : BodyProfile) (s : BodyShape) :
  is_shape b s = false <-> body_shape b <> s.
Proof.
  split; intro H.
  - intro E. apply is_shape_true in E. congruence.
  - destruct (is_shape b s) eqn:E; [|reflexivity].
    apply is_shape_true in E. contradiction.
Qed.

(* ================================================================ *)
(** ** Reasoning texts that never read as "n/a" *)
(* ================================================================ *)

Lemma pant_rise_reasoning (g : GarmentProfile) (b : BodyProfile) (r : string) :
  resolve_rise g = Some r ->
  Text.mem r known_rises = true ->
  no_na (snd (score_pant_rise g b)).
Proof.
  intros Hr Hm. apply mem_In in Hm. unfold no_na, score_pant_rise. rewrite Hr.
  cbn [In known_rises] in Hm.
  destruct Hm as [<-|[<-|[<-|[<-|[]]]]]; eval_strings; decide_text.
Qed.

Lemma leg_shape_reasoning (g : GarmentProfile) (b : BodyProfile) (l : string) :
  leg_shape g = Some l ->
  Text.mem l known_leg_shapes = true ->
  no_na (snd (score_leg_shape g b)).
Proof.
  intros Hl Hm. apply mem_In in Hm. unfold no_na, score_leg_shape. rewrite Hl.
  cbn [In known_leg_shapes] in Hm.
  destruct Hm as [<-|[<-|[<-|[<-|[<-|[<-|[<-|[<-|[<-|[]]]]]]]]]];
    eval_strings; decide_text.
Qed.

Lemma hem_zone_known (g : GarmentProfile) (b : BodyProfile) :
  Text.mem (hr_hem_zone (translate_hemline g b)) hem_zones = true.
Proof.
  unfold translate_hemline. cbv zeta. cbn [hr_hem_zone].
  repeat match goal with
         | |- context [if ?c then _ else _] => destruct c
         end; reflexivity.
Qed.

Lemma hemline_reasoning (hem : HemlineResult) (g : GarmentProfile)
    (b : BodyProfile) :
  Text.mem (hr_hem_zone hem) hem_zones = true ->
  no_na (snd (score_hemline_with hem g b)).
Proof.
  intro Hm. apply mem_In in Hm. unfold no_na, score_hemline_with.
  cbn [In hem_zones] in Hm.
  destruct Hm as [<-|[<-|[<-|[<-|[<-|[<-|[<-|[<-|[<-|[]]]]]]]]]];
    eval_strings; decide_text.
Qed.

Lemma dark_slimming_reasoning (g : GarmentProfile) (b : BodyProfile) :
  no_na (snd (score_dark_slimming g b)).
Proof. unfold no_na, score_dark_slimming. cbv zeta. decide_text. Qed.

(* ================================================================ *)
(** ** The shape of the pipeline *)
(* ================================================================ *)

Lemma score_garment_unfold (g : GarmentProfile) (b : BodyProfile)
    (ctx : option Context) :
  score_garment g b ctx
  = composite_layer (calibrated_results g b) b
      (run_fabric_gates g b (resolve_fabric_properties g)).
Proof.
  unfold score_garment, score_garment_run, calibrated_results.
  cbv beta zeta. cbn [fst]. reflexivity.
Qed.

Lemma principle_scores_of_layer (prs : list PrincipleResult) (b : BodyProfile)
    (exs : list ExceptionTriggered) :
  sr_principle_scores (composite_layer prs b exs) = prs.
Proof.
  unfold composite_layer. destruct (filter pr_applicable prs); reflexivity.
Qed.

Lemma principle_scores_calibrated (g : GarmentProfile) (b : BodyProfile)
    (ctx : option Context) :
  sr_principle_scores (score_garment g b ctx) = calibrated_results g b.
Proof. rewrite score_garment_unfold. apply principle_scores_of_layer. Qed.

Section ScoredResults.

Variables (n : string) (out : Q * string) (p w c : Q).

Lemma scored_result_name : pr_name (scored_result n out p w c) = n.
Proof. destruct out. reflexivity. Qed.

Lemma scored_result_confidence : pr_confidence (scored_result n out p w c) = c.
Proof. destruct out. reflexivity. Qed.

Lemma scored_result_applicable :
  no_na (snd out) -> pr_applicable (scored_result n out p w c) = true.
Proof.
  destruct out as [s r]. unfold no_na. cbn [snd]. intro H.
  unfold scored_result. cbn [pr_applicable]. unfold reads_not_applicable.
  rewrite H. rewrite andb_false_r. reflexivity.
Qed.

End ScoredResults.

(* ================================================================ *)
(** ** Calibration changes weights only *)
(* ================================================================ *)

Section Calibration.

Variable goals : list StylingGoal.

Lemma calibrate_one_same (done : list PrincipleResult) (r : PrincipleResult)
    (rest : list PrincipleResult) :
  same_but_weight r (calibrate_one goals done r rest).
Proof.
  unfold calibrate_one, same_but_weight.
  destruct (pr_applicable r) eqn:E; cbn; rewrite ?E; repeat split; reflexivity.
Qed.

Lemma calibrate_one_of (done : list PrincipleResult) (r : PrincipleResult)
    (rest : list PrincipleResult) :
  calibrated_of r (calibrate_one goals done r rest).
Proof.
  split; [apply calibrate_one_same|].
  intro H. unfold calibrate_one. rewrite H. reflexivity.
Qed.

(** The loop keeps what it has calibrated and adds one calibrated result per
    result still to visit. *)
Lemma calibrate_from_tail :
  forall todo done,
    exists tail,
      calibrate_from goals done todo = (done ++ tail)%list
      /\ Forall2 calibrated_of todo tail.
Proof.
  induction todo as [|r rest IH]; intro done; cbn [calibrate_from].
  - exists []. rewrite app_nil_r. split; [reflexivity|constructor].
  - destruct (IH (done ++ [calibrate_one goals done r rest])%list) as [tail [E F]].
    exists (calibrate_one goals done r rest :: tail). split.
    + rewrite E. rewrite <- app_assoc. reflexivity.
    + constructor; [apply calibrate_one_of | exact F].
Qed.

Lemma calibrate_forall2 (prs : list PrincipleResult) :
  Forall2 calibrated_of prs (calibrate goals prs).
Proof.
  unfold calibrate. destruct (calibrate_from_tail prs []) as [tail [E F]].
  rewrite E. exact F.
Qed.

(** The result at position [length done + length pre] of the calibrated list
    is what one iteration makes of it, given the calibrated results before
    it and the untouched results after it. *)
Lemma calibrate_from_nth :
  forall pre done r rest,
    let out := calibrate_from goals done (pre ++ r :: rest)%list in
    let n := (List.length done + List.length pre)%nat in
    nth_error out n = Some (calibrate_one goals (firstn n out) r rest).
Proof.
  induction pre as [|p pre IH]; intros done r rest; cbv zeta.
  - cbn [app calibrate_from List.length]. rewrite Nat.add_0_r.
    destruct (calibrate_from_tail rest
                (done ++ [calibrate_one goals done r rest])%list) as [tail [E _]].
    rewrite E. rewrite <- app_assoc. cbn [app].
    rewrite firstn_app, firstn_all, Nat.sub_diag. cbn [firstn].
    rewrite app_nil_r.
    rewrite nth_error_app2 by lia. rewrite Nat.sub_diag. reflexivity.
  - cbn [app calibrate_from List.length].
    specialize (IH (done ++ [calibrate_one goals done p (pre ++ r :: rest)])%list
                  r rest).
    cbv zeta in IH. rewrite length_app in IH. cbn [List.length] in IH.
    replace (List.length done + S (List.length pre))%nat
      with (List.length done + 1 + List.length pre)%nat by lia.
    exact IH.
Qed.

End Calibration.

Lemma forall2_in_r {A B : Type} (R : A -> B -> Prop) (l : list A) (l' : list B) :
  Forall2 R l l' -> forall y, In y l' -> exists x, In x l /\ R x y.
Proof.
  induction 1 as [|x y l l' Hxy _ IH]; intros z Hz; [destruct Hz|].
  destruct Hz as [<-|Hz].
  - exists x. split; [left; reflexivity | exact Hxy].
  - destruct (IH z Hz) as [x' [Hin HR]]. exists x'. split; [right|]; assumption.
Qed.

(* ================================================================ *)
(** ** Results by name *)
(* ================================================================ *)

Lemma find_result_calibrated (name : string) (l l' : list PrincipleResult) :
  Forall2 calibrated_of l l' ->
  forall r, find_result name l = Some r ->
       exists r', find_result name l' = Some r' /\ calibrated_of r r'.
Proof.
  unfold find_result.
  induction 1 as [|x y l l' Hxy _ IH]; intros r Hr; [discriminate|].
  cbn [find] in *.
  assert (En : pr_name y = pr_name x) by (destruct Hxy as [[E _] _]; exact E).
  rewrite En. destruct (String.eqb (pr_name x) name).
  - injection Hr as <-. exists y. split; [reflexivity | exact Hxy].
  - apply IH. exact Hr.
Qed.

Lemma find_result_app (name : string) (l1 l2 : list PrincipleResult) :
  find_result name (l1 ++ l2)
  = match find_result name l1 with
    | Some r => Some r
    | None => find_result name l2
    end.
Proof.
  unfold find_result. induction l1 as [|x l1 IH]; [reflexivity|].
  cbn [app find]. destruct (String.eqb (pr_name x) name); [reflexivity | exact IH].
Qed.

Lemma found_applicable (name : string) (l : list PrincipleResult)
    (p : PrincipleResult) :
  find_result name l = Some p -> pr_applicable p = true ->
  filter pr_applicable l <> [].
Proof.
  intros Hf Hp E.
  unfold find_result in Hf. apply find_some in Hf. destruct Hf as [Hin _].
  assert (Hin' : In p (filter pr_applicable l))
    by (apply filter_In; split; assumption).
  rewrite E in Hin'. destruct Hin'.
Qed.

Section ElementScoring.

Variables (g : GarmentProfile) (b : BodyProfile) (c : GarmentCategory) (p : Q).

Lemma run_generic_name (e : string * Scorer) :
  pr_name (run_generic_scorer g b c p e) = fst e.
Proof.
  destruct e as [n s]. unfold run_generic_scorer.
  destruct (Text.mem n (get_scorers_to_skip c)); [reflexivity|].
  apply scored_result_name.
Qed.

Lemma find_generic (name : string) (l : list (string * Scorer)) :
  find_result name (map (run_generic_scorer g b c p) l)
  = option_map (run_generic_scorer g b c p)
      (find (fun e => String.eqb (fst e) name) l).
Proof.
  unfold find_result. induction l as [|e l IH]; [reflexivity|].
  cbn [map find]. rewrite run_generic_name.
  destruct (String.eqb (fst e) name); [reflexivity | exact IH].
Qed.

Lemma run_extra_pant_rise :
  run_extra_scorer g b p "Pant Rise"
  = [scored_result "Pant Rise" (score_pant_rise g b) p 0.18 0.70].
Proof. reflexivity. Qed.

Lemma run_extra_leg_shape :
  run_extra_scorer g b p "Leg Shape"
  = [scored_result "Leg Shape" (score_leg_shape g b) p 0.15 0.70].
Proof. reflexivity. Qed.

Lemma generic_confidence (e : string * Scorer) :
  In e _SCORERS ->
  let r := run_generic_scorer g b c p e in
  pr_confidence r = 0.70
  \/ (pr_confidence r = 0 /\ pr_applicable r = false
      /\ In (pr_name r) (get_scorers_to_skip c)).
Proof.
  intro Hin. cbv zeta. unfold run_generic_scorer. destruct e as [n s].
  destruct (Text.mem n (get_scorers_to_skip c)) eqn:Es.
  - right. cbn. repeat split. apply mem_In. exact Es.
  - left. rewrite scored_result_confidence.
    unfold _SCORERS in Hin. cbn [In] in Hin.
    repeat (destruct Hin as [Hin|Hin];
            [injection Hin as <- _; vm_compute; reflexivity|]).
    destruct Hin.
Qed.

Lemma extra_confidence (n : string) (r : PrincipleResult) :
  In r (run_extra_scorer g b p n) -> pr_confidence r = 0.70.
Proof.
  unfold run_extra_scorer. destruct (dict_find _TYPE_SCORER_FUNCS n); [|intros []].
  intros [<-|[]]. apply scored_result_confidence.
Qed.

Lemma element_confidence (r : PrincipleResult) :
  In r (element_scoring g b c p) ->
  pr_confidence r = 0.70
  \/ (pr_confidence r = 0 /\ pr_applicable r = false
      /\ In (pr_name r) (get_scorers_to_skip c)).
Proof.
  unfold element_scoring. intro H. apply in_app_or in H. destruct H as [H|H].
  - apply in_map_iff in H. destruct H as [e [<- He]].
    apply generic_confidence. exact He.
  - apply in_flat_map in H. destruct H as [n [_ Hn]].
    left. eapply extra_confidence. exact Hn.
Qed.

Lemma find_dark_slimming :
  find (fun e : string * Scorer => String.eqb (fst e) "Dark/Black Slimming") _SCORERS
  = Some ("Dark/Black Slimming", score_dark_slimming).
Proof. reflexivity. Qed.

Lemma dark_slimming_never_skipped :
  Text.mem "Dark/Black Slimming" (get_scorers_to_skip c) = false.
Proof. destruct c; reflexivity. Qed.

Lemma dark_slimming_result :
  find_result "Dark/Black Slimming" (element_scoring g b c p)
  = Some (scored_result "Dark/Black Slimming" (score_dark_slimming g b) p
            (dict_get _BASE_WEIGHTS "Dark/Black Slimming" 0.10)
            (dict_get PRINCIPLE_CONFIDENCE
               (confidence_key "Dark/Black Slimming") 0.70)).
Proof.
  unfold element_scoring.
  rewrite find_result_app, find_generic, find_dark_slimming.
  cbn [option_map]. unfold run_generic_scorer.
  rewrite dark_slimming_never_skipped. reflexivity.
Qed.

End ElementScoring.

Lemma find_calibrated_result (g : GarmentProfile) (b : BodyProfile)
    (name : string) (r : PrincipleResult) :
  find_result name
    (element_scoring (set_category (classify_garment g) g) b (classify_garment g)
       (get_structured_penalty_reduction
          (run_fabric_gates g b (resolve_fabric_properties g))))
  = Some r ->
  exists r', find_result name (calibrated_results g b) = Some r'
             /\ calibrated_of r r'.
Proof.
  intro H. unfold calibrated_results. cbv zeta.
  eapply find_result_calibrated; [apply calibrate_forall2 | exact H].
Qed.

Lemma calibrated_confidence (g : GarmentProfile) (b : BodyProfile)
    (r : PrincipleResult) :
  In r (calibrated_results g b) ->
  pr_confidence r = 0.70
  \/ (pr_confidence r = 0 /\ pr_applicable r = false
      /\ In (pr_name r) (get_scorers_to_skip (classify_garment g))).
Proof.
  unfold calibrated_results. cbv zeta. intro H.
  destruct (forall2_in_r _ _ _ (calibrate_forall2 _ _) _ H)
    as [r0 [Hin [[En [_ [_ [Ea Ec]]]] _]]].
  rewrite En, Ea, Ec. eapply element_confidence. exact Hin.
Qed.

Lemma active_confidence (g : GarmentProfile) (b : BodyProfile)
    (p : PrincipleResult) :
  In p (filter pr_applicable (calibrated_results g b)) -> pr_confidence p = 0.70.
Proof.
  intro H. pose proof (calibrated_confidence g b p) as C.
  revert H C. generalize (calibrated_results g b). intros l H C.
  apply filter_In in H. destruct H as [Hin Ha].
  destruct (C Hin) as [E|[_ [E _]]]; [exact E|]. congruence.
Qed.

(** Dark/Black Slimming is never skipped and never reads as "n/a": some
    principle is applicable on every input, and the neutral default of layer 7
    is never what [score_garment] returns. *)
Lemma dark_slimming_applicable (g : GarmentProfile) (b : BodyProfile) :
  exists p,
    find_result "Dark/Black Slimming" (calibrated_results g b) = Some p
    /\ pr_applicable p = true.
Proof.
  destruct (find_calibrated_result g b _ _ (dark_slimming_result _ _ _ _))
    as [p [Hf [[_ [_ [_ [Ha _]]]] _]]].
  exists p. split; [exact Hf|].
  rewrite Ha. apply scored_result_applicable. apply dark_slimming_reasoning.
Qed.

Lemma some_principle_applicable (g : GarmentProfile) (b : BodyProfile) :
  filter pr_applicable (calibrated_results g b) <> [].
Proof.
  destruct (dark_slimming_applicable g b) as [p [Hf Hp]].
  exact (found_applicable _ _ _ Hf Hp).
Qed.

(* ================================================================ *)
(** ** C1: silhouette dominance *)
(* ================================================================ *)

(** C1.  Silhouette dominance override.  For every garment, body and optional
    context: when the worst score among the applicable Tent Concealment and
    Bodycon Mapping results is below -0.20, the body has one of the goals
    slimming, slim_hips or hide_midsection, and the weighted-and-confidence-
    weighted composite of the applicable results is strictly positive, the
    returned [composite_raw] is that worst score times 0.3, clamped to [-1,1]
    and rounded to four decimals. *)
Theorem silhouette_dominance_override (g : GarmentProfile) (b : BodyProfile)
    (ctx : option Context) :
  let active := filter pr_applicable (calibrated_results g b) in
  worst_sil_of active < -0.20 ->
  has_slimming_goal b = true ->
  0 < weighted_composite active ->
  sr_composite_raw (score_garment g b ctx)
  = Num.round_nd 4 (clamp (worst_sil_of active * 0.3)).
Proof.
  cbv zeta. intros Hw Hg Hc.
  rewrite score_garment_unfold. unfold composite_layer.
  destruct (filter pr_applicable (calibrated_results g b)) as [|a l] eqn:Ea.
  - exfalso. vm_compute in Hw. discriminate.
  - assert (Hd : silhouette_dominates (a :: l) b = true).
    { unfold silhouette_dominates. rewrite Hg.
      apply ltb_lt in Hw. apply ltb_lt in Hc. rewrite Hw, Hc. reflexivity. }
    rewrite Hd. reflexivity.
Qed.

(** An apple body with the goal hide_midsection in a thin bodycon dress: the
    three premises hold there. *)
Lemma silhouette_dominance_override_witness :
  sr_composite_raw (score_garment garment_thin_bodycon body_apple_hide None)
  = Num.round_nd 4
      (clamp (worst_sil_of
                (filter pr_applicable
                   (calibrated_results garment_thin_bodycon body_apple_hide))
              * 0.3)).
Proof.
  apply (silhouette_dominance_override garment_thin_bodycon body_apple_hide None).
  - vm_compute; reflexivity.
  - vm_compute; reflexivity.
  - vm_compute; reflexivity.
Defined.

Example silhouette_dominance_values :
  let active :=
    filter pr_applicable (calibrated_results garment_thin_bodycon body_apple_hide) in
  worst_sil_of active == -0.40
  /\ 0.08 < weighted_composite active
  /\ sr_composite_raw (score_garment garment_thin_bodycon body_apple_hide None)
     == -0.12.
Proof. cbv zeta. split; [|split]; vm_compute; reflexivity. Qed.

(* ================================================================ *)
(** ** C2: the end-to-end scenario *)
(* ================================================================ *)

(** The scenario body, with the default shoulder width 15.5, is not an
    hourglass: its shoulder ratio 15.5 * pi / 39 exceeds 1.15. *)
Lemma scenario_body_not_hourglass : body_shape body_scenario <> HOURGLASS.
Proof. vm_compute. discriminate. Qed.

(** C2, amended.  On the scenario inputs [score_garment] returns a raw
    composite that is strictly positive and at most 0.60, and the body
    classifies as INVERTED_TRIANGLE; with [shoulder_width=14.0], as in the test
    fixture, the body classifies as HOURGLASS and the raw composite of the
    fixture garment is again strictly positive and at most 0.60. *)
Theorem scenario_composite :
  let r := score_garment garment_scenario body_scenario None in
  let r' := score_garment garment_fixture body_fixture None in
  (0 < sr_composite_raw r /\ sr_composite_raw r <= 0.60)
  /\ body_shape body_scenario = INVERTED_TRIANGLE
  /\ body_shape body_fixture = HOURGLASS
  /\ (0 < sr_composite_raw r' /\ sr_composite_raw r' <= 0.60).
Proof.
  cbv zeta. repeat split; vm_compute; try reflexivity; discriminate.
Qed.

Example scenario_values :
  sr_composite_raw (score_garment garment_scenario body_scenario None) == 0.061
  /\ sr_composite_raw (score_garment garment_fixture body_fixture None) == 0.0785.
Proof. split; vm_compute; reflexivity. Qed.

(* ================================================================ *)
(** ** C3: the weight cap *)
(* ================================================================ *)

(** High-rise pants on a body with the goals look_taller and highlight_waist:
    Pant Rise ends with weight 0.32235, above 0.35 times the final total
    0.89235 of the applicable weights. *)
Lemma weight_cap_broken :
  let prs :=
    sr_principle_scores
      (score_garment garment_high_rise_pants body_taller_waist None) in
  ~ (forall p, In p prs -> pr_applicable p = true ->
               pr_weight p <= 0.35 * applicable_weight_total prs).
Proof.
  cbv zeta. intro H.
  match type of H with
  | forall p, In p ?prs -> _ =>
      assert (B : forallb
                    (fun p => negb (pr_applicable p)
                              || (pr_weight p <=? 0.35 * applicable_weight_total prs))
                    prs = true)
  end.
  { apply forallb_forall. intros p Hp.
    destruct (pr_applicable p) eqn:E; [|reflexivity].
    cbn [negb orb]. apply leb_le. apply H; assumption. }
  vm_compute in B. discriminate.
Qed.

Example weight_cap_broken_values :
  let prs :=
    sr_principle_scores
      (score_garment garment_high_rise_pants body_taller_waist None) in
  match find_result "Pant Rise" prs with
  | Some p => pr_weight p == 0.32235
  | None => False
  end
  /\ 0.35 * applicable_weight_total prs == 0.3123225.
Proof. cbv zeta. split; vm_compute; reflexivity. Qed.

(** C3, amended.  In layer 3 every applicable result leaves its own iteration
    with a weight that is at most its boosted weight and at most 0.35 times
    the total applicable weight as the list stands at that iteration: the
    results before it with their calibrated weights, itself with its boosted
    weight, the results after it with their base weights.  That weight is the
    one it has in the calibrated list. *)
Theorem weight_capped_at_its_turn (goals : list StylingGoal)
    (pre : list PrincipleResult) (r : PrincipleResult)
    (rest : list PrincipleResult) :
  pr_applicable r = true ->
  let out := calibrate goals (pre ++ r :: rest) in
  let done := firstn (List.length pre) out in
  let r' := calibrate_one goals done r rest in
  nth_error out (List.length pre) = Some r'
  /\ pr_weight r' <= boosted_weight goals r
  /\ pr_weight r'
     <= 0.35 * applicable_weight_total
                 (done ++ set_weight (boosted_weight goals r) r :: rest).
Proof.
  intro Ha. cbv zeta. split; [|split].
  - exact (calibrate_from_nth goals pre [] r rest).
  - unfold calibrate_one. rewrite Ha. cbn [negb pr_weight set_weight].
    apply min_le_l.
  - unfold calibrate_one. rewrite Ha. cbn [negb pr_weight set_weight].
    unfold weight_cap.
    match goal with
    | |- context [existsb pr_applicable ?l] =>
        assert (E : existsb pr_applicable l = true)
    end.
    { rewrite existsb_app. cbn [existsb pr_applicable set_weight]. rewrite Ha.
      apply orb_true_r. }
    rewrite E. apply min_le_r.
Qed.

Lemma weight_capped_at_its_turn_witness :
  pr_weight (calibrate_one [LOOK_TALLER; HIGHLIGHT_WAIST] [] sample_pant_rise
               [sample_leg_shape])
  <= 0.35 * applicable_weight_total
              [set_weight
                 (boosted_weight [LOOK_TALLER; HIGHLIGHT_WAIST] sample_pant_rise)
                 sample_pant_rise;
               sample_leg_shape].
Proof.
  exact (proj2 (proj2 (weight_capped_at_its_turn [LOOK_TALLER; HIGHLIGHT_WAIST]
                         [] sample_pant_rise [sample_leg_shape] eq_refl))).
Defined.

(* ================================================================ *)
(** ** C4: the fabric resolver *)
(* ================================================================ *)

Lemma typical_stretch_nonneg (n : string) (fd : FabricData) :
  get_fabric_data n = Some fd -> 0 <= fd_typical_stretch fd.
Proof.
  intro H. apply dict_find_In in H.
  assert (F : Forall (fun e : string * FabricData => 0 <= fd_typical_stretch (snd e))
                FABRIC_LOOKUP).
  { unfold FABRIC_LOOKUP. repeat constructor; vm_compute; discriminate. }
  rewrite Forall_forall in F. exact (F _ H).
Qed.

Lemma lookup_agrees (g : GarmentProfile) :
  (if Text.truthy (fabric_name g)
   then get_fabric_data (Text.or_else (fabric_name g) EmptyString) else None)
  = fabric_lookup g.
Proof.
  unfold fabric_lookup, Text.truthy, Text.or_else.
  destruct (fabric_name g) as [n|]; [|reflexivity].
  destruct (String.eqb n EmptyString) eqn:E; [|reflexivity].
  apply String.eqb_eq in E. subst. reflexivity.
Qed.

Lemma multiplier_agrees (c : FabricConstruction) :
  dict_get ELASTANE_MULTIPLIERS (construction_value c) 2.0 = construction_multiplier c.
Proof. destruct c; reflexivity. Qed.

Lemma total_stretch_spec (g : GarmentProfile) :
  rf_total_stretch_pct (resolve_fabric_properties g) == spec_total_stretch g.
Proof.
  unfold resolve_fabric_properties, spec_total_stretch. cbn [rf_total_stretch_pct].
  rewrite lookup_agrees, multiplier_agrees.
  destruct (fabric_lookup g) as [fd|] eqn:L; [|reflexivity].
  destruct (elastane_pct g =? 0) eqn:E0; cbn [andb]; [|reflexivity].
  destruct (fd_typical_stretch fd >? 0) eqn:Et; [reflexivity|].
  apply ltb_ge in Et. apply Qeq_bool_iff in E0.
  assert (Hn : 0 <= fd_typical_stretch fd).
  { unfold fabric_lookup in L. destruct (fabric_name g); [|discriminate].
    eapply typical_stretch_nonneg; eassumption. }
  rewrite E0. rewrite Qmult_0_l. apply Qle_antisym; assumption.
Qed.

Lemma total_stretch_nonneg (g : GarmentProfile) :
  0 <= elastane_pct g -> 0 <= rf_total_stretch_pct (resolve_fabric_properties g).
Proof.
  intro H. rewrite total_stretch_spec. unfold spec_total_stretch.
  assert (Hm : 0 <= elastane_pct g * construction_multiplier (construction g)).
  { apply Qmult_le_0_compat; [exact H|].
    destruct (construction g); vm_compute; discriminate. }
  destruct (fabric_lookup g) as [fd|] eqn:L; [|exact Hm].
  destruct (elastane_pct g =? 0); [|exact Hm].
  unfold fabric_lookup in L. destruct (fabric_name g); [|discriminate].
  eapply typical_stretch_nonneg; eassumption.
Qed.

(** With a negative elastane percentage the base cling risk is negative: it
    is not the average clamped to [0,1]. *)
Lemma cling_risk_not_clamped_below :
  ~ rf_cling_risk_base (resolve_fabric_properties garment_negative_elastane)
    == clamp3 (spec_cling_average garment_negative_elastane) 0 1.
Proof. vm_compute. discriminate. Qed.

(** C4, amended.  For every garment, [resolve_fabric_properties] returns the
    total stretch elastane_pct times the construction multiplier, overridden
    by the named fabric's typical stretch when elastane_pct is 0 and the
    lookup exists; the effective GSM gsm_estimated times the fiber multiplier
    (1.0 for an unknown fiber); the base cling risk as the average of the
    three factors capped at 1, which is that average clamped to [0,1]
    whenever elastane_pct is not negative; and is_structured as
    is_structured or has_lining. *)
Theorem fabric_resolver_correct (g : GarmentProfile) :
  let r := resolve_fabric_properties g in
  rf_total_stretch_pct r == spec_total_stretch g
  /\ rf_effective_gsm r
     = gsm_estimated g * dict_get FIBER_GSM_MULTIPLIERS (primary_fiber g) 1.0
  /\ rf_cling_risk_base r = Num.min 1 (spec_cling_average g)
  /\ (0 <= elastane_pct g -> rf_cling_risk_base r == clamp3 (spec_cling_average g) 0 1)
  /\ rf_is_structured r = (is_structured g || has_lining g)%bool.
Proof.
  cbv zeta. split; [apply total_stretch_spec|].
  split; [reflexivity|]. split; [reflexivity|]. split; [|reflexivity].
  intro H.
  assert (E : rf_cling_risk_base (resolve_fabric_properties g)
              = Num.min 1 (spec_cling_average g)) by reflexivity.
  rewrite E. symmetry. apply clamp01_of_nonneg.
  unfold spec_cling_average.
  apply Qle_shift_div_l; [reflexivity|]. rewrite Qmult_0_l.
  apply plus_nonneg; [apply plus_nonneg|]; try apply max0_nonneg.
  apply Qle_shift_div_l; [reflexivity|]. rewrite Qmult_0_l.
  apply total_stretch_nonneg. exact H.
Qed.

Lemma fabric_resolver_correct_witness :
  rf_cling_risk_base (resolve_fabric_properties garment_ponte)
  == clamp3 (spec_cling_average garment_ponte) 0 1.
Proof.
  apply (proj1 (proj2 (proj2 (proj2 (fabric_resolver_correct garment_ponte))))).
  vm_compute. discriminate.
Defined.

Example ponte_resolved :
  let r := resolve_fabric_properties garment_ponte in
  rf_total_stretch_pct r == 20 /\ rf_effective_gsm r == 172.5
  /\ rf_is_structured r = true.
Proof. cbv zeta. split; [|split]; vm_compute; reflexivity. Qed.

(* ================================================================ *)
(** ** C5: routing of pants *)
(* ================================================================ *)

Lemma pants_skipped (g : GarmentProfile) (b : BodyProfile) (name : string) :
  classify_garment g = BOTTOM_PANTS ->
  In name pants_skip ->
  exists p, find_result name (calibrated_results g b) = Some p
            /\ pr_applicable p = false /\ pr_weight p = 0.
Proof.
  intros Hc Hn.
  destruct (find_calibrated_result g b name (skipped_result name BOTTOM_PANTS))
    as [p [Hf [_ Hsame]]].
  - rewrite Hc. unfold element_scoring. rewrite find_result_app, find_generic.
    cbn [In pants_skip] in Hn.
    destruct Hn as [<-|[<-|[<-|[<-|[<-|[]]]]]]; reflexivity.
  - exists p. split; [exact Hf|]. rewrite (Hsame eq_refl). split; reflexivity.
Qed.

Lemma pants_extra (g : GarmentProfile) (b : BodyProfile) (name : string)
    (scorer : Scorer) (w : Q) :
  classify_garment g = BOTTOM_PANTS ->
  In (name, scorer, w)
     [("Pant Rise", score_pant_rise, 0.18); ("Leg Shape", score_leg_shape, 0.15)] ->
  exists p, find_result name (calibrated_results g b) = Some p
            /\ calibrated_of
                 (scored_result name (scorer (set_category BOTTOM_PANTS g) b)
                    (get_structured_penalty_reduction
                       (run_fabric_gates g b (resolve_fabric_properties g)))
                    w 0.70) p.
Proof.
  intros Hc Hn.
  apply find_calibrated_result.
  rewrite Hc. unfold element_scoring. rewrite find_result_app, find_generic.
  cbn [In] in Hn.
  destruct Hn as [E|[E|[]]]; injection E as <- <- <-.
  - cbn [find _SCORERS fst String.eqb Ascii.eqb Bool.eqb option_map].
    cbn [get_extra_scorer_names flat_map].
    rewrite run_extra_pant_rise. cbn [app].
    unfold find_result. cbn [find]. rewrite scored_result_name. reflexivity.
  - cbn [find _SCORERS fst String.eqb Ascii.eqb Bool.eqb option_map].
    cbn [get_extra_scorer_names flat_map].
    rewrite run_extra_pant_rise, run_extra_leg_shape. cbn [app].
    unfold find_result. cbn [find]. rewrite !scored_result_name. reflexivity.
Qed.

(** Pants with no rise and no leg-shape data: the Pant Rise result is there
    and it is not applicable. *)
Lemma pants_without_rise_data :
  let prs :=
    sr_principle_scores (score_garment garment_bare_pants default_body None) in
  category garment_bare_pants = BOTTOM_PANTS
  /\ ~ (exists p, In p prs /\ pr_name p = "Pant Rise" /\ pr_applicable p = true).
Proof.
  cbv zeta. split; [reflexivity|]. intros [p [Hin [Hn Ha]]].
  match type of Hin with
  | In p ?prs =>
      assert (B : forallb
                    (fun q => negb (String.eqb (pr_name q) "Pant Rise")
                              || negb (pr_applicable q)) prs = true)
        by (vm_compute; reflexivity)
  end.
  rewrite forallb_forall in B. specialize (B p Hin).
  rewrite Hn, Ha in B. discriminate.
Qed.

(** A profile of category BOTTOM_PANTS whose title says dress is scored as a
    dress: the write-back of the classifier decides the routing. *)
Example pants_retitled_as_dress :
  let prs :=
    sr_principle_scores
      (score_garment garment_pants_titled_dress default_body None) in
  category garment_pants_titled_dress = BOTTOM_PANTS
  /\ classify_garment garment_pants_titled_dress = DRESS
  /\ option_map pr_applicable (find_result "Hemline" prs) = Some true
  /\ find_result "Pant Rise" prs = None.
Proof. cbv zeta. repeat split; vm_compute; reflexivity. Qed.

(** C5, amended.  For every garment that [classify_garment] classifies as
    BOTTOM_PANTS and every body, the result of [score_garment] holds Hemline,
    Sleeve, V-Neck Elongation, Neckline Compound and Rise Elongation, each
    inapplicable with weight 0, and holds a Pant Rise and a Leg Shape result;
    Pant Rise is applicable when the rise label (given, or inferred from
    rise_cm) is one of high, ultra_high, mid, low, and Leg Shape is applicable
    when the leg shape is one of the nine shapes the scorer knows. *)
Theorem pants_routing (g : GarmentProfile) (b : BodyProfile)
    (ctx : option Context) :
  classify_garment g = BOTTOM_PANTS ->
  let prs := sr_principle_scores (score_garment g b ctx) in
  (forall name,
     In name ["Hemline"; "Sleeve"; "V-Neck Elongation"; "Neckline Compound";
              "Rise Elongation"] ->
     exists p, find_result name prs = Some p
               /\ pr_applicable p = false /\ pr_weight p = 0)
  /\ (exists p, find_result "Pant Rise" prs = Some p
                /\ (rise_known g = true -> pr_applicable p = true))
  /\ (exists p, find_result "Leg Shape" prs = Some p
                /\ (leg_shape_known g = true -> pr_applicable p = true)).
Proof.
  intro Hc. cbv zeta. rewrite (principle_scores_calibrated g b ctx).
  split; [|split].
  - intros name Hn. apply pants_skipped; [exact Hc|].
    cbn [In] in Hn. unfold pants_skip. cbn [In]. tauto.
  - destruct (pants_extra g b "Pant Rise" score_pant_rise 0.18 Hc)
      as [p [Hf [[_ [_ [_ [Ha _]]]] _]]]; [left; reflexivity|].
    exists p. split; [exact Hf|]. intro Hk. rewrite Ha.
    apply scored_result_applicable.
    unfold rise_known in Hk.
    destruct (resolve_rise g) as [r|] eqn:Er; [|discriminate].
    apply (pant_rise_reasoning (set_category BOTTOM_PANTS g) b r); assumption.
  - destruct (pants_extra g b "Leg Shape" score_leg_shape 0.15 Hc)
      as [p [Hf [[_ [_ [_ [Ha _]]]] _]]]; [right; left; reflexivity|].
    exists p. split; [exact Hf|]. intro Hk. rewrite Ha.
    apply scored_result_applicable.
    unfold leg_shape_known in Hk.
    destruct (leg_shape g) as [l|] eqn:El; [|discriminate].
    apply (leg_shape_reasoning (set_category BOTTOM_PANTS g) b l); assumption.
Qed.

Lemma pants_routing_witness :
  exists p,
    find_result "Pant Rise"
      (sr_principle_scores
         (score_garment garment_high_rise_pants body_taller_waist None)) = Some p
    /\ pr_applicable p = true.
Proof.
  destruct (proj1 (proj2 (pants_routing garment_high_rise_pants body_taller_waist
                            None eq_refl))) as [p [Hf Hk]].
  exists p. split; [exact Hf | apply Hk; reflexivity].
Defined.

(* ================================================================ *)
(** ** C6: the color-break reversal *)
(* ================================================================ *)

(** A petite hourglass: the belt scores +0.20, not below zero. *)
Lemma color_break_petite_hourglass :
  has_contrasting_belt garment_belted = true
  /\ is_petite body_petite_hourglass = true
  /\ ~ fst (score_color_break garment_belted body_petite_hourglass) < 0.
Proof.
  split; [reflexivity|]. split; [reflexivity|].
  vm_compute. discriminate.
Qed.

(** C6, amended.  For every garment with a contrasting belt,
    [score_color_break] is strictly positive on every body whose shape is
    HOURGLASS, and strictly negative on every petite body whose shape is not
    HOURGLASS and which is not a plus-size body with belly_zone below 0.2. *)
Theorem color_break_reversal (g : GarmentProfile) (b : BodyProfile) :
  has_contrasting_belt g = true ->
  (body_shape b = HOURGLASS -> 0 < fst (score_color_break g b))
  /\ (is_petite b = true -> body_shape b <> HOURGLASS ->
      (is_plus_size b = true -> 0.2 <= belly_zone b) ->
      fst (score_color_break g b) < 0).
Proof.
  intro Hbelt. unfold score_color_break. rewrite Hbelt. cbn [negb andb].
  rewrite andb_false_r. split.
  - intro Hs. apply is_shape_true in Hs. rewrite Hs.
    destruct (belt_width_cm g >=? 5); vm_compute; reflexivity.
  - intros Hp Hs Hplus. apply is_shape_false in Hs. rewrite Hs, Hp.
    destruct (is_plus_size b) eqn:Eplus.
    + specialize (Hplus eq_refl).
      destruct (belly_zone b >? 0.5) eqn:E1.
      * vm_compute; reflexivity.
      * assert (E2 : (belly_zone b <? 0.2) = false) by (apply ltb_ge; exact Hplus).
        rewrite E2. vm_compute; reflexivity.
    + vm_compute; reflexivity.
Qed.

Lemma color_break_reversal_witness :
  0 < fst (score_color_break garment_belted body_fixture)
  /\ fst (score_color_break garment_belted body_petite) < 0.
Proof.
  split.
  - apply (proj1 (color_break_reversal garment_belted body_fixture eq_refl)).
    vm_compute; reflexivity.
  - apply (proj2 (color_break_reversal garment_belted body_petite eq_refl)).
    + reflexivity.
    + vm_compute; discriminate.
    + vm_compute; discriminate.
Defined.

(* ================================================================ *)
(** ** C7: no applicable principle *)
(* ================================================================ *)

(** C7.  When no principle result is applicable, layer 7 returns the neutral
    result: overall score 5.0, confidence 0.50, raw composite 0.0, the
    principle results as they are, no zone scores and no fixes; no average
    is taken. *)
Theorem no_applicable_short_circuit (prs : list PrincipleResult)
    (body : BodyProfile) (exceptions : list ExceptionTriggered) :
  filter pr_applicable prs = [] ->
  let r := composite_layer prs body exceptions in
  sr_overall_score r = 5.0 /\ sr_confidence r = 0.50 /\ sr_composite_raw r = 0.0
  /\ sr_zone_scores r = [] /\ sr_fixes r = [] /\ sr_principle_scores r = prs.
Proof.
  intro H. unfold composite_layer. rewrite H. cbn. repeat split.
Qed.

Lemma no_applicable_short_circuit_witness :
  let r := composite_layer [skipped_result "Hemline" TOP] default_body [] in
  sr_overall_score r = 5.0 /\ sr_confidence r = 0.50 /\ sr_composite_raw r = 0.0
  /\ sr_zone_scores r = [] /\ sr_fixes r = []
  /\ sr_principle_scores r = [skipped_result "Hemline" TOP].
Proof.
  exact (no_applicable_short_circuit [skipped_result "Hemline" TOP]
           default_body [] eq_refl).
Defined.

(* ================================================================ *)
(** ** C8: confidence *)
(* ================================================================ *)

Lemma confidence_cancels (active : list PrincipleResult) :
  (forall p, In p active -> pr_confidence p = 0.70) ->
  weighted_composite active
  == Num.sum (map (fun r => pr_score r * pr_weight r) active)
     / Num.sum (map pr_weight active).
Proof.
  intro Hc. unfold weighted_composite.
  destruct (Num.sum (map pr_weight active) =? 0) eqn:E.
  - apply Qeq_bool_iff in E. rewrite E. unfold Qdiv.
    assert (Z0 : / 0 == 0) by reflexivity. rewrite Z0. ring.
  - assert (Hw : ~ Num.sum (map pr_weight active) == 0).
    { intro H. apply Qeq_bool_iff in H. unfold Num.eqb in E. congruence. }
    rewrite (sum_scaled (fun r => pr_score r * pr_weight r)
               (fun r => pr_score r * pr_weight r * pr_confidence r) 0.70)
      by (intros x Hx; rewrite (Hc x Hx); reflexivity).
    rewrite (sum_scaled pr_weight (fun r => pr_weight r * pr_confidence r) 0.70)
      by (intros x Hx; rewrite (Hc x Hx); reflexivity).
    field. exact Hw.
Qed.

Lemma average_of_constant (l : list PrincipleResult) (c : Q) :
  l <> [] ->
  (forall p, In p l -> pr_confidence p = c) ->
  Num.sum (map pr_confidence l) / inject_Z (Z.of_nat (List.length l)) == c.
Proof.
  intros Hne Hc.
  assert (Hs : Num.sum (map pr_confidence l)
               == Num.sum (map (fun _ : PrincipleResult => 1) l) * c).
  { apply sum_scaled. intros x Hx. rewrite (Hc x Hx). ring. }
  assert (Hl : Num.sum (map (fun _ : PrincipleResult => 1) l)
               == inject_Z (Z.of_nat (List.length l))).
  { clear. induction l as [|x l IH]; [reflexivity|].
    cbn [map List.length]. rewrite sum_cons, IH.
    rewrite Nat2Z.inj_succ. unfold Z.succ. rewrite inject_Z_plus. ring. }
  rewrite Hs, Hl. field.
  destruct l as [|x l]; [contradiction|].
  cbn [List.length]. rewrite Nat2Z.inj_succ. unfold Qeq. cbn. lia.
Qed.

Lemma layer_confidence (prs : list PrincipleResult) (b : BodyProfile)
    (exs : list ExceptionTriggered) :
  filter pr_applicable prs <> [] ->
  (forall p, In p (filter pr_applicable prs) -> pr_confidence p = 0.70) ->
  sr_confidence (composite_layer prs b exs) == 0.70.
Proof.
  intros Hne Hc. unfold composite_layer.
  destruct (filter pr_applicable prs) as [|a l] eqn:Ea; [contradiction|].
  cbn [sr_confidence]. unfold Num.round_nd.
  assert (Hp : Pos.of_nat (Nat.pow 10 2) = 100%positive) by reflexivity.
  rewrite Hp.
  rewrite (round_of_integer _ 70); [reflexivity|].
  rewrite average_of_constant with (c := 0.70).
  - reflexivity.
  - discriminate.
  - exact Hc.
Qed.

(** A top: its Hemline result is skipped and carries confidence 0.0. *)
Lemma skipped_confidence_zero :
  exists p,
    In p (sr_principle_scores (score_garment garment_top default_body None))
    /\ pr_name p = "Hemline" /\ ~ pr_confidence p == 0.70.
Proof.
  exists (skipped_result "Hemline" TOP). split; [|split].
  - vm_compute. do 10 right. left. reflexivity.
  - reflexivity.
  - vm_compute. discriminate.
Qed.

(** C8, amended.  For every garment and body, every principle result of
    [score_garment] has confidence 0.70, except the results of scorers that
    the garment type skips, which are inapplicable and have confidence 0.0
    (no key derived from a scorer name is in PRINCIPLE_CONFIDENCE, and the
    type-specific scorers are given 0.70).  So every applicable result has
    confidence 0.70, [ScoreResult.confidence] is 0.70 whenever a principle is
    applicable, and the confidence cancels out of the weighted average. *)
Theorem confidence_is_default (g : GarmentProfile) (b : BodyProfile)
    (ctx : option Context) :
  let r := score_garment g b ctx in
  let active := filter pr_applicable (sr_principle_scores r) in
  (forall p, In p (sr_principle_scores r) ->
     pr_confidence p = 0.70
     \/ (pr_confidence p = 0 /\ pr_applicable p = false
         /\ In (pr_name p) (get_scorers_to_skip (classify_garment g))))
  /\ (forall p, In p active -> pr_confidence p = 0.70)
  /\ (active <> [] -> sr_confidence r == 0.70)
  /\ weighted_composite active
     == Num.sum (map (fun p => pr_score p * pr_weight p) active)
        / Num.sum (map pr_weight active).
Proof.
  cbv zeta. rewrite (principle_scores_calibrated g b ctx).
  split; [intros p Hp; apply (calibrated_confidence g b); exact Hp|].
  split; [intros p Hp; apply (active_confidence g b); exact Hp|].
  split; [|apply confidence_cancels; intros p Hp; apply (active_confidence g b p Hp)].
  intro Hne. rewrite score_garment_unfold.
  apply layer_confidence; [exact Hne|].
  intros p Hp. apply (active_confidence g b p Hp).
Qed.

Lemma confidence_is_default_witness :
  sr_confidence (score_garment garment_top default_body None) == 0.70.
Proof.
  apply (proj1 (proj2 (proj2 (confidence_is_default garment_top default_body None)))).
  vm_compute. discriminate.
Defined.

(** Some principle is always applicable, so the confidence is 0.70 on every
    input. *)
Corollary confidence_always_default (g : GarmentProfile) (b : BodyProfile)
    (ctx : option Context) :
  sr_confidence (score_garment g b ctx) == 0.70.
Proof.
  rewrite score_garment_unfold.
  apply layer_confidence; [apply some_principle_applicable|].
  intros p Hp. apply (active_confidence g b p Hp).
Qed.

(* ================================================================ *)
(** ** C9: the write-back of the category *)
(* ================================================================ *)

Lemma classify_by_title (g : GarmentProfile) :
  classify_garment g
  = match title_category g with
    | Some c => c
    | None => attribute_fallback g
    end.
Proof.
  unfold classify_garment, title_category.
  destruct (negb _); [|reflexivity].
  destruct (all_matches _); reflexivity.
Qed.

Lemma attribute_fallback_fixed (g : GarmentProfile) :
  attribute_fallback (set_category (attribute_fallback g) g) = attribute_fallback g.
Proof.
  unfold attribute_fallback.
  cbn [set_category rise leg_shape skirt_construction jacket_closure category].
  destruct (is_some (rise g) && is_some (leg_shape g)); [reflexivity|].
  destruct (is_some (skirt_construction g)); [reflexivity|].
  destruct (is_some (jacket_closure g)); reflexivity.
Qed.

Lemma classify_idempotent (g : GarmentProfile) :
  classify_garment (set_category (classify_garment g) g) = classify_garment g.
Proof.
  rewrite (classify_by_title (set_category _ g)).
  assert (Ht : forall c, title_category (set_category c g) = title_category g)
    by (intro c; reflexivity).
  rewrite Ht. rewrite (classify_by_title g).
  destruct (title_category g) as [c|]; [reflexivity|].
  apply attribute_fallback_fixed.
Qed.

Lemma set_category_same (g : GarmentProfile) : set_category (category g) g = g.
Proof. destruct g. reflexivity. Qed.

(** C9.  A call of [score_garment] leaves the body as it was and the garment
    as it was except for [category], which holds the output of
    [classify_garment]; classifying the garment again gives the same
    category, and a garment whose category already is the classifier's output
    is left unchanged. *)
Theorem category_write_back (g : GarmentProfile) (b : BodyProfile)
    (ctx : option Context) :
  let g' := fst (snd (score_garment_run g b ctx)) in
  let b' := snd (snd (score_garment_run g b ctx)) in
  g' = set_category (classify_garment g) g
  /\ b' = b
  /\ classify_garment g' = classify_garment g
  /\ (classify_garment g = category g -> g' = g).
Proof.
  cbv zeta. cbn [score_garment_run fst snd].
  split; [reflexivity|]. split; [reflexivity|].
  split; [apply classify_idempotent|].
  intro H. rewrite H. apply set_category_same.
Qed.

Lemma category_write_back_witness :
  fst (snd (score_garment_run garment_scenario body_scenario None))
  = garment_scenario.
Proof.
  apply (proj2 (proj2 (proj2
           (category_write_back garment_scenario body_scenario None)))).
  reflexivity.
Defined.

Example category_write_back_example :
  category (fst (snd (score_garment_run garment_pants_titled_dress
                        default_body None))) = DRESS.
Proof. reflexivity. Qed.

(* ================================================================ *)
(** ** C10: the hemline zones *)
(* ================================================================ *)

(** C10.  For every garment and body, [translate_hemline] classifies the hem
    into one of the nine zones, the reasoning of [score_hemline] never reads
    as "n/a", and [score_hemline] never returns the result of its fallback
    branch. *)
Theorem hem_zone_exhaustive (g : GarmentProfile) (b : BodyProfile) :
  let zone := hr_hem_zone (translate_hemline g b) in
  In zone hem_zones
  /\ no_na (snd (score_hemline g b))
  /\ score_hemline g b <> (0, "Unknown zone: " ++ zone ++ " — N/A").
Proof.
  cbv zeta. pose proof (hem_zone_known g b) as Hk.
  assert (Hn : no_na (snd (score_hemline g b)))
    by (apply hemline_reasoning; exact Hk).
  split; [apply mem_In; exact Hk|]. split; [exact Hn|].
  intro E. rewrite E in Hn. unfold no_na in Hn. cbn [snd] in Hn.
  apply mem_In in Hk. clear E.
  set (z := hr_hem_zone (translate_hemline g b)) in *. clearbody z.
  cbn [In hem_zones] in Hk.
  destruct Hk as [<-|[<-|[<-|[<-|[<-|[<-|[<-|[<-|[<-|[]]]]]]]]]];
    vm_compute in Hn; discriminate.
Qed.

Example hem_at_knee_is_knee_danger :
  hr_hem_zone (translate_hemline garment_scenario body_scenario) = "knee_danger".
Proof. reflexivity. Qed.

(* ================================================================ *)
(** * Further properties of the engine *)
(* ================================================================ *)

(** ** Deciding comparisons *)

Lemma leb_gt (x y : Q) : (x <=? y) = false <-> y < x.
Proof.
  unfold Num.leb. split; intro H.
  - apply Qnot_le_lt. intro Hle. apply Qle_bool_iff in Hle. congruence.
  - destruct (Qle_bool x y) eqn:E; [|reflexivity].
    apply Qle_bool_iff in E. exfalso. exact (Qlt_not_le _ _ H E).
Qed.

Lemma eqb_eq (x y : Q) : (x =? y) = true <-> x == y.
Proof. apply Qeq_bool_iff. Qed.

Lemma eqb_neq (x y : Q) : (x =? y) = false <-> ~ x == y.
Proof.
  unfold Num.eqb. split; intro H.
  - intro E. apply Qeq_bool_iff in E. congruence.
  - destruct (Qeq_bool x y) eqn:E; [|reflexivity].
    apply Qeq_bool_iff in E. contradiction.
Qed.

(** Turn one boolean comparison of the goal into the two cases of its
    order fact. *)
Ltac no_if t :=
  lazymatch t with
  | context [if _ then _ else _] => fail
  | _ => idtac
  end.

Ltac order_case :=
  match goal with
  | |- context [Num.ltb ?a ?b] =>
      no_if a; no_if b;
      let E := fresh "E" in
      destruct (Num.ltb a b) eqn:E;
      [apply ltb_lt in E | apply ltb_ge in E]
  | |- context [Num.leb ?a ?b] =>
      no_if a; no_if b;
      let E := fresh "E" in
      destruct (Num.leb a b) eqn:E;
      [apply leb_le in E | apply leb_gt in E]
  | |- context [Num.eqb ?a ?b] =>
      no_if a; no_if b;
      let E := fresh "E" in
      destruct (Num.eqb a b) eqn:E;
      [apply eqb_eq in E | apply eqb_neq in E]
  end.

Ltac order_cases := repeat (once order_case).

(** ** clamp, score_to_ten and rescale_display *)

Lemma max_cases (a b : Q) :
  (a < b /\ Num.max a b = b) \/ (b <= a /\ Num.max a b = a).
Proof.
  unfold Num.max. destruct (a <? b) eqn:E.
  - left. apply ltb_lt in E. split; [exact E | reflexivity].
  - right. apply ltb_ge in E. split; [exact E | reflexivity].
Qed.

Lemma min_cases (a b : Q) :
  (b < a /\ Num.min a b = b) \/ (a <= b /\ Num.min a b = a).
Proof.
  unfold Num.min. destruct (b <? a) eqn:E.
  - left. apply ltb_lt in E. split; [exact E | reflexivity].
  - right. apply ltb_ge in E. split; [exact E | reflexivity].
Qed.

Lemma abs_nonneg (x : Q) : 0 <= Num.abs x.
Proof. unfold Num.abs. order_cases; lra. Qed.

Lemma clamp3_bounds (v lo hi : Q) : lo <= hi -> lo <= clamp3 v lo hi <= hi.
Proof. intro H. unfold clamp3, Num.max, Num.min. order_cases; lra. Qed.

Lemma clamp3_inside (v lo hi : Q) : lo <= v <= hi -> clamp3 v lo hi == v.
Proof.
  intros [H1 H2]. unfold clamp3, Num.max, Num.min.
  order_cases; lra.
Qed.

(** X1.  [clamp(v, lo, hi)] with [lo <= hi] lies in [[lo, hi]], returns [v]
    itself when [v] is already inside, and clamping twice is clamping once. *)
Theorem clamp_range_and_fixpoints (v lo hi : Q) :
  lo <= hi ->
  lo <= clamp3 v lo hi <= hi
  /\ (lo <= v <= hi -> clamp3 v lo hi == v)
  /\ clamp3 (clamp3 v lo hi) lo hi == clamp3 v lo hi.
Proof.
  intro H. split; [|split].
  - apply clamp3_bounds. exact H.
  - apply clamp3_inside.
  - apply clamp3_inside. apply clamp3_bounds. exact H.
Qed.

Lemma clamp_range_and_fixpoints_witness :
  -1 <= clamp3 (7 # 2) (-1) 1 <= 1
  /\ (-1 <= 7 # 2 <= 1 -> clamp3 (7 # 2) (-1) 1 == 7 # 2)
  /\ clamp3 (clamp3 (7 # 2) (-1) 1) (-1) 1 == clamp3 (7 # 2) (-1) 1.
Proof. apply (clamp_range_and_fixpoints (7 # 2) (-1) 1). discriminate. Defined.

Lemma clamp_bounds (v : Q) : -1 <= clamp v <= 1.
Proof. unfold clamp. apply clamp3_bounds. lra. Qed.

Lemma score_to_ten_bounds (raw : Q) : 0 <= score_to_ten raw <= 10.
Proof.
  unfold score_to_ten.
  pose proof (clamp3_bounds raw (-1) 1) as H.
  assert (Hlo : -1 <= 1) by lra. specialize (H Hlo). lra.
Qed.

Lemma clamp3_monotone (x y lo hi : Q) :
  x <= y -> clamp3 x lo hi <= clamp3 y lo hi.
Proof. intro H. unfold clamp3, Num.max, Num.min. order_cases; lra. Qed.

(** X2.  [score_to_ten] maps every raw score into [[0, 10]], sends -1, 0
    and 1 to 0, 5 and 10, and preserves order. *)
Theorem score_to_ten_scale (raw raw' : Q) :
  0 <= score_to_ten raw <= 10
  /\ score_to_ten (-1) == 0 /\ score_to_ten 0 == 5 /\ score_to_ten 1 == 10
  /\ (raw <= raw' -> score_to_ten raw <= score_to_ten raw').
Proof.
  split; [apply score_to_ten_bounds|].
  split; [reflexivity|]. split; [reflexivity|]. split; [reflexivity|].
  intro H. unfold score_to_ten.
  pose proof (clamp3_monotone raw raw' (-1) 1 H). lra.
Qed.

(** [rescale_display] written out segment by segment. *)
Lemma rescale_display_segments (x : Q) :
  rescale_display x ==
    if x <=? 3.5 then x * (1 # 7)
    else if x <=? 4.0 then x - 3
    else if x <=? 4.4 then 1 + (x - 4) * 7.5
    else if x <=? 5.0 then 4 + (x - 4.4) * 2.5
    else if x <=? 5.5 then 5.5 + (x - 5) * 3
    else if x <=? 5.8 then 7 + (x - 5.5) * (10 # 3)
    else if x <=? 6.3 then 8 + (x - 5.8) * 3
    else if x <=? 10.0 then 9.5 + (x - 6.3) * (5 # 37)
    else 10.
Proof.
  unfold rescale_display, _RESCALE_BREAKPOINTS. cbn [rescale_in].
  repeat match goal with
         | |- context [Num.leb x ?c] => destruct (Num.leb x c)
         end;
  try reflexivity;
  match goal with
  | |- (if ?c then _ else _) == _ =>
      replace c with false by (symmetry; vm_compute; reflexivity)
  end; field.
Qed.

(** X3.  [rescale_display] preserves ordering, as its docstring says: a
    larger engine score never gets a smaller display score. *)
Theorem rescale_display_monotone (x y : Q) :
  x <= y -> rescale_display x <= rescale_display y.
Proof.
  intro H. rewrite (rescale_display_segments x), (rescale_display_segments y).
  order_cases; lra.
Qed.

Lemma rescale_display_monotone_witness :
  rescale_display 4.4 <= rescale_display 5.8.
Proof. apply (rescale_display_monotone 4.4 5.8). discriminate. Defined.

Lemma rescale_display_unit (x : Q) : 0 <= x -> 0 <= rescale_display x <= 10.
Proof.
  rewrite (rescale_display_segments x). intro H. order_cases; lra.
Qed.


(** ** Rounding keeps integer bounds *)

Lemma round_half_even_lower (x : Q) (k : Z) :
  inject_Z k <= x -> (k <= Num.round_half_even x)%Z.
Proof.
  intro H. unfold Num.round_half_even. cbv zeta.
  assert (Hk : (k * Zpos (Qden x) <= Qnum x)%Z).
  { unfold Qle in H. cbn in H. lia. }
  assert (Hq : (k <= Qnum x / Zpos (Qden x))%Z).
  { apply Z.div_le_lower_bound; lia. }
  destruct (2 * (Qnum x mod Zpos (Qden x)) ?= Zpos (Qden x))%Z;
    [destruct (Z.even _) | |]; lia.
Qed.

Lemma round_half_even_upper (x : Q) (k : Z) :
  x <= inject_Z k -> (Num.round_half_even x <= k)%Z.
Proof.
  intro H. unfold Num.round_half_even. cbv zeta.
  set (n := Qnum x). set (d := Zpos (Qden x)).
  assert (Hd : (0 < d)%Z) by (unfold d; lia).
  assert (Hk : (n <= k * d)%Z).
  { unfold Qle in H. cbn in H. fold n d in H. lia. }
  pose proof (Z.div_mod n d ltac:(lia)) as Hdm.
  pose proof (Z.mod_pos_bound n d Hd) as Hr.
  assert (Hq : (n / d <= k)%Z).
  { apply Z.div_le_upper_bound; lia. }
  destruct (Z.eq_dec (n / d) k) as [Heq | Hneq].
  - assert (Hr0 : (n mod d = 0)%Z) by nia.
    rewrite Hr0.
    assert (C : (2 * 0 ?= d)%Z = Lt) by (apply Z.compare_lt_iff; lia).
    rewrite C. lia.
  - destruct (2 * (n mod d) ?= d)%Z; [destruct (Z.even _) | |]; lia.
Qed.

Lemma round_nd_bounds (n : nat) (x : Q) (a b : Z) :
  inject_Z a <= x <= inject_Z b ->
  inject_Z a <= Num.round_nd n x <= inject_Z b.
Proof.
  intros [Ha Hb]. unfold Num.round_nd.
  set (p := Pos.of_nat (10 ^ n)).
  assert (Hp : 0 < inject_Z (Zpos p)) by reflexivity.
  assert (Hlo : inject_Z (a * Zpos p) <= x * (Zpos p # 1)).
  { rewrite inject_Z_mult. apply Qmult_le_compat_r; [exact Ha|].
    apply Qlt_le_weak. exact Hp. }
  assert (Hhi : x * (Zpos p # 1) <= inject_Z (b * Zpos p)).
  { rewrite inject_Z_mult. apply Qmult_le_compat_r; [exact Hb|].
    apply Qlt_le_weak. exact Hp. }
  apply round_half_even_lower in Hlo. apply round_half_even_upper in Hhi.
  unfold Qle. cbn. split; nia.
Qed.

(** ** Layer 7 keeps the result on its scales *)

Lemma composite_layer_ranges (prs : list PrincipleResult) (b : BodyProfile)
    (exs : list ExceptionTriggered) :
  0 <= sr_overall_score (composite_layer prs b exs) <= 10
  /\ -1 <= sr_composite_raw (composite_layer prs b exs) <= 1.
Proof.
  unfold composite_layer.
  destruct (filter pr_applicable prs) as [|r active].
  - cbn. split; split; discriminate.
  - cbn [sr_overall_score sr_composite_raw]. split.
    + apply (round_nd_bounds 1 _ 0 10).
      apply rescale_display_unit. apply score_to_ten_bounds.
    + apply (round_nd_bounds 4 _ (-1) 1). apply clamp_bounds.
Qed.

(** X5.  Whatever the garment, the body and the context, [score_garment]
    returns an overall score between 0 and 10 and a raw composite between
    -1 and 1. *)
Theorem score_garment_on_scale (g : GarmentProfile) (b : BodyProfile)
    (ctx : option Context) :
  0 <= sr_overall_score (score_garment g b ctx) <= 10
  /\ -1 <= sr_composite_raw (score_garment g b ctx) <= 1.
Proof. rewrite score_garment_unfold. apply composite_layer_ranges. Qed.

(** ** Every scorer answers on the scale *)

Lemma on_scale_ret (score : Q) (R : list string) : on_scale (ret score R).
Proof. unfold on_scale, ret. cbn [fst]. apply clamp_bounds. Qed.

Lemma on_scale_let {A : Type} (e : A) (f : A -> Q * string) :
  (forall x, on_scale (f x)) -> on_scale (let x := e in f x).
Proof. intro H. apply H. Qed.

Lemma on_scale_clamped (v lo hi : Q) (s : string) :
  -1 <= lo -> lo <= hi -> hi <= 1 -> on_scale (clamp3 v lo hi, s).
Proof.
  intros H1 H2 H3. unfold on_scale. cbn [fst].
  pose proof (clamp3_bounds v lo hi H2). lra.
Qed.

Lemma on_scale_literal (v : Q) (s : string) : -1 <= v <= 1 -> on_scale (v, s).
Proof. intro H. exact H. Qed.

(** Follow the scorer's control flow down to each of its returns. *)
Ltac on_scale_step :=
  lazymatch goal with
  | |- on_scale (ret _ _) => apply on_scale_ret
  | |- on_scale (clamp _, _) => apply on_scale_literal; apply clamp_bounds
  | |- on_scale (clamp3 _ _ _, _) => apply on_scale_clamped; lra
  | |- on_scale (let x := ?e in @?f x) =>
      apply (on_scale_let e f); intro; cbv beta
  | |- on_scale (match ?X with _ => _ end) => destruct X
  | |- on_scale (_, _) => apply on_scale_literal; lra
  end.

Ltac on_scale_walk := repeat on_scale_step.

Lemma score_horizontal_stripes_on_scale g b : on_scale (score_horizontal_stripes g b).
Proof. unfold score_horizontal_stripes. on_scale_walk. Qed.

Lemma score_dark_slimming_on_scale g b : on_scale (score_dark_slimming g b).
Proof. unfold score_dark_slimming. on_scale_walk. Qed.

Lemma score_rise_elongation_on_scale g b : on_scale (score_rise_elongation g b).
Proof. unfold score_rise_elongation. on_scale_walk. Qed.

Lemma score_aline_balance_on_scale g b : on_scale (score_aline_balance g b).
Proof. unfold score_aline_balance. on_scale_walk. Qed.

Lemma score_tent_concealment_on_scale g b : on_scale (score_tent_concealment g b).
Proof. unfold score_tent_concealment. on_scale_walk. Qed.

Lemma score_color_break_on_scale g b : on_scale (score_color_break g b).
Proof. unfold score_color_break. on_scale_walk. Qed.

Lemma score_bodycon_mapping_on_scale g b : on_scale (score_bodycon_mapping g b).
Proof. unfold score_bodycon_mapping. on_scale_walk. Qed.

Lemma score_matte_zone_on_scale g b : on_scale (score_matte_zone g b).
Proof. unfold score_matte_zone. on_scale_walk. Qed.

Lemma score_vneck_elongation_on_scale g b : on_scale (score_vneck_elongation g b).
Proof. unfold score_vneck_elongation. on_scale_walk. Qed.

Lemma score_monochrome_column_on_scale g b : on_scale (score_monochrome_column g b).
Proof. unfold score_monochrome_column. on_scale_walk. Qed.

Lemma score_hemline_on_scale g b : on_scale (score_hemline g b).
Proof. unfold score_hemline, score_hemline_with. on_scale_walk. Qed.

Lemma score_sleeve_on_scale g b : on_scale (score_sleeve g b).
Proof. unfold score_sleeve. on_scale_walk. Qed.

Lemma score_waist_placement_on_scale g b : on_scale (score_waist_placement g b).
Proof. unfold score_waist_placement. on_scale_walk. Qed.

Lemma score_color_value_on_scale g b : on_scale (score_color_value g b).
Proof. unfold score_color_value. on_scale_walk. Qed.

Lemma score_fabric_zone_on_scale g b : on_scale (score_fabric_zone g b).
Proof. unfold score_fabric_zone. on_scale_walk. Qed.

Lemma score_neckline_compound_on_scale g b : on_scale (score_neckline_compound g b).
Proof. unfold score_neckline_compound. on_scale_walk. Qed.

Lemma score_top_hemline_on_scale g b : on_scale (score_top_hemline g b).
Proof. unfold score_top_hemline. on_scale_walk. Qed.

Lemma score_pant_rise_on_scale g b : on_scale (score_pant_rise g b).
Proof. unfold score_pant_rise. on_scale_walk. Qed.

Lemma score_leg_shape_on_scale g b : on_scale (score_leg_shape g b).
Proof. unfold score_leg_shape. on_scale_walk. Qed.

Lemma score_jacket_scoring_on_scale g b : on_scale (score_jacket_scoring g b).
Proof. unfold score_jacket_scoring. on_scale_walk. Qed.

Lemma listed_scorer_on_scale (name : string) (scorer : Scorer) :
  In (name, scorer) all_scorers ->
  forall g b, on_scale (scorer g b).
Proof.
  intros Hin g b.
  unfold all_scorers, _SCORERS, _TYPE_SCORER_FUNCS in Hin. cbn [app In] in Hin.
  repeat (destruct Hin as [Hin|Hin]; [injection Hin as _ <-|]);
    [apply score_horizontal_stripes_on_scale
    |apply score_dark_slimming_on_scale
    |apply score_rise_elongation_on_scale
    |apply score_aline_balance_on_scale
    |apply score_tent_concealment_on_scale
    |apply score_color_break_on_scale
    |apply score_bodycon_mapping_on_scale
    |apply score_matte_zone_on_scale
    |apply score_vneck_elongation_on_scale
    |apply score_monochrome_column_on_scale
    |apply score_hemline_on_scale
    |apply score_sleeve_on_scale
    |apply score_waist_placement_on_scale
    |apply score_color_value_on_scale
    |apply score_fabric_zone_on_scale
    |apply score_neckline_compound_on_scale
    |apply score_top_hemline_on_scale
    |apply score_pant_rise_on_scale
    |apply score_leg_shape_on_scale
    |apply score_jacket_scoring_on_scale
    |destruct Hin].
Qed.

(** X6.  Each of the twenty scorers, the sixteen principle scorers and the
    four type-specific ones, returns a score between -1 and 1 for every
    garment and body. *)
Theorem scorers_on_scale (name : string) (scorer : Scorer) :
  In (name, scorer) all_scorers ->
  forall g b, -1 <= fst (scorer g b) <= 1.
Proof. apply listed_scorer_on_scale. Qed.


Lemma scorers_on_scale_witness :
  -1 <= fst (score_sleeve garment_scenario body_scenario) <= 1.
Proof.
  apply (scorers_on_scale "Sleeve" score_sleeve).
  unfold all_scorers, _SCORERS. cbn [app In].
  do 11 right. left. reflexivity.
Defined.

(** ** Layer 2 and layer 3 keep scores on the scale *)

Lemma calibrated_results_unfold (g : GarmentProfile) (b : BodyProfile) :
  calibrated_results g b = calibrate (styling_goals b) (element_results g b).
Proof. reflexivity. Qed.

Lemma penalty_reduction_values (exs : list ExceptionTriggered) :
  get_structured_penalty_reduction exs = 0.30
  \/ get_structured_penalty_reduction exs = 1.0.
Proof.
  unfold get_structured_penalty_reduction.
  destruct (existsb _ exs); [left | right]; reflexivity.
Qed.

Lemma apply_penalty_reduction_bounds (p s lo : Q) :
  0 <= p <= 1 -> lo <= 0 -> lo <= s <= 1 ->
  lo <= apply_penalty_reduction p s <= 1.
Proof.
  intros Hp Hlo Hs. unfold apply_penalty_reduction.
  destruct (s <? 0) eqn:E1; cbn [andb]; [|exact Hs].
  destruct (p <? 1.0) eqn:E2; [|exact Hs].
  apply ltb_lt in E1. split; nra.
Qed.

Lemma scored_result_on_scale (n : string) (out : Q * string) (p w c : Q) :
  0 <= p <= 1 -> on_scale out -> -1 <= pr_score (scored_result n out p w c) <= 1.
Proof.
  intros Hp Ho. destruct out as [s r]. unfold scored_result. cbn [pr_score].
  apply apply_penalty_reduction_bounds; [exact Hp | lra | exact Ho].
Qed.

Lemma element_scoring_on_scale (g : GarmentProfile) (b : BodyProfile)
    (c : GarmentCategory) (p : Q) (r : PrincipleResult) :
  0 <= p <= 1 -> In r (element_scoring g b c p) -> -1 <= pr_score r <= 1.
Proof.
  intros Hp H. unfold element_scoring in H. apply in_app_or in H.
  destruct H as [H|H].
  - apply in_map_iff in H. destruct H as [[n s] [<- He]].
    unfold run_generic_scorer.
    destruct (Text.mem n (get_scorers_to_skip c)).
    + cbn. lra.
    + apply scored_result_on_scale; [exact Hp|].
      apply (listed_scorer_on_scale n s). unfold all_scorers.
      apply in_or_app. left. exact He.
  - apply in_flat_map in H. destruct H as [n [_ Hn]].
    unfold run_extra_scorer in Hn.
    destruct (dict_find _TYPE_SCORER_FUNCS n) as [s|] eqn:Ef; [|destruct Hn].
    destruct Hn as [<-|[]].
    apply scored_result_on_scale; [exact Hp|].
    apply (listed_scorer_on_scale n s). unfold all_scorers.
    apply in_or_app. right. apply dict_find_In. exact Ef.
Qed.

Lemma calibrated_from_element (g : GarmentProfile) (b : BodyProfile)
    (r' : PrincipleResult) :
  In r' (calibrated_results g b) ->
  exists r, In r (element_results g b) /\ calibrated_of r r'.
Proof.
  rewrite calibrated_results_unfold. intro H.
  exact (forall2_in_r _ _ _ (calibrate_forall2 _ _) _ H).
Qed.

Lemma calibrated_score_bounds (g : GarmentProfile) (b : BodyProfile)
    (r : PrincipleResult) :
  In r (calibrated_results g b) -> -1 <= pr_score r <= 1.
Proof.
  intro H.
  destruct (calibrated_from_element g b r H) as [r0 [Hin [[_ [Es _]] _]]].
  rewrite Es. unfold element_results in Hin.
  refine (element_scoring_on_scale _ _ _ _ _ _ Hin).
  destruct (penalty_reduction_values
              (run_fabric_gates g b (resolve_fabric_properties g)))
    as [-> | ->]; lra.
Qed.

(** X7.  Every principle result that [score_garment] returns has a score
    between -1 and 1; and when the garment is structured or lined, so that
    the structured gate fires, no principle score is below -0.30. *)
Theorem principle_scores_on_scale (g : GarmentProfile) (b : BodyProfile)
    (ctx : option Context) (r : PrincipleResult) :
  In r (sr_principle_scores (score_garment g b ctx)) ->
  -1 <= pr_score r <= 1
  /\ (is_structured g || has_lining g = true -> -0.30 <= pr_score r).
Proof.
  rewrite principle_scores_calibrated. intro H.
  split; [exact (calibrated_score_bounds g b r H)|].
  destruct (calibrated_from_element g b r H) as [r0 [Hin [[_ [Es _]] _]]].
  rewrite Es. unfold element_results in Hin.
  intro Hs.
  assert (Ep : get_structured_penalty_reduction
                   (run_fabric_gates g b (resolve_fabric_properties g)) = 0.30).
    { unfold get_structured_penalty_reduction, run_fabric_gates.
      rewrite !existsb_app.
      change (rf_is_structured (resolve_fabric_properties g))
        with (is_structured g || has_lining g)%bool.
      rewrite Hs. cbn [existsb mk_exception ex_exception_id].
      rewrite String.eqb_refl. cbn [orb]. rewrite !orb_true_r. reflexivity. }
    rewrite Ep in Hin. clear Ep.
    unfold element_scoring in Hin. apply in_app_or in Hin.
    assert (Hred : forall n out w c,
               on_scale out -> -0.30 <= pr_score (scored_result n out 0.30 w c)).
    { intros n [s t] w c Ho. unfold on_scale in Ho. cbn [fst] in Ho.
      unfold scored_result. cbn [pr_score]. unfold apply_penalty_reduction.
      destruct (s <? 0) eqn:E1; cbn [andb].
      - replace (0.30 <? 1.0) with true by reflexivity. lra.
      - apply ltb_ge in E1. lra. }
    destruct Hin as [Hin|Hin].
    + apply in_map_iff in Hin. destruct Hin as [[n s] [<- He]].
      unfold run_generic_scorer.
      destruct (Text.mem n (get_scorers_to_skip (classify_garment g))).
      * cbn. lra.
      * apply Hred. apply (listed_scorer_on_scale n s). unfold all_scorers.
        apply in_or_app. left. exact He.
    + apply in_flat_map in Hin. destruct Hin as [n [_ Hn]].
      unfold run_extra_scorer in Hn.
      destruct (dict_find _TYPE_SCORER_FUNCS n) as [s|] eqn:Ef; [|destruct Hn].
      destruct Hn as [<-|[]].
      apply Hred. apply (listed_scorer_on_scale n s). unfold all_scorers.
      apply in_or_app. right. apply dict_find_In. exact Ef.
Qed.

Lemma principle_scores_on_scale_witness :
  let results :=
    sr_principle_scores (score_garment garment_scenario body_scenario None) in
  let r := nth 0 results sample_pant_rise in
  In r results
  /\ -1 <= pr_score r <= 1
  /\ (is_structured garment_scenario || has_lining garment_scenario = true ->
      -0.30 <= pr_score r).
Proof.
  cbv zeta.
  assert (H : In (nth 0 (sr_principle_scores
                           (score_garment garment_scenario body_scenario None))
                    sample_pant_rise)
                (sr_principle_scores
                   (score_garment garment_scenario body_scenario None))).
  { apply nth_In. vm_compute. repeat constructor. }
  split; [exact H|].
  exact (principle_scores_on_scale garment_scenario body_scenario None _ H).
Defined.

(** ** The list of principle results *)

Lemma calibrated_names (l l' : list PrincipleResult) :
  Forall2 calibrated_of l l' -> map pr_name l' = map pr_name l.
Proof.
  induction 1 as [|x y l l' [[E _] _] _ IH]; [reflexivity|].
  cbn [map]. rewrite E, IH. reflexivity.
Qed.

Lemma generic_names (g : GarmentProfile) (b : BodyProfile) (c : GarmentCategory)
    (p : Q) (l : list (string * Scorer)) :
  map pr_name (map (run_generic_scorer g b c p) l) = map fst l.
Proof.
  induction l as [|e l IH]; [reflexivity|].
  cbn [map]. rewrite run_generic_name, IH. reflexivity.
Qed.

Lemma extra_names (g : GarmentProfile) (b : BodyProfile) (c : GarmentCategory)
    (p : Q) :
  map pr_name (flat_map (run_extra_scorer g b p) (get_extra_scorer_names c))
  = get_extra_scorer_names c.
Proof.
  destruct c; try reflexivity;
    cbv [get_extra_scorer_names flat_map run_extra_scorer dict_find
         _TYPE_SCORER_FUNCS String.eqb Ascii.eqb Bool.eqb app map];
    rewrite ?scored_result_name; reflexivity.
Qed.

(** X8.  [score_garment] returns one principle result for each of the
    sixteen scorers of [_SCORERS], in that order and skipped ones included,
    followed by one result for each extra scorer of the category that
    [classify_garment] gives: every extra scorer name resolves to a scorer. *)
Theorem principle_results_roster (g : GarmentProfile) (b : BodyProfile)
    (ctx : option Context) :
  map pr_name (sr_principle_scores (score_garment g b ctx))
  = (map fst _SCORERS ++ get_extra_scorer_names (classify_garment g))%list
  /\ List.length (sr_principle_scores (score_garment g b ctx))
     = (16 + List.length (get_extra_scorer_names (classify_garment g)))%nat.
Proof.
  assert (E : map pr_name (sr_principle_scores (score_garment g b ctx))
              = (map fst _SCORERS
                 ++ get_extra_scorer_names (classify_garment g))%list).
  { rewrite principle_scores_calibrated, calibrated_results_unfold.
    rewrite (calibrated_names _ _ (calibrate_forall2 _ _)).
    unfold element_results, element_scoring.
    rewrite map_app, generic_names, extra_names. reflexivity. }
  split; [exact E|].
  rewrite <- (length_map pr_name), E, length_app. reflexivity.
Qed.

(** X9.  Layer 3 changes weights only: the calibrated list has the results
    of the list it was given, in the same order, each with the same name,
    score, reasoning, applicability and confidence; and a result that is not
    applicable is left exactly as it was. *)
Theorem calibration_changes_weights_only (goals : list StylingGoal)
    (prs : list PrincipleResult) :
  List.length (calibrate goals prs) = List.length prs
  /\ Forall2
       (fun r r' =>
          pr_name r' = pr_name r /\ pr_score r' = pr_score r
          /\ pr_reasoning r' = pr_reasoning r
          /\ pr_applicable r' = pr_applicable r
          /\ pr_confidence r' = pr_confidence r
          /\ (pr_applicable r = false -> r' = r))
       prs (calibrate goals prs).
Proof.
  pose proof (calibrate_forall2 goals prs) as F. split.
  - symmetry. exact (Forall2_length F).
  - induction F as [|x y l l' [[E1 [E2 [E3 [E4 E5]]]] E6] _ IH]; constructor.
    + repeat split; assumption.
    + exact IH.
Qed.

(** ** Weights after calibration *)

Lemma base_weight_positive (name : string) :
  0 < dict_get _BASE_WEIGHTS name 0.10.
Proof.
  unfold _BASE_WEIGHTS. cbn [dict_get].
  repeat match goal with
         | |- context [String.eqb name ?k] => destruct (String.eqb name k)
         end; reflexivity.
Qed.

Lemma type_weight_positive (name : string) :
  0 < dict_get TYPE_SCORER_WEIGHTS name 0.10.
Proof.
  unfold TYPE_SCORER_WEIGHTS. cbn [dict_get].
  repeat match goal with
         | |- context [String.eqb name ?k] => destruct (String.eqb name k)
         end; reflexivity.
Qed.

Lemma goal_boost_positive (goal : StylingGoal) (name : string) (k : Q) :
  dict_find (_GOAL_WEIGHT_BOOSTS goal) name = Some k -> 0 < k.
Proof.
  destruct goal; cbn [_GOAL_WEIGHT_BOOSTS dict_find];
    repeat match goal with
           | |- context [String.eqb name ?s] => destruct (String.eqb name s)
           end;
    intro H; first [discriminate | injection H as <-; reflexivity].
Qed.

Lemma scored_result_well_weighted (n : string) (out : Q * string) (p w c : Q) :
  0 < w -> well_weighted (scored_result n out p w c).
Proof.
  intro Hw. destruct out as [s r]. unfold well_weighted, scored_result.
  cbn [pr_applicable pr_weight].
  destruct (reads_not_applicable _ _); cbn [negb]; [reflexivity | exact Hw].
Qed.

Lemma element_scoring_well_weighted (g : GarmentProfile) (b : BodyProfile)
    (c : GarmentCategory) (p : Q) :
  Forall well_weighted (element_scoring g b c p).
Proof.
  apply Forall_forall. intros r H. unfold element_scoring in H.
  apply in_app_or in H. destruct H as [H|H].
  - apply in_map_iff in H. destruct H as [[n s] [<- _]].
    unfold run_generic_scorer.
    destruct (Text.mem n (get_scorers_to_skip c)).
    + unfold well_weighted. cbn. reflexivity.
    + apply scored_result_well_weighted. apply base_weight_positive.
  - apply in_flat_map in H. destruct H as [n [_ Hn]].
    unfold run_extra_scorer in Hn.
    destruct (dict_find _TYPE_SCORER_FUNCS n); [|destruct Hn].
    destruct Hn as [<-|[]].
    apply scored_result_well_weighted. apply type_weight_positive.
Qed.

Lemma applicable_total_cons (r : PrincipleResult) (l : list PrincipleResult) :
  applicable_weight_total (r :: l)
  == (if pr_applicable r then pr_weight r else 0) + applicable_weight_total l.
Proof.
  unfold applicable_weight_total. cbn [filter].
  destruct (pr_applicable r); cbn [map]; [apply sum_cons | ring].
Qed.

Lemma applicable_total_app (l1 l2 : list PrincipleResult) :
  applicable_weight_total (l1 ++ l2)
  == applicable_weight_total l1 + applicable_weight_total l2.
Proof.
  induction l1 as [|r l1 IH]; cbn [app].
  - unfold applicable_weight_total at 2. cbn. ring.
  - rewrite !applicable_total_cons, IH. ring.
Qed.

Lemma applicable_total_nonneg (l : list PrincipleResult) :
  Forall well_weighted l -> 0 <= applicable_weight_total l.
Proof.
  induction 1 as [|r l Hr _ IH].
  - discriminate.
  - rewrite applicable_total_cons. unfold well_weighted in Hr.
    destruct (pr_applicable r); lra.
Qed.

Lemma boosted_weight_positive (goals : list StylingGoal) (r : PrincipleResult) :
  0 < pr_weight r -> 0 < boosted_weight goals r.
Proof.
  intro Hw. unfold boosted_weight.
  assert (H : forall w, 0 < w ->
            0 < fold_left
                  (fun w goal =>
                     match dict_find (_GOAL_WEIGHT_BOOSTS goal) (pr_name r) with
                     | Some k => w * k
                     | None => w
                     end) goals w).
  { induction goals as [|goal goals IH]; intros w Hpos; cbn [fold_left].
    - exact Hpos.
    - apply IH.
      destruct (dict_find (_GOAL_WEIGHT_BOOSTS goal) (pr_name r)) as [k|] eqn:E;
        [|exact Hpos].
      apply goal_boost_positive in E. nra. }
  specialize (H _ Hw).
  destruct (pr_score r <? -0.15); [nra | exact H].
Qed.

Lemma calibrate_one_well_weighted (goals : list StylingGoal)
    (done : list PrincipleResult) (r : PrincipleResult)
    (rest : list PrincipleResult) :
  Forall well_weighted done -> well_weighted r -> Forall well_weighted rest ->
  well_weighted (calibrate_one goals done r rest).
Proof.
  intros Hd Hr Hrest. unfold calibrate_one.
  destruct (pr_applicable r) eqn:Ea; cbn [negb]; [|exact Hr].
  unfold well_weighted in Hr. rewrite Ea in Hr.
  pose proof (boosted_weight_positive goals r Hr) as Hb.
  unfold well_weighted. cbn [set_weight pr_applicable pr_weight]. rewrite Ea.
  set (r1 := set_weight (boosted_weight goals r) r).
  assert (Hcap : 0 < weight_cap (done ++ r1 :: rest)).
  { unfold weight_cap.
    replace (existsb pr_applicable (done ++ r1 :: rest)) with true.
    - rewrite applicable_total_app, applicable_total_cons.
      unfold r1 at 1 2. cbn [set_weight pr_applicable pr_weight]. rewrite Ea.
      pose proof (applicable_total_nonneg done Hd).
      pose proof (applicable_total_nonneg rest Hrest). lra.
    - symmetry. rewrite existsb_app. cbn [existsb].
      unfold r1. cbn [set_weight pr_applicable]. rewrite Ea.
      rewrite orb_true_r. reflexivity. }
  destruct (min_cases (boosted_weight goals r) (weight_cap (done ++ r1 :: rest)))
    as [[_ ->] | [_ ->]]; assumption.
Qed.

Lemma calibrate_from_well_weighted (goals : list StylingGoal) :
  forall todo done,
    Forall well_weighted done -> Forall well_weighted todo ->
    Forall well_weighted (calibrate_from goals done todo).
Proof.
  induction todo as [|r rest IH]; intros done Hd Ht; cbn [calibrate_from].
  - exact Hd.
  - inversion Ht as [|? ? Hr Hrest]; subst. apply IH; [|exact Hrest].
    apply Forall_app. split; [exact Hd|].
    constructor; [|constructor].
    apply calibrate_one_well_weighted; assumption.
Qed.

Lemma calibrated_results_well_weighted (g : GarmentProfile) (b : BodyProfile) :
  Forall well_weighted (calibrated_results g b).
Proof.
  rewrite calibrated_results_unfold. unfold calibrate.
  apply calibrate_from_well_weighted; [constructor|].
  apply element_scoring_well_weighted.
Qed.

Lemma sum_positive (l : list Q) :
  l <> [] -> Forall (fun w => 0 < w) l -> 0 < Num.sum l.
Proof.
  intros Hne H. induction H as [|w l Hw Hl IH]; [contradiction|].
  rewrite sum_cons. destruct l as [|w' l'].
  - unfold Num.sum. cbn. lra.
  - assert (0 < Num.sum (w' :: l')) by (apply IH; discriminate). lra.
Qed.

(** X10.  In the result of [score_garment] every applicable principle
    result has a strictly positive weight and every inapplicable one has
    weight 0.  The total weight of the applicable results is therefore
    strictly positive: the branch [tw == 0] of layer 7 is never taken. *)
Theorem calibrated_weights_positive (g : GarmentProfile) (b : BodyProfile)
    (ctx : option Context) :
  (forall r, In r (sr_principle_scores (score_garment g b ctx)) ->
        (pr_applicable r = true -> 0 < pr_weight r)
        /\ (pr_applicable r = false -> pr_weight r == 0))
  /\ 0 < Num.sum (map pr_weight
                    (filter pr_applicable
                       (sr_principle_scores (score_garment g b ctx)))).
Proof.
  rewrite principle_scores_calibrated.
  pose proof (calibrated_results_well_weighted g b) as W.
  pose proof (some_principle_applicable g b) as Hne.
  revert W Hne. generalize (calibrated_results g b). intros l W Hne.
  rewrite Forall_forall in W. split.
  - intros r Hin. specialize (W r Hin). unfold well_weighted in W.
    destruct (pr_applicable r); split; intro E;
      first [exact W | discriminate].
  - apply sum_positive.
    + intro E. apply map_eq_nil in E. exact (Hne E).
    + apply Forall_forall. intros w Hw. apply in_map_iff in Hw.
      destruct Hw as [r [<- Hr]]. apply filter_In in Hr. destruct Hr as [Hin Ha].
      specialize (W r Hin). unfold well_weighted in W. rewrite Ha in W. exact W.
Qed.

(** ** fabric_gate.py: the gates *)

(** X11.  The penalty reduction that layer 1 derives from the gates is 0.30
    exactly when the garment is structured or lined, and 1.0 otherwise: no
    other gate changes it. *)
Theorem structured_penalty_reduction (g : GarmentProfile) (b : BodyProfile) :
  get_structured_penalty_reduction
    (run_fabric_gates g b (resolve_fabric_properties g))
  = if is_structured g || has_lining g then 0.30 else 1.0.
Proof.
  unfold get_structured_penalty_reduction, run_fabric_gates.
  change (rf_is_structured (resolve_fabric_properties g))
    with (is_structured g || has_lining g)%bool.
  rewrite !existsb_app.
  repeat match goal with
         | |- context [existsb ?f (if ?c then _ else _)] =>
             destruct c; cbn [existsb mk_exception ex_exception_id]
         end;
  reflexivity.
Qed.

Lemma gate_ids_nodup : NoDup gate_ids.
Proof.
  unfold gate_ids.
  repeat (constructor; [cbn [In]; intuition discriminate|]). constructor.
Qed.

Lemma not_in_strings (x : string) (l : list string) :
  Text.mem x l = false -> ~ In x l.
Proof.
  unfold Text.mem. intros H Hin.
  assert (E : existsb (String.eqb x) l = true).
  { apply existsb_exists. exists x. split; [exact Hin | apply String.eqb_refl]. }
  congruence.
Qed.

Lemma incl_strings (l l' : list string) :
  forallb (fun x => Text.mem x l') l = true -> incl l l'.
Proof.
  intros H x Hx. rewrite forallb_forall in H. apply mem_In. apply H. exact Hx.
Qed.

(** X12.  [run_fabric_gates] reports each gate at most once and in the order
    of the rules: the identifiers of the exceptions it returns are pairwise
    different and are among the six gate identifiers, and every exception
    carries a confidence between 0.72 and 0.85. *)
Theorem fabric_gates_once_each (g : GarmentProfile) (b : BodyProfile)
    (resolved : ResolvedFabric) :
  let exceptions := run_fabric_gates g b resolved in
  NoDup (map ex_exception_id exceptions)
  /\ incl (map ex_exception_id exceptions) gate_ids
  /\ (List.length exceptions <= 6)%nat
  /\ Forall (fun ex => 0.72 <= ex_confidence ex <= 0.85) exceptions.
Proof.
  cbv zeta. unfold run_fabric_gates.
  repeat match goal with
         | |- context [if ?c then [mk_exception ?i ?o ?r ?k] else []] =>
             tryif is_var c then fail else (generalize r; intro; generalize c; intro)
         end.
  repeat match goal with c : bool |- _ => destruct c end;
    cbn [app map mk_exception ex_exception_id ex_confidence List.length];
    (split;
     [ repeat (constructor; [apply not_in_strings; reflexivity|]); constructor
     | split;
       [ apply incl_strings; reflexivity
       | split;
         [ lia
         | repeat (constructor; [cbn [ex_confidence]; split; discriminate|]);
           constructor ] ] ]).
Qed.

(** ** fabric_gate.py: the cling model *)

Lemma div_nonpos (a r : Q) : a <= 0 -> 0 < r -> a / r <= 0.
Proof.
  intros Ha Hr. apply Qle_shift_div_r; [exact Hr|]. lra.
Qed.

Lemma div_pos (a r : Q) : 0 < a -> 0 < r -> 0 < a / r.
Proof.
  intros Ha Hr. apply Qlt_shift_div_l; [exact Hr|]. lra.
Qed.

(** X13.  [compute_cling_risk] always reports a stretch demand of at least
    0, a threshold of at least 10 and a severity between 0 and 1; the
    severity is positive exactly when the threshold is exceeded; and a zone
    no larger than the garment at rest never exceeds the threshold, whatever
    the stretch (also when the stretch range is 0 or negative). *)
Theorem cling_risk_severity (resolved : ResolvedFabric)
    (zone_circ garment_rest_circ curvature_rate : Q) :
  let r := compute_cling_risk resolved zone_circ garment_rest_circ curvature_rate in
  0 <= cr_stretch_demand_pct r
  /\ 10 <= cr_base_threshold r
  /\ 0 <= cr_severity r <= 1
  /\ (cr_exceeds_threshold r = true <-> 0 < cr_severity r)
  /\ (zone_circ <= garment_rest_circ ->
      cr_exceeds_threshold r = false /\ cr_stretch_demand_pct r == 0).
Proof.
  cbv zeta. unfold compute_cling_risk.
  cbn [cr_stretch_demand_pct cr_base_threshold cr_exceeds_threshold cr_severity].
  set (range0 := garment_rest_circ * (rf_total_stretch_pct resolved / 100.0)).
  set (range := if range0 <=? 0 then 0.01 else range0).
  assert (Hrange : 0 < range).
  { unfold range. destruct (range0 <=? 0) eqn:E; [reflexivity|].
    apply leb_gt in E. exact E. }
  set (raw := (zone_circ - garment_rest_circ) / range * 100.0).
  set (demand := Num.max 0 raw).
  set (threshold := Num.max 10 (62 - 26 * curvature_rate)).
  assert (Hd : 0 <= demand) by apply max0_nonneg.
  assert (Ht : 10 <= threshold).
  { unfold threshold. destruct (max_cases 10 (62 - 26 * curvature_rate))
      as [[H ->] | [H ->]]; lra. }
  assert (Htpos : (threshold >? 0) = true) by (apply ltb_lt; lra).
  rewrite Htpos, andb_true_r.
  split; [exact Hd|]. split; [exact Ht|].
  destruct (demand >? threshold) eqn:Ex.
  - apply ltb_lt in Ex.
    assert (Hpos : 0 < (demand - threshold) / threshold)
      by (apply div_pos; lra).
    split; [|split].
    + destruct (min_cases 1.0 ((demand - threshold) / threshold))
        as [[H ->] | [H ->]]; lra.
    + split; [intros _ | reflexivity].
      destruct (min_cases 1.0 ((demand - threshold) / threshold))
        as [[H ->] | [H ->]]; lra.
    + intro Hz. exfalso.
      assert (Hraw : raw <= 0).
      { unfold raw.
        assert ((zone_circ - garment_rest_circ) / range <= 0)
          by (apply div_nonpos; lra).
        lra. }
      assert (demand == 0).
      { unfold demand. destruct (max_cases 0 raw) as [[H ->] | [H ->]]; lra. }
      lra.
  - apply ltb_ge in Ex. split; [lra|]. split.
    + split; [discriminate | intro H; lra].
    + intro Hz. split; [reflexivity|].
      assert (Hraw : raw <= 0).
      { unfold raw.
        assert ((zone_circ - garment_rest_circ) / range <= 0)
          by (apply div_nonpos; lra).
        lra. }
      unfold demand. destruct (max_cases 0 raw) as [[H ->] | [H ->]]; lra.
Qed.

(** ** fabric_gate.py: the photo-to-reality discount *)

(** X14.  [photo_to_reality_discount] is between 0 and 0.55 for every
    garment and body, and it is 0 for a body whose bust, waist, hip, upper
    arm and thigh are those of the reference model (34, 25, 35, 10, 20),
    whatever the brand tier. *)
Theorem photo_discount_range (g : GarmentProfile) (b : BodyProfile) :
  0 <= photo_to_reality_discount g b <= 0.55
  /\ (bust b == 34 /\ waist b == 25 /\ hip b == 35
      /\ c_upper_arm_max b == 10 /\ c_thigh_max b == 20 ->
      photo_to_reality_discount g b == 0).
Proof.
  unfold photo_to_reality_discount.
  cbv [fold_left ref_model _REF_MODEL _ZONE_GAP_COEFFICIENTS dict_get
       String.eqb Ascii.eqb Bool.eqb].
  match goal with
  | |- context [Num.min 0.55 (?t * ?m)] => set (total_gap := t); set (mult := m)
  end.
  assert (Hm : 0 < mult).
  { unfold mult. destruct (brand_tier g); reflexivity. }
  assert (Ht : 0 <= total_gap).
  { unfold total_gap.
    pose proof (abs_nonneg (bust b - 34.0)).
    pose proof (abs_nonneg (waist b - 25.0)).
    pose proof (abs_nonneg (hip b - 35.0)).
    pose proof (abs_nonneg (c_upper_arm_max b - 10.0)).
    pose proof (abs_nonneg (c_thigh_max b - 20.0)). lra. }
  split.
  - destruct (min_cases 0.55 (total_gap * mult)) as [[H ->] | [H ->]]; nra.
  - intros [H1 [H2 [H3 [H4 H5]]]].
    assert (H0 : total_gap == 0).
    { unfold total_gap, Num.abs. order_cases; lra. }
    destruct (min_cases 0.55 (total_gap * mult)) as [[H ->] | [H ->]]; nra.
Qed.

(** ** rules_data.py: the bust dividing threshold *)

(** X15.  [get_bust_dividing_threshold] lies between 3.5 and 7.0 for every
    bust differential and never grows when the differential grows: a larger
    cup never gets a deeper threshold. *)
Theorem bust_threshold_antitone (x y : Q) :
  3.5 <= get_bust_dividing_threshold x <= 7.0
  /\ (x <= y -> get_bust_dividing_threshold y <= get_bust_dividing_threshold x).
Proof.
  unfold get_bust_dividing_threshold, BUST_DIVIDING_THRESHOLDS.
  cbn [bust_threshold_in].
  split; [|intro H]; order_cases; lra.
Qed.

(** ** body_garment_translator.py: proportion shift *)

(** X16.  For a heel height that is not negative, [compute_proportion_shift]
    gives a heel extension between 50% and 70% of the heel height and a shoe
    modifier between -1 and 2 inches.  The extension does not grow with the
    heel: where the efficiency tier changes, a higher heel gives less (a
    3 inch heel less than a 2.9 inch one). *)
Theorem heel_extension_bounds (body : BodyProfile) (heel : Q)
    (is_nude_shoe is_contrast_shoe : bool) :
  0 <= heel ->
  let r := compute_proportion_shift body heel is_nude_shoe is_contrast_shoe in
  0.5 * heel <= pp_heel_extension r <= 0.7 * heel
  /\ -1 <= pp_shoe_modifier r <= 2
  /\ pp_heel_extension (compute_proportion_shift body 3 is_nude_shoe is_contrast_shoe)
     < pp_heel_extension
         (compute_proportion_shift body 2.9 is_nude_shoe is_contrast_shoe).
Proof.
  intro H. cbv zeta. unfold compute_proportion_shift.
  cbn [pp_heel_extension pp_shoe_modifier].
  split; [|split].
  - unfold HEEL_EFFICIENCY. cbn [heel_efficiency_in].
    order_cases; cbn [andb]; nra.
  - destruct is_nude_shoe, is_contrast_shoe; unfold Num.min; order_cases; lra.
  - reflexivity.
Qed.

Lemma heel_extension_bounds_witness :
  let r := compute_proportion_shift default_body 4 true true in
  0.5 * 4 <= pp_heel_extension r <= 0.7 * 4
  /\ -1 <= pp_shoe_modifier r <= 2
  /\ pp_heel_extension (compute_proportion_shift default_body 3 true true)
     < pp_heel_extension (compute_proportion_shift default_body 2.9 true true).
Proof. apply (heel_extension_bounds default_body 4 true true). discriminate. Defined.

(** ** body_garment_translator.py: the master translation *)

(** X17.  [translate_garment_to_body] fills the hemline fields only for the
    hem categories (dress, skirt, jumpsuit, romper, coat): there the zone is
    one of the nine hem zones, elsewhere the zone is the empty string, the
    height 0 and the danger zones empty.  Outside the sleeve categories the
    arm severity stays at its default 0.5, outside the waist categories the
    leg ratio stays at the golden ratio.  The photo-to-reality discount of
    the result is always 0: the function never computes it. *)
Theorem body_adjusted_by_category (g : GarmentProfile) (b : BodyProfile) :
  let a := translate_garment_to_body g b in
  ba_photo_reality_discount a = 0
  /\ (category_in (category g) _HEM_CATEGORIES = true ->
      In (ba_hem_zone a) hem_zones)
  /\ (category_in (category g) _HEM_CATEGORIES = false ->
      ba_hem_zone a = EmptyString /\ ba_hem_from_floor a = 0.0
      /\ ba_hemline_danger_zones a = [] /\ ba_hemline_safe_zone a = None)
  /\ (category_in (category g) _SLEEVE_CATEGORIES = false ->
      ba_arm_prominence_severity a = 0.5 /\ ba_arm_width_delta a = 0.0)
  /\ (category_in (category g) _WAIST_CATEGORIES = false ->
      ba_visual_leg_ratio a = GOLDEN_RATIO /\ ba_proportion_improvement a = 0.0).
Proof.
  cbv zeta. unfold translate_garment_to_body.
  pose proof (hem_zone_known g b) as Hz. apply mem_In in Hz. revert Hz.
  generalize (translate_hemline g b) (translate_sleeve g b)
    (translate_waistline g b). intros hem sleeve waist Hz.
  destruct (category_in (category g) _HEM_CATEGORIES);
    destruct (category_in (category g) _SLEEVE_CATEGORIES);
    destruct (category_in (category g) _WAIST_CATEGORIES);
    cbn; repeat split; intros; try discriminate; try reflexivity; exact Hz.
Qed.

(** ** context_modifiers.py: hem order *)

Lemma index_of_bound (x : string) (l : list string) (i : nat) :
  index_of x l = Some i -> (i < List.length l)%nat.
Proof.
  revert i. induction l as [|y l IH]; intros i H; cbn [index_of] in H.
  - discriminate.
  - destruct (String.eqb x y).
    + injection H as <-. cbn. lia.
    + destruct (index_of x l) as [j|]; [|discriminate].
      injection H as <-. specialize (IH j eq_refl). cbn. lia.
Qed.

Lemma hem_is_above_spec (x y : string) :
  _hem_is_above x y = true <->
  exists i j, index_of x _HEM_ORDER = Some i /\ index_of y _HEM_ORDER = Some j
              /\ (j < i)%nat.
Proof.
  unfold _hem_is_above. split.
  - destruct (index_of x _HEM_ORDER) as [i|]; [|discriminate].
    destruct (index_of y _HEM_ORDER) as [j|]; [|discriminate].
    intro H. apply Nat.ltb_lt in H. exists i, j. repeat split. exact H.
  - intros [i [j [-> [-> H]]]]. apply Nat.ltb_lt. exact H.
Qed.

(** X18.  [_hem_is_above] is a strict order on the eight hem labels of
    [_HEM_ORDER]: no label is above itself, and above is transitive.  A label
    outside the list ("mid_thigh", say) is never above and never below
    another; nothing is above "mini". *)
Theorem hem_is_above_strict_order (x y z : string) :
  _hem_is_above x x = false
  /\ (_hem_is_above x y = true -> _hem_is_above y z = true ->
      _hem_is_above x z = true)
  /\ (_hem_is_above x y = true -> _hem_is_above y x = false)
  /\ (index_of x _HEM_ORDER = None ->
      _hem_is_above x y = false /\ _hem_is_above y x = false)
  /\ _hem_is_above x "mini" = false.
Proof.
  split; [|split; [|split; [|split]]].
  - unfold _hem_is_above. destruct (index_of x _HEM_ORDER); [|reflexivity].
    apply Nat.ltb_irrefl.
  - intros H1 H2. apply hem_is_above_spec in H1, H2. apply hem_is_above_spec.
    destruct H1 as [i [j [Hi [Hj Hij]]]]. destruct H2 as [j' [k [Hj' [Hk Hjk]]]].
    rewrite Hj in Hj'. injection Hj' as <-.
    exists i, k. repeat split; [assumption | assumption | lia].
  - intro H. apply hem_is_above_spec in H.
    destruct H as [i [j [Hi [Hj Hij]]]].
    unfold _hem_is_above. rewrite Hj, Hi. apply Nat.ltb_ge. lia.
  - intro H. unfold _hem_is_above. rewrite H. split; [reflexivity|].
    destruct (index_of y _HEM_ORDER); reflexivity.
  - unfold _hem_is_above.
    destruct (index_of x _HEM_ORDER) as [i|] eqn:E; [|reflexivity].
    apply index_of_bound in E. cbn in E.
    change (index_of "mini" _HEM_ORDER) with (Some 7%nat).
    apply Nat.ltb_ge. lia.
Qed.

(** ** context_modifiers.py: the adjustments *)

Lemma cultural_score_bounds (culture color event : string)
    (rules : list (string * list (string * Q))) :
  dict_find _COLOR_SYMBOLISM culture = Some rules ->
  let color_rules := dict_get rules color [] in
  -0.90 <= dict_get color_rules event (dict_get color_rules "general" 0.0) <= 0.95.
Proof.
  unfold _COLOR_SYMBOLISM. cbn [dict_find].
  repeat match goal with
         | |- context [String.eqb culture ?k] => destruct (String.eqb culture k)
         end;
  intro H; try discriminate; injection H as <-; cbv zeta; cbn [dict_get];
  repeat match goal with
         | |- context [String.eqb color ?k] => destruct (String.eqb color k)
         end;
  cbn [dict_get];
  repeat match goal with
         | |- context [String.eqb event ?k] => destruct (String.eqb event k)
         end;
  split; discriminate.
Qed.

(** X19.  [apply_context_modifiers] returns at most six adjustments, under
    pairwise different keys, each a non-zero delta between -0.90 and +0.95.
    A hem position outside [_HEM_ORDER] ("mid_thigh", say) is never reported
    as an occasion hem violation, and an empty context gives no adjustment. *)
Theorem context_adjustments_bounded (context : list (string * string))
    (principles : list PrincipleResult) (body : BodyProfile)
    (garment : GarmentProfile) :
  let adjustments := apply_context_modifiers context principles body garment in
  NoDup (map fst adjustments)
  /\ (List.length adjustments <= 6)%nat
  /\ Forall (fun kv => -0.90 <= snd kv <= 0.95 /\ ~ snd kv == 0) adjustments
  /\ (index_of (hem_position garment) _HEM_ORDER = None ->
      ~ In "occasion_hem_violation" (map fst adjustments))
  /\ apply_context_modifiers [] principles body garment = [].
Proof.
  cbv zeta. split; [|split; [|split; [|split; [|reflexivity]]]];
  unfold apply_context_modifiers; cbv zeta;
  set (cultural :=
         match dict_find _COLOR_SYMBOLISM _ with Some _ => _ | None => _ end);
  set (coverage :=
         match dict_find _OCCASION_COVERAGE _ with Some _ => _ | None => _ end);
  set (climatic := if String.eqb _ "hot_humid" then _ else _);
  set (age := if String.eqb _ "50+" then _ else _);
  (assert (Hc : cultural = []
                \/ exists v, cultural = [("cultural_color", v)]
                             /\ -0.90 <= v <= 0.95 /\ ~ v == 0);
   [ unfold cultural;
     destruct (dict_find _COLOR_SYMBOLISM
                 (Text.lower (dict_get context "culture" EmptyString)))
       as [rules|] eqn:Ec; [|left; reflexivity];
     destruct (negb (String.eqb _ EmptyString)); [|left; reflexivity];
     pose proof (cultural_score_bounds _
                   (Text.lower (dict_get context "garment_color" EmptyString))
                   (dict_get context "event_type" "general") rules Ec) as Hv;
     cbv zeta in Hv;
     match goal with
     | |- context [negb (Num.eqb ?v 0.0)] =>
         destruct (Num.eqb v 0.0) eqn:Ez; cbn [negb];
         [left; reflexivity
         |right; exists v; split; [reflexivity|]; split; [exact Hv|];
          apply eqb_neq in Ez; intro E0; apply Ez; lra]
     end
   | clearbody cultural ]);
  (assert (Ho : exists c1 c2 : bool,
              coverage
              = ((if c1 then [("occasion_hem_violation", -0.20)] else [])
                 ++ (if c2 then [("occasion_neckline_violation", -0.15)] else []))%list
              /\ (index_of (hem_position garment) _HEM_ORDER = None -> c1 = false));
   [ unfold coverage;
     destruct (dict_find _OCCASION_COVERAGE _) as [reqs|];
     [ eexists; eexists; split; [reflexivity|];
       intro H; unfold _hem_is_above; rewrite H; reflexivity
     | exists false, false; split; [reflexivity | reflexivity] ]
   | clearbody coverage ]);
  (assert (Hk : exists c3 c4 c5 : bool,
              climatic
              = ((if c3 then [("climate_heavy_fabric", -0.10)] else [])
                 ++ (if c4 then [("climate_non_breathable", -0.05)] else [])
                 ++ (if c5 then [("climate_light_fabric", -0.10)] else []))%list
              /\ (c5 = true -> c3 = false /\ c4 = false));
   [ unfold climatic;
     destruct (String.eqb _ "hot_humid");
     [ eexists; eexists; exists false; split;
       [cbn [app]; rewrite app_nil_r; reflexivity | discriminate]
     | destruct (String.eqb _ "cold");
       [ exists false, false; eexists; split; [reflexivity | split; reflexivity]
       | exists false, false, false; split; [reflexivity | discriminate] ] ]
   | clearbody climatic ]);
  (assert (Ha : exists c6 c7 : bool,
              age
              = ((if c6 then [("age_bodycon_comfort", -0.05)] else [])
                 ++ (if c7 then [("age_oversized_trend", 0.05)] else []))%list
              /\ (c6 = true -> c7 = false));
   [ unfold age;
     destruct (String.eqb _ "50+");
     [ eexists; exists false; split;
       [rewrite app_nil_r; reflexivity | reflexivity]
     | destruct (String.eqb _ "18-25");
       [ exists false; eexists; split; [reflexivity | discriminate]
       | exists false, false; split; [reflexivity | discriminate] ] ]
   | clearbody age ]);
  destruct Ho as [c1 [c2 [-> Hhem]]];
  destruct Hk as [c3 [c4 [c5 [-> Hexcl]]]];
  destruct Ha as [c6 [c7 [-> Hage]]];
  destruct Hc as [-> | [v [-> [Hv Hnz]]]].
  all: try (intro Hnone; specialize (Hhem Hnone); subst c1).
  all: destruct c5; [destruct (Hexcl eq_refl) as [-> ->] | clear Hexcl].
  all: destruct c6; [rewrite (Hage eq_refl) | clear Hage].
  all: repeat match goal with c : bool |- _ => destruct c end.
  all: cbn [app map fst List.length].
  all: lazymatch goal with
       | |- NoDup _ =>
           repeat (constructor; [apply not_in_strings; reflexivity|]);
           constructor
       | |- (_ <= _)%nat => lia
       | |- Forall _ _ =>
           repeat (constructor;
                   [cbn [snd];
                    first [split; [exact Hv | exact Hnz]
                          | split; [lra | intro E0; lra]]|]);
           constructor
       | |- ~ In _ _ => apply not_in_strings; reflexivity
       end.
Qed.

(** ** goal_scorers.py *)

Lemma goal_weight_positive (goal : StylingGoal) (name : string) :
  0 < dict_get (gm_weights (GOAL_PRINCIPLE_MAP goal)) name 1.0.
Proof.
  destruct goal; cbn [GOAL_PRINCIPLE_MAP gm_weights dict_get];
    repeat match goal with
           | |- context [String.eqb name ?s] => destruct (String.eqb name s)
           end; reflexivity.
Qed.

Lemma by_name_found (principles : list PrincipleResult) (name : string)
    (p : PrincipleResult) :
  by_name principles name = Some p -> In p principles /\ pr_applicable p = true.
Proof.
  unfold by_name. intro H. apply find_some in H. destruct H as [H _].
  apply in_rev in H. apply filter_In in H. exact H.
Qed.

Section GoalTotals.

Variables (principles : list PrincipleResult) (weights : list (string * Q)).
Hypothesis weights_positive : forall name, 0 < dict_get weights name 1.0.

Lemma positive_step_balanced (acc : GoalAcc) (name : string) :
  scores_on_scale principles -> balanced acc ->
  balanced (positive_step principles weights acc name).
Proof.
  intros Hs Hb. destruct acc as [[ws tw] sup]. unfold positive_step.
  destruct (by_name principles name) as [p|] eqn:E; [|exact Hb].
  apply by_name_found in E. destruct E as [Hin Ha].
  specialize (Hs p Hin Ha). pose proof (weights_positive name) as Hw.
  unfold balanced in *. destruct Hb as [H0 [H1 H2]]. repeat split; nra.
Qed.

Lemma negative_step_balanced (acc : GoalAcc) (name : string) :
  scores_on_scale principles -> balanced acc ->
  balanced (negative_step principles weights acc name).
Proof.
  intros Hs Hb. destruct acc as [[ws tw] sup]. unfold negative_step.
  destruct (by_name principles name) as [p|] eqn:E; [|exact Hb].
  apply by_name_found in E. destruct E as [Hin Ha].
  specialize (Hs p Hin Ha). pose proof (weights_positive name) as Hw.
  unfold balanced in *. destruct Hb as [H0 [H1 H2]]. repeat split; nra.
Qed.

Lemma fold_balanced (step : GoalAcc -> string -> GoalAcc) :
  (forall acc name, balanced acc -> balanced (step acc name)) ->
  forall names acc, balanced acc -> balanced (fold_left step names acc).
Proof.
  intro Hstep. induction names as [|n names IH]; intros acc Hb; cbn [fold_left].
  - exact Hb.
  - apply IH. apply Hstep. exact Hb.
Qed.

(** The total weight never shrinks, and grows at a name that is found. *)
Lemma positive_step_weight (acc : GoalAcc) (name : string) :
  weight_of acc <= weight_of (positive_step principles weights acc name)
  /\ (by_name principles name <> None ->
      weight_of acc < weight_of (positive_step principles weights acc name)).
Proof.
  destruct acc as [[ws tw] sup]. unfold positive_step, weight_of.
  pose proof (weights_positive name) as Hw.
  destruct (by_name principles name); cbn [fst snd]; split;
    try lra; intro H; first [lra | contradiction].
Qed.

Lemma negative_step_weight (acc : GoalAcc) (name : string) :
  weight_of acc <= weight_of (negative_step principles weights acc name)
  /\ (by_name principles name <> None ->
      weight_of acc < weight_of (negative_step principles weights acc name)).
Proof.
  destruct acc as [[ws tw] sup]. unfold negative_step, weight_of.
  pose proof (weights_positive name) as Hw.
  destruct (by_name principles name); cbn [fst snd]; split;
    try lra; intro H; first [lra | contradiction].
Qed.

Lemma fold_weight (step : GoalAcc -> string -> GoalAcc) :
  (forall acc name,
      weight_of acc <= weight_of (step acc name)
      /\ (by_name principles name <> None ->
          weight_of acc < weight_of (step acc name))) ->
  forall names acc,
    weight_of acc <= weight_of (fold_left step names acc)
    /\ ((exists name, In name names /\ by_name principles name <> None) ->
        weight_of acc < weight_of (fold_left step names acc)).
Proof.
  intro Hstep. induction names as [|n names IH]; intros acc; cbn [fold_left].
  - split; [lra|]. intros [name [[] _]].
  - destruct (Hstep acc n) as [H1 H2]. destruct (IH (step acc n)) as [H3 H4].
    split; [lra|]. intros [name [[<-|Hin] Hf]].
    + specialize (H2 Hf). lra.
    + assert (weight_of (step acc n)
              < weight_of (fold_left step names (step acc n)))
        by (apply H4; exists name; split; assumption).
      lra.
Qed.

Lemma fold_nothing_found (step : GoalAcc -> string -> GoalAcc) :
  (forall acc name, by_name principles name = None -> step acc name = acc) ->
  forall names acc,
    (forall name, In name names -> by_name principles name = None) ->
    fold_left step names acc = acc.
Proof.
  intro Hstep. induction names as [|n names IH]; intros acc H; cbn [fold_left].
  - reflexivity.
  - rewrite Hstep by (apply H; left; reflexivity).
    apply IH. intros name Hin. apply H. right. exact Hin.
Qed.

End GoalTotals.

Lemma goal_totals_balanced (goal : StylingGoal) (principles : list PrincipleResult) :
  scores_on_scale principles -> balanced (goal_totals goal principles).
Proof.
  intro Hs. unfold goal_totals.
  apply fold_balanced.
  - intros acc name. apply negative_step_balanced; [|exact Hs].
    apply goal_weight_positive.
  - apply fold_balanced.
    + intros acc name. apply positive_step_balanced; [|exact Hs].
      apply goal_weight_positive.
    + unfold balanced. repeat split; discriminate.
Qed.

Lemma single_goal_on_scale (goal : StylingGoal) (principles : list PrincipleResult) :
  scores_on_scale principles ->
  -1 <= gv_score (_score_single_goal goal principles) <= 1.
Proof.
  intro Hs. pose proof (goal_totals_balanced goal principles Hs) as Hb.
  unfold _score_single_goal.
  destruct (goal_totals goal principles) as [[ws tw] sup].
  unfold balanced in Hb. destruct Hb as [H0 [H1 H2]].
  destruct (tw =? 0) eqn:E; cbn [gv_score].
  - split; discriminate.
  - apply eqb_neq in E.
    assert (Hpos : 0 < tw).
    { destruct (Qlt_le_dec 0 tw) as [H|H]; [exact H|].
      exfalso. apply E. lra. }
    apply (round_nd_bounds 3 _ (-1) 1). change (-1 <= ws / tw <= 1). split.
    + apply Qle_shift_div_l; [exact Hpos|]. lra.
    + apply Qle_shift_div_r; [exact Hpos|]. lra.
Qed.

Lemma single_goal_goal (goal : StylingGoal) (principles : list PrincipleResult) :
  gv_goal (_score_single_goal goal principles) = goal.
Proof.
  unfold _score_single_goal.
  destruct (goal_totals goal principles) as [[ws tw] sup].
  destruct (tw =? 0); reflexivity.
Qed.

(** X20.  [score_goals] returns one verdict for each styling goal of the
    body, in the order of the goals; and when the applicable principle
    scores lie between -1 and 1, so does the score of every verdict. *)
Theorem goal_scores_on_scale (principles : list PrincipleResult)
    (body : BodyProfile) :
  scores_on_scale principles ->
  map gv_goal (score_goals principles body) = styling_goals body
  /\ Forall (fun v => -1 <= gv_score v <= 1) (score_goals principles body).
Proof.
  intro Hs. unfold score_goals. split.
  - rewrite map_map. induction (styling_goals body) as [|goal goals IH];
      [reflexivity|].
    cbn [map]. rewrite single_goal_goal, IH. reflexivity.
  - apply Forall_forall. intros v Hv. apply in_map_iff in Hv.
    destruct Hv as [goal [<- _]]. apply single_goal_on_scale. exact Hs.
Qed.

Lemma goal_scores_on_scale_witness :
  map gv_goal (score_goals [sample_pant_rise; sample_leg_shape] body_taller_waist)
  = styling_goals body_taller_waist
  /\ Forall (fun v => -1 <= gv_score v <= 1)
       (score_goals [sample_pant_rise; sample_leg_shape] body_taller_waist).
Proof.
  apply (goal_scores_on_scale [sample_pant_rise; sample_leg_shape]
           body_taller_waist).
  intros p [<-|[<-|[]]] _; split; discriminate.
Defined.

(** X21.  A goal none of whose positive or negative principles has an
    applicable result (an empty result list, say) gets the verdict "caution"
    with score 0.0, no supporting principle and the reasoning "No applicable
    principles for this goal"; as soon as one of them has an applicable
    result the verdict comes from the weighted score instead. *)
Theorem goal_without_principles (goal : StylingGoal)
    (principles : list PrincipleResult) :
  ((forall name, In name (goal_names goal) -> by_name principles name = None) ->
   _score_single_goal goal principles = no_principle_verdict goal)
  /\ ((exists name, In name (goal_names goal) /\ by_name principles name <> None) ->
      gv_reasoning (_score_single_goal goal principles)
      <> gv_reasoning (no_principle_verdict goal))
  /\ _score_single_goal goal [] = no_principle_verdict goal.
Proof.
  assert (Hnone : forall ps,
             (forall name, In name (goal_names goal) -> by_name ps name = None) ->
             _score_single_goal goal ps = no_principle_verdict goal).
  { intros ps H. unfold _score_single_goal, goal_totals.
    rewrite (fold_nothing_found ps (positive_step ps _)).
    - rewrite (fold_nothing_found ps (negative_step ps _)).
      + reflexivity.
      + intros [[ws tw] sup] name E. unfold negative_step. rewrite E. reflexivity.
      + intros name Hin. apply H. unfold goal_names. apply in_or_app.
        right. exact Hin.
    - intros [[ws tw] sup] name E. unfold positive_step. rewrite E. reflexivity.
    - intros name Hin. apply H. unfold goal_names. apply in_or_app.
      left. exact Hin. }
  split; [exact (Hnone principles)|]. split.
  - intros [name [Hin Hf]].
    assert (Hw : 0 < weight_of (goal_totals goal principles)).
    { unfold goal_totals, goal_names in *. apply in_app_or in Hin.
      set (weights := gm_weights (GOAL_PRINCIPLE_MAP goal)) in *.
      pose proof (fold_weight principles
                    (positive_step principles weights)
                    (positive_step_weight principles weights
                       (goal_weight_positive goal))
                    (gm_positive (GOAL_PRINCIPLE_MAP goal)) (0.0, 0.0, []))
        as [P1 P2].
      pose proof (fold_weight principles
                    (negative_step principles weights)
                    (negative_step_weight principles weights
                       (goal_weight_positive goal))
                    (gm_negative (GOAL_PRINCIPLE_MAP goal))
                    (fold_left (positive_step principles weights)
                       (gm_positive (GOAL_PRINCIPLE_MAP goal)) (0.0, 0.0, [])))
        as [N1 N2].
      change (weight_of (0.0, 0.0, [])) with 0.0 in P1, P2.
      destruct Hin as [Hin|Hin].
      - assert (0.0 < weight_of
                        (fold_left (positive_step principles weights)
                           (gm_positive (GOAL_PRINCIPLE_MAP goal)) (0.0, 0.0, [])))
          by (apply P2; exists name; split; assumption).
        lra.
      - assert (weight_of
                  (fold_left (positive_step principles weights)
                     (gm_positive (GOAL_PRINCIPLE_MAP goal)) (0.0, 0.0, []))
                < weight_of
                    (fold_left (negative_step principles weights)
                       (gm_negative (GOAL_PRINCIPLE_MAP goal))
                       (fold_left (positive_step principles weights)
                          (gm_positive (GOAL_PRINCIPLE_MAP goal)) (0.0, 0.0, []))))
          by (apply N2; exists name; split; assumption).
        lra. }
    unfold _score_single_goal.
    destruct (goal_totals goal principles) as [[ws tw] sup].
    unfold weight_of in Hw. cbn [fst snd] in Hw.
    destruct (tw =? 0) eqn:E.
    + apply eqb_eq in E. lra.
    + cbn [gv_reasoning no_principle_verdict].
      destruct (ws / tw >? 0.15); [discriminate|].
      destruct (ws / tw <? -0.15); discriminate.
  - apply Hnone. intros name _. reflexivity.
Qed.

(** ** kridha_engine.py: fix suggestions *)

Lemma flat_map_length_le {A B : Type} (f : A -> list B) (l : list A) :
  (forall x, (List.length (f x) <= 1)%nat) ->
  (List.length (flat_map f l) <= List.length l)%nat.
Proof.
  intro H. induction l as [|x l IH]; cbn [flat_map List.length]; [lia|].
  rewrite length_app. specialize (H x). lia.
Qed.

Lemma fix_suggestion_improvement (name what : string) (improvement : Q) :
  dict_find fix_suggestions name = Some (what, improvement) ->
  0.08 <= improvement <= 0.25.
Proof.
  unfold fix_suggestions. cbn [dict_find].
  repeat match goal with
         | |- context [String.eqb name ?k] => destruct (String.eqb name k)
         end;
  intro H; first [discriminate | injection H as _ <-; split; discriminate].
Qed.

(** X22.  [_suggest_fixes] proposes at most three fixes; each has priority 1
    or 2 and an expected improvement between 0.08 and 0.25 taken from the
    table of suggestions; and when no applicable principle scores below
    -0.15 it proposes nothing. *)
Theorem fixes_at_most_three (principles : list PrincipleResult) :
  (List.length (_suggest_fixes principles) <= 3)%nat
  /\ Forall
       (fun f =>
          (fix_priority f = 1%Z \/ fix_priority f = 2%Z)
          /\ 0.08 <= fix_expected_improvement f <= 0.25
          /\ exists name,
               dict_find fix_suggestions name
               = Some (fix_what_to_change f, fix_expected_improvement f))
       (_suggest_fixes principles)
  /\ ((forall p, In p principles -> pr_applicable p = true -> -0.15 <= pr_score p) ->
      _suggest_fixes principles = []).
Proof.
  unfold _suggest_fixes.
  set (bad := filter (fun p => pr_applicable p && (pr_score p <? -0.15)) principles).
  set (worst := fold_left (fun sorted p => insert_by_score p sorted) bad []).
  split; [|split].
  - eapply Nat.le_trans.
    + apply flat_map_length_le. intro p.
      destruct (dict_find fix_suggestions (pr_name p)) as [[what imp]|]; cbn; lia.
    + rewrite length_firstn. lia.
  - apply Forall_forall. intros f Hf. apply in_flat_map in Hf.
    destruct Hf as [p [_ Hp]].
    destruct (dict_find fix_suggestions (pr_name p)) as [[what imp]|] eqn:E;
      [|destruct Hp].
    destruct Hp as [<-|[]].
    cbn [fix_priority fix_expected_improvement fix_what_to_change].
    split; [destruct (pr_score p <? -0.30); [left | right]; reflexivity|].
    split; [exact (fix_suggestion_improvement _ _ _ E)|].
    exists (pr_name p). exact E.
  - intro H.
    assert (Eb : bad = []).
    { unfold bad. clear worst bad.
      induction principles as [|p l IH]; [reflexivity|].
      cbn [filter].
      destruct (pr_applicable p) eqn:Ea; cbn [andb].
      - destruct (pr_score p <? -0.15) eqn:Es.
        + apply ltb_lt in Es.
          specialize (H p (or_introl eq_refl) Ea). lra.
        + apply IH. intros q Hq. apply H. right. exact Hq.
      - apply IH. intros q Hq. apply H. right. exact Hq. }
    unfold worst. rewrite Eb. reflexivity.
Qed.

(** ** schemas.py: body tags *)

Lemma in_tag_if (t : string) (c : bool) (s : string) :
  In t (tag_if c s) <-> c = true /\ t = s.
Proof.
  unfold tag_if. destruct c; cbn [In]; split.
  - intros [<-|[]]. split; reflexivity.
  - intros [_ ->]. left. reflexivity.
  - intros [].
  - intros [H _]. discriminate.
Qed.

(** The condition under which [body_tags] lists a given tag. *)
Ltac tag_condition :=
  unfold body_tags; rewrite !in_app_iff, !in_tag_if;
  let H := fresh "H" in
  let E := fresh "E" in
  split;
  [ intro H;
    repeat (destruct H as [H|H];
            [destruct H as [H E]; first [discriminate E | exact H]|]);
    destruct H as [H E]; first [discriminate E | exact H]
  | intro H; tauto ].

Lemma tag_petite (b : BodyProfile) :
  In "petite" (body_tags b) <-> (height b <? 63) = true.
Proof. tag_condition. Qed.

Lemma tag_tall (b : BodyProfile) :
  In "tall" (body_tags b) <-> (height b >? 68) = true.
Proof. tag_condition. Qed.

Lemma tag_pear (b : BodyProfile) :
  In "pear" (body_tags b) <-> (hip b - bust b >=? 3) && (whr b <? 0.78) = true.
Proof. tag_condition. Qed.

Lemma tag_apple (b : BodyProfile) :
  In "apple" (body_tags b) <-> (whr b >? 0.85) = true.
Proof. tag_condition. Qed.

Lemma tag_hourglass (b : BodyProfile) :
  In "hourglass" (body_tags b)
  <-> (Num.abs (bust b - hip b) <=? 2) && (bust_differential b >=? 6)
      && (whr b <=? 0.75) = true.
Proof. tag_condition. Qed.

Lemma tag_inverted_triangle (b : BodyProfile) :
  In "inverted_triangle" (body_tags b) <-> (shoulder_hip_diff b >? 3) = true.
Proof. tag_condition. Qed.

Lemma tag_plus_size (b : BodyProfile) :
  In "plus_size" (body_tags b) <-> is_plus_size b = true.
Proof. unfold is_plus_size. tag_condition. Qed.

(** X23.  [body_tags] never lists "petite" together with "tall", nor "apple"
    together with "pear" or with "hourglass"; it lists "plus_size" exactly
    for the bodies [is_plus_size] accepts; and a body that [body_shape]
    classifies as an inverted triangle or as an apple carries the tag of
    that name. *)
Theorem body_tags_consistent (b : BodyProfile) :
  ~ (In "petite" (body_tags b) /\ In "tall" (body_tags b))
  /\ ~ (In "apple" (body_tags b) /\ In "pear" (body_tags b))
  /\ ~ (In "apple" (body_tags b) /\ In "hourglass" (body_tags b))
  /\ (In "plus_size" (body_tags b) <-> is_plus_size b = true)
  /\ (body_shape b = INVERTED_TRIANGLE -> In "inverted_triangle" (body_tags b))
  /\ (body_shape b = APPLE -> In "apple" (body_tags b)).
Proof.
  rewrite tag_petite, tag_tall, tag_apple, tag_pear, tag_hourglass,
    tag_inverted_triangle.
  split; [|split; [|split; [|split; [|split]]]].
  - intros [H1 H2]. apply ltb_lt in H1, H2. lra.
  - intros [H1 H2]. apply andb_true_iff in H2. destruct H2 as [_ H2].
    apply ltb_lt in H1, H2. lra.
  - intros [H1 H2]. apply andb_true_iff in H2. destruct H2 as [_ H2].
    apply ltb_lt in H1. apply leb_le in H2. lra.
  - apply tag_plus_size.
  - unfold body_shape.
    repeat match goal with
           | |- context [if ?c then _ else _] => destruct c eqn:?
           end; intro H; first [discriminate H | reflexivity].
  - unfold body_shape.
    repeat match goal with
           | |- context [if ?c then _ else _] => destruct c eqn:?
           end; intro H; try discriminate H.
    repeat match goal with
           | E : _ && _ = true |- _ =>
               apply andb_true_iff in E; destruct E
           end.
    assumption.
Qed.

(** ** kridha_engine.py: zone scores *)

Lemma zone_add_ok (zones : Zones) (z : string) (s : Q) (flag : list string) :
  Forall zone_ok zones -> -1 <= s <= 1 -> Forall zone_ok (zone_add zones z s flag).
Proof.
  intros H Hs. induction H as [|[z' [scores flags]] zones Hz Hrest IH];
    cbn [zone_add].
  - constructor; [|constructor]. unfold zone_ok. cbn. split; [discriminate|].
    constructor; [exact Hs | constructor].
  - destruct (String.eqb z z').
    + constructor; [|exact Hrest]. unfold zone_ok in *. cbn [fst snd] in *.
      destruct Hz as [_ Hf]. split.
      * destruct scores; discriminate.
      * apply Forall_app. split; [exact Hf|]. constructor; [exact Hs | constructor].
    + constructor; [exact Hz | exact IH].
Qed.

Lemma zone_add_keys (zones : Zones) (z : string) (s : Q) (flag : list string) :
  map fst (zone_add zones z s flag)
  = if Text.mem z (map fst zones) then map fst zones
    else (map fst zones ++ [z])%list.
Proof.
  induction zones as [|[z' [scores flags]] zones IH]; cbn [zone_add]; [reflexivity|].
  unfold Text.mem in *. cbn [map fst existsb].
  destruct (String.eqb z z'); cbn [orb map fst]; [reflexivity|].
  rewrite IH. destruct (existsb (String.eqb z) (map fst zones)); reflexivity.
Qed.

Lemma zone_add_nodup (zones : Zones) (z : string) (s : Q) (flag : list string) :
  NoDup (map fst zones) -> NoDup (map fst (zone_add zones z s flag)).
Proof.
  intro H. rewrite zone_add_keys.
  destruct (Text.mem z (map fst zones)) eqn:E; [exact H|].
  apply NoDup_app; [exact H | constructor; [intros []|constructor] |].
  intros x Hx [<-|[]]. exact (not_in_strings _ _ E Hx).
Qed.

Lemma zones_fold (P : Zones -> Prop) (principles : list PrincipleResult) :
  (forall zones z p, P zones -> In p principles -> pr_applicable p = true ->
                     P (zone_add zones z (pr_score p)
                          (if pr_score p <? -0.20
                           then [pr_name p ++ ": " ++ Text.num] else []))) ->
  forall l zones,
    incl l principles -> P zones ->
    P (fold_left
         (fun zones p =>
            if negb (pr_applicable p) then zones
            else
              fold_left
                (fun zones z =>
                   zone_add zones z (pr_score p)
                     (if pr_score p <? -0.20
                      then [pr_name p ++ ": " ++ Text.num] else []))
                (dict_get zone_mapping (pr_name p) [])
                zones)
         l zones).
Proof.
  intro Hadd. induction l as [|p l IH]; intros zones Hin Hz; cbn [fold_left].
  - exact Hz.
  - apply IH; [intros q Hq; apply Hin; right; exact Hq|].
    destruct (pr_applicable p) eqn:Ea; cbn [negb]; [|exact Hz].
    assert (Hp : In p principles) by (apply Hin; left; reflexivity).
    generalize (dict_get zone_mapping (pr_name p) []). intro names.
    revert zones Hz. induction names as [|z names IHn]; intros zones Hz;
      cbn [fold_left]; [exact Hz|].
    apply IHn. apply Hadd; assumption.
Qed.

Lemma insert_zone_perm (x : string * (list Q * list string)) (sorted : Zones) :
  Permutation (insert_zone x sorted) (x :: sorted).
Proof.
  induction sorted as [|y rest IH]; cbn [insert_zone]; [apply Permutation_refl|].
  destruct (String.compare (fst x) (fst y)).
  - eapply Permutation_trans; [apply perm_skip; exact IH | apply perm_swap].
  - apply Permutation_refl.
  - eapply Permutation_trans; [apply perm_skip; exact IH | apply perm_swap].
Qed.

Lemma sorted_zones_perm (zones : Zones) :
  forall acc,
    Permutation (fold_left (fun sorted x => insert_zone x sorted) zones acc)
      (zones ++ acc).
Proof.
  induction zones as [|x zones IH]; intro acc; cbn [fold_left app].
  - apply Permutation_refl.
  - eapply Permutation_trans; [apply IH|].
    eapply Permutation_trans;
      [apply Permutation_app_head; apply insert_zone_perm|].
    apply Permutation_sym. apply Permutation_middle.
Qed.

Lemma sum_bounds (scores : list Q) :
  Forall (fun s => -1 <= s <= 1) scores ->
  - inject_Z (Z.of_nat (List.length scores)) <= Num.sum scores
  <= inject_Z (Z.of_nat (List.length scores)).
Proof.
  induction 1 as [|s l Hs _ IH].
  - cbn. split; discriminate.
  - rewrite sum_cons. cbn [List.length]. rewrite Nat2Z.inj_succ.
    unfold Z.succ. rewrite inject_Z_plus.
    change (inject_Z 1) with 1. lra.
Qed.

Lemma average_on_scale (scores : list Q) :
  scores <> [] -> Forall (fun s => -1 <= s <= 1) scores ->
  -1 <= Num.sum scores / inject_Z (Z.of_nat (List.length scores)) <= 1.
Proof.
  intros Hne Hf. pose proof (sum_bounds scores Hf) as Hb.
  assert (Hlen : 0 < inject_Z (Z.of_nat (List.length scores))).
  { destruct scores; [contradiction|]. cbn [List.length].
    rewrite <- (Zlt_Qlt 0). lia. }
  split.
  - apply Qle_shift_div_l; [exact Hlen|]. lra.
  - apply Qle_shift_div_r; [exact Hlen|]. lra.
Qed.

(** X24.  [_compute_zone_scores] lists every zone once; and when the
    applicable principle scores lie between -1 and 1, so does the score of
    every zone.  Results that are not applicable contribute nothing: a list
    without an applicable result gives no zone at all. *)
Theorem zone_scores_on_scale (principles : list PrincipleResult) :
  NoDup (map zs_zone (_compute_zone_scores principles))
  /\ (scores_on_scale principles ->
      Forall (fun z => -1 <= zs_score z <= 1) (_compute_zone_scores principles))
  /\ (filter pr_applicable principles = [] -> _compute_zone_scores principles = []).
Proof.
  unfold _compute_zone_scores.
  match goal with
  | |- NoDup (map _ (map ?f (fold_left ?ins ?zs []))) /\ _ =>
      set (zones := zs); set (entry_score := f)
  end.
  pose proof (sorted_zones_perm zones []) as Hperm. rewrite app_nil_r in Hperm.
  split; [|split].
  - rewrite map_map.
    assert (E : forall l : Zones,
               map (fun x => zs_zone (entry_score x)) l = map fst l).
    { induction l as [|[z [scores flags]] l IH]; [reflexivity|].
      cbn [map]. rewrite IH. reflexivity. }
    rewrite E.
    apply (Permutation_NoDup (l := map fst zones)).
    + apply Permutation_map. apply Permutation_sym. exact Hperm.
    + unfold zones.
      apply (zones_fold (fun zones => NoDup (map fst zones)) principles).
      * intros zs z p Hz _ _. apply zone_add_nodup. exact Hz.
      * apply incl_refl.
      * constructor.
  - intro Hs.
    assert (Hok : Forall zone_ok zones).
    { unfold zones.
      apply (zones_fold (fun zones => Forall zone_ok zones) principles).
      - intros zs z p Hz Hin Ha. apply zone_add_ok; [exact Hz|].
        apply Hs; assumption.
      - apply incl_refl.
      - constructor. }
    apply Forall_forall. intros zscore Hz. apply in_map_iff in Hz.
    destruct Hz as [[z [scores flags]] [<- Hin]].
    apply (Permutation_in _ Hperm) in Hin.
    rewrite Forall_forall in Hok. specialize (Hok _ Hin).
    unfold zone_ok in Hok. cbn [fst snd] in Hok. destruct Hok as [Hne Hf].
    unfold entry_score. cbn [zs_score].
    apply (round_nd_bounds 3 _ (-1) 1).
    destruct scores as [|s scores]; [contradiction|].
    apply average_on_scale; assumption.
  - intro Hnone.
    assert (Ez : zones = []).
    { unfold zones.
      assert (Hall : forall p, In p principles -> pr_applicable p = false).
      { intros p Hp. destruct (pr_applicable p) eqn:Ea; [|reflexivity].
        assert (Hin : In p (filter pr_applicable principles))
          by (apply filter_In; split; assumption).
        rewrite Hnone in Hin. destruct Hin. }
      clear - Hall. induction principles as [|p l IH]; [reflexivity|].
      cbn [fold_left]. rewrite (Hall p) by (left; reflexivity). cbn [negb].
      apply IH. intros q Hq. apply Hall. right. exact Hq. }
    rewrite Ez. reflexivity.
Qed.

(** ** garment_types.py: layer interaction *)

(** X25.  [compute_layer_modifications] lists at most four modifications,
    of pairwise different types, and at most two styling notes; a garment
    that is neither a jacket, a coat nor a cardigan (a vest, say, although
    it is a layer garment) gets no styling note. *)
Theorem layer_modifications_bounds (g : GarmentProfile) (b : BodyProfile) :
  let info := compute_layer_modifications g b in
  (List.length (li_layer_modifications info) <= 4)%nat
  /\ NoDup (map lm_type (li_layer_modifications info))
  /\ (List.length (li_styling_notes info) <= 2)%nat
  /\ (category_in (category g) [JACKET; COAT; CARDIGAN] = false ->
      li_styling_notes info = [])
  /\ is_layer_garment VEST = true.
Proof.
  cbv zeta. unfold compute_layer_modifications.
  cbn [li_layer_modifications li_styling_notes].
  split; [|split; [|split; [|split; [|reflexivity]]]].
  - repeat match goal with
           | |- context [if ?c then [?x] else []] =>
               tryif is_var c then fail else (generalize x; intro; generalize c; intro)
           end.
    repeat match goal with c : bool |- _ => destruct c end; cbn; lia.
  - repeat match goal with
           | |- context [if ?c then [?x] else []] =>
               tryif is_var c then fail else (generalize c; intro)
           end.
    repeat match goal with c : bool |- _ => destruct c end;
      cbn [app map lm_type];
      repeat (constructor; [apply not_in_strings; reflexivity|]); constructor.
  - unfold _generate_layer_styling_notes.
    destruct (category_in (category g) [JACKET; COAT]).
    + destruct (body_shape b); cbn [app List.length];
        try match goal with
            | |- context [if ?c then _ else _] => destruct c
            end; cbn; lia.
    + destruct (GarmentCategory_beq (category g) CARDIGAN); [|cbn; lia].
      destruct (has_goal_in LOOK_TALLER (styling_goals b));
        destruct (has_goal_in HIDE_MIDSECTION (styling_goals b)); cbn; lia.
  - unfold _generate_layer_styling_notes, category_in. cbn [existsb].
    destruct (GarmentCategory_beq (category g) JACKET);
      destruct (GarmentCategory_beq (category g) COAT);
      destruct (GarmentCategory_beq (category g) CARDIGAN);
      cbn [orb]; intro H; first [discriminate H | reflexivity].
Qed.

(** ** body_garment_translator.py: the waistline *)

Lemma div_lt_div (a c h : Q) : 0 < h -> a < c -> a / h < c / h.
Proof.
  intros Hh H. unfold Qdiv. apply Qmult_lt_compat_r; [|exact H].
  apply Qinv_lt_0_compat. exact Hh.
Qed.

Lemma div_eq_div (a c h : Q) : a == c -> a / h == c / h.
Proof. intro H. rewrite H. reflexivity. Qed.

(** X26.  For a body with positive height and torso length,
    [translate_waistline] gives a visual leg ratio above the body's own leg
    ratio for an empire or a high waist and below it for a drop waist; for a
    natural waist, no waist or a label that is not listed it gives the
    body's own leg ratio, no proportion improvement and the proportion
    score 0. *)
Theorem waist_position_leg_ratio (g : GarmentProfile) (b : BodyProfile) :
  0 < height b -> 0 < torso_length b ->
  let w := translate_waistline g b in
  (waist_position g = "empire" \/ waist_position g = "high" ->
   leg_ratio b < wl_visual_leg_ratio w)
  /\ (waist_position g = "drop" -> wl_visual_leg_ratio w < leg_ratio b)
  /\ (waist_position g = "natural"
      \/ dict_get WAIST_POSITION_MULTIPLIERS (waist_position g) None = None ->
      wl_visual_leg_ratio w == leg_ratio b
      /\ wl_proportion_improvement w == 0
      /\ wl_proportion_score w == 0).
Proof.
  intros Hh Ht. cbv zeta. unfold translate_waistline. cbv zeta.
  cbn [wl_visual_leg_ratio wl_proportion_improvement wl_proportion_score].
  unfold leg_ratio.
  assert (Eh : (height b >? 0) = true) by (apply ltb_lt; exact Hh).
  rewrite Eh.
  split; [|split].
  - intros [-> | ->]; cbn [dict_get WAIST_POSITION_MULTIPLIERS String.eqb
                             Ascii.eqb Bool.eqb];
      apply div_lt_div; [exact Hh | lra | exact Hh | lra].
  - intros ->. cbn [dict_get WAIST_POSITION_MULTIPLIERS String.eqb
                      Ascii.eqb Bool.eqb].
    apply div_lt_div; [exact Hh | lra].
  - intro H.
    assert (Es : torso_length b
                 - match dict_get WAIST_POSITION_MULTIPLIERS (waist_position g) None with
                   | Some m => torso_length b * m
                   | None => torso_length b
                   end == 0).
    { destruct H as [-> | ->].
      - cbn [dict_get WAIST_POSITION_MULTIPLIERS String.eqb Ascii.eqb Bool.eqb].
        ring.
      - ring. }
    set (shift := torso_length b - _) in *.
    assert (Er : (leg_length_visual b + shift * 0.25) / height b
                 == leg_length_visual b / height b).
    { apply div_eq_div. rewrite Es. ring. }
    split; [exact Er|].
    set (vr := (leg_length_visual b + shift * 0.25) / height b) in *.
    set (lr := leg_length_visual b / height b) in *.
    assert (Ei : Num.abs (lr - GOLDEN_RATIO) - Num.abs (vr - GOLDEN_RATIO) == 0).
    { unfold Num.abs. order_cases; lra. }
    split; [exact Ei|].
    set (imp := Num.abs (lr - GOLDEN_RATIO) - Num.abs (vr - GOLDEN_RATIO)) in *.
    unfold clamp3, Num.max, Num.min. order_cases; lra.
Qed.

Lemma waist_position_leg_ratio_witness :
  let w := translate_waistline garment_scenario body_scenario in
  (waist_position garment_scenario = "empire"
   \/ waist_position garment_scenario = "high" ->
   leg_ratio body_scenario < wl_visual_leg_ratio w)
  /\ (waist_position garment_scenario = "drop" ->
      wl_visual_leg_ratio w < leg_ratio body_scenario)
  /\ (waist_position garment_scenario = "natural"
      \/ dict_get WAIST_POSITION_MULTIPLIERS (waist_position garment_scenario) None
         = None ->
      wl_visual_leg_ratio w == leg_ratio body_scenario
      /\ wl_proportion_improvement w == 0
      /\ wl_proportion_score w == 0).
Proof.
  apply (waist_position_leg_ratio garment_scenario body_scenario); reflexivity.
Defined.

(** ** kridha_engine.py: what the pipeline returns besides the scores *)

Lemma calibrated_scores_on_scale (g : GarmentProfile) (b : BodyProfile) :
  scores_on_scale (calibrated_results g b).
Proof. intros p Hin _. exact (calibrated_score_bounds g b p Hin). Qed.

Lemma category_of_set_category (c : GarmentCategory) (g : GarmentProfile) :
  category (set_category c g) = c.
Proof. reflexivity. Qed.

(** X27.  Besides the scores, [score_garment] returns one goal verdict for
    each styling goal of the body, in order, each with a score between -1
    and 1; layer modifications exactly when [classify_garment] gives a layer
    category (jacket, coat, cardigan, vest); and a body-adjusted garment
    computed for the classified category, not for the category the garment
    came with: outside the hem categories its hem zone is empty, inside
    them it is one of the nine hem zones.  The context changes none of
    this, and nothing of the scores either. *)
Theorem score_details_consistent (g : GarmentProfile) (b : BodyProfile)
    (ctx : option Context) :
  let d := score_garment_details g b ctx in
  map gv_goal (sr_goal_verdicts d) = styling_goals b
  /\ Forall (fun v => -1 <= gv_score v <= 1) (sr_goal_verdicts d)
  /\ (sr_layer_modifications d <> None
      <-> is_layer_garment (classify_garment g) = true)
  /\ (exists a,
         sr_body_adjusted d = Some a
         /\ (if category_in (classify_garment g) _HEM_CATEGORIES
             then In (ba_hem_zone a) hem_zones
             else ba_hem_zone a = EmptyString))
  /\ score_garment_details g b ctx = score_garment_details g b None
  /\ score_garment g b ctx = score_garment g b None.
Proof.
  cbv zeta.
  assert (Ed : score_garment_details g b ctx = score_garment_details g b None)
    by (unfold score_garment_details; reflexivity).
  assert (Es : score_garment g b ctx = score_garment g b None)
    by (unfold score_garment, score_garment_run; reflexivity).
  refine ((fun H => conj (proj1 H) (conj (proj1 (proj2 H))
            (conj (proj1 (proj2 (proj2 H)))
               (conj (proj2 (proj2 (proj2 H))) (conj Ed Es))))) _).
  clear Ed Es.
  unfold score_garment_details. cbv zeta.
  pose proof (some_principle_applicable g b) as Hne.
  pose proof (calibrated_scores_on_scale g b) as Hs.
  revert Hne Hs. generalize (calibrated_results g b). intros prs Hne Hs.
  destruct (filter pr_applicable prs) as [|r active]; [contradiction|].
  cbn [sr_goal_verdicts sr_layer_modifications sr_body_adjusted].
  split; [|split; [|split]].
  - unfold score_goals. rewrite map_map.
    induction (styling_goals b) as [|goal goals IH]; [reflexivity|].
    cbn [map]. rewrite single_goal_goal, IH. reflexivity.
  - apply Forall_forall. intros v Hv. unfold score_goals in Hv.
    apply in_map_iff in Hv. destruct Hv as [goal [<- _]].
    apply single_goal_on_scale. exact Hs.
  - destruct (is_layer_garment (classify_garment g)); split; intro H;
      first [reflexivity | discriminate | contradiction
            | (exfalso; apply H; reflexivity)].
  - eexists. split; [reflexivity|].
    unfold translate_garment_to_body. rewrite category_of_set_category.
    pose proof (hem_zone_known (set_category (classify_garment g) g) b) as Hz.
    apply mem_In in Hz. revert Hz.
    generalize (translate_hemline (set_category (classify_garment g) g) b)
      (translate_sleeve (set_category (classify_garment g) g) b)
      (translate_waistline (set_category (classify_garment g) g) b).
    intros hem sleeve waist Hz.
    destruct (category_in (classify_garment g) _HEM_CATEGORIES);
      destruct (category_in (classify_garment g) _SLEEVE_CATEGORIES);
      destruct (category_in (classify_garment g) _WAIST_CATEGORIES);
      cbn; first [exact Hz | reflexivity].
Qed.

(** ** garment_types.py: classification by title *)

Lemma match_ltb_length (x y : Match) :
  if match_ltb x y then (match_length x <= match_length y)%nat
  else (match_length y <= match_length x)%nat.
Proof.
  destruct x as [[lx kx] cx], y as [[ly ky] cy]. unfold match_ltb, match_length.
  cbn [fst].
  destruct (Nat.ltb lx ly) eqn:E1; [apply Nat.ltb_lt in E1; lia|].
  apply Nat.ltb_ge in E1.
  destruct (Nat.ltb ly lx) eqn:E2; [exact E1|].
  apply Nat.ltb_ge in E2.
  destruct (String.compare kx ky); [destruct (String.compare _ _)| |]; lia.
Qed.

Lemma greatest_is_longest (rest : list Match) :
  forall best,
    In (greatest best rest) (best :: rest)
    /\ forall m, In m (best :: rest) ->
                 (match_length m <= match_length (greatest best rest))%nat.
Proof.
  induction rest as [|m rest IH]; intro best; cbn [greatest].
  - split; [left; reflexivity|]. intros m [<-|[]]. lia.
  - pose proof (match_ltb_length best m) as Hl.
    destruct (match_ltb best m).
    + destruct (IH m) as [Hin Hmax]. split.
      * right. exact Hin.
      * intros m' [<-|Hm'].
        -- specialize (Hmax m (or_introl eq_refl)). lia.
        -- apply Hmax. exact Hm'.
    + destruct (IH best) as [Hin Hmax]. split.
      * destruct Hin as [<-|Hin]; [left; reflexivity | right; right; exact Hin].
      * intros m' [<-|[<-|Hm']].
        -- apply Hmax. left. reflexivity.
        -- specialize (Hmax best (or_introl eq_refl)). lia.
        -- apply Hmax. right. exact Hm'.
Qed.

(** X28.  [classify_garment] lets the longest keyword win: when keywords of
    [_TITLE_KEYWORDS] occur in the lower-cased title, the category returned
    is that of an occurring keyword that no other occurring keyword exceeds
    in length; when none occurs (no title, an empty title, or a title
    without keyword) it is the attribute fallback, which without rise, leg
    shape, skirt construction or jacket closure is the category field. *)
Theorem classify_longest_keyword (g : GarmentProfile) :
  let t := Text.lower (Text.or_else (title g) EmptyString) in
  (all_matches t <> [] ->
   exists m, In m (all_matches t)
             /\ classify_garment g = snd m
             /\ forall m', In m' (all_matches t) ->
                           (match_length m' <= match_length m)%nat)
  /\ (all_matches t = [] -> classify_garment g = attribute_fallback g)
  /\ (all_matches t = [] ->
      is_some (rise g) && is_some (leg_shape g) = false ->
      skirt_construction g = None -> jacket_closure g = None ->
      classify_garment g = category g).
Proof.
  cbv zeta. unfold classify_garment.
  set (t := Text.lower (Text.or_else (title g) EmptyString)).
  assert (Hempty : String.eqb t EmptyString = true -> all_matches t = []).
  { intro E. apply String.eqb_eq in E. rewrite E. reflexivity. }
  assert (Hfall : all_matches t = [] ->
                  (if negb (String.eqb t EmptyString)
                   then match all_matches t with
                        | m :: rest => snd (greatest m rest)
                        | [] => attribute_fallback g
                        end
                   else attribute_fallback g) = attribute_fallback g).
  { intro E. rewrite E. destruct (negb _); reflexivity. }
  split; [|split].
  - intro Hne. destruct (String.eqb t EmptyString) eqn:E.
    + exfalso. apply Hne. apply Hempty. reflexivity.
    + cbn [negb]. destruct (all_matches t) as [|m rest]; [contradiction|].
      destruct (greatest_is_longest rest m) as [Hin Hmax].
      exists (greatest m rest). split; [exact Hin|]. split; [reflexivity|].
      exact Hmax.
  - exact Hfall.
  - intros E H1 H2 H3. rewrite (Hfall E). unfold attribute_fallback.
    rewrite H1, H2, H3. reflexivity.
Qed.

Lemma classify_longest_keyword_witness :
  let t := Text.lower (Text.or_else (title garment_pants_titled_dress) EmptyString) in
  exists m, In m (all_matches t)
            /\ classify_garment garment_pants_titled_dress = snd m
            /\ forall m', In m' (all_matches t) ->
                          (match_length m' <= match_length m)%nat.
Proof.
  apply (classify_longest_keyword garment_pants_titled_dress).
  vm_compute. discriminate.
Defined.

(** ** body_garment_translator.py: the arm circumference *)

Lemma between_self (x : Q) (l : list Q) : In x l -> between_members x l.
Proof. intro H. exists x, x. repeat split; [exact H | exact H | lra | lra]. Qed.

Lemma between_weaken (x : Q) (l l' : list Q) :
  incl l l' -> between_members x l -> between_members x l'.
Proof.
  intros Hi [lo [hi [H1 [H2 H3]]]]. exists lo, hi.
  split; [apply Hi; exact H1|]. split; [apply Hi; exact H2 | exact H3].
Qed.

Lemma interpolation_between (p0 p1 c0 c1 position : Q) :
  p0 <= position <= p1 -> ~ p1 == p0 ->
  between_members (c0 + (position - p0) / (p1 - p0) * (c1 - c0)) [c0; c1].
Proof.
  intros [H0 H1] Hne.
  assert (Hd : 0 < p1 - p0).
  { destruct (Qlt_le_dec p0 p1) as [H|H]; [lra|]. exfalso. apply Hne. lra. }
  set (t := (position - p0) / (p1 - p0)).
  assert (Ht0 : 0 <= t) by (apply Qle_shift_div_l; [exact Hd | lra]).
  assert (Ht1 : t <= 1) by (apply Qle_shift_div_r; [exact Hd | lra]).
  destruct (Qlt_le_dec c0 c1) as [H|H].
  - exists c0, c1. cbn [In]. split; [tauto|]. split; [tauto|]. split; nra.
  - exists c1, c0. cbn [In]. split; [tauto|]. split; [tauto|]. split; nra.
Qed.

Lemma bracket_in_between (position fallback : Q) :
  forall landmarks,
    between_members (bracket_in landmarks position fallback)
      (fallback :: map snd landmarks).
Proof.
  induction landmarks as [|[p0 c0] rest IH]; cbn [bracket_in].
  - apply between_self. left. reflexivity.
  - destruct rest as [|[p1 c1] rest'].
    + apply between_self. left. reflexivity.
    + destruct ((p0 <=? position) && (position <=? p1)) eqn:E.
      * apply andb_true_iff in E. destruct E as [E0 E1].
        apply leb_le in E0, E1.
        destruct (p1 =? p0) eqn:Ep.
        -- apply between_self. cbn [map snd In]. tauto.
        -- apply eqb_neq in Ep. cbv zeta.
           apply (between_weaken _ [c0; c1]).
           ++ intros x [<-|[<-|[]]]; cbn [map snd In]; tauto.
           ++ apply interpolation_between; [split; assumption | exact Ep].
      * apply (between_weaken _ (fallback :: map snd ((p1, c1) :: rest'))).
        -- intros x [<-|H]; [left; reflexivity | right; right; exact H].
        -- exact IH.
Qed.

(** X29.  [_interpolate_arm_circ] never leaves the range of the six
    landmark circumferences: its result lies between two of them, for every
    body and position, also when the landmarks are out of order.  At or
    above the shoulder it is the shoulder value; from the arm length on it
    is the wrist circumference. *)
Theorem arm_circ_between_landmarks (body : BodyProfile) (position : Q) :
  between_members (_interpolate_arm_circ body position) (arm_landmark_circs body)
  /\ (position <= 0 ->
      _interpolate_arm_circ body position
      = shoulder_width body / 2 * Num.math_pi / 2)
  /\ (0 < position -> arm_length body <= position ->
      _interpolate_arm_circ body position = c_wrist body).
Proof.
  unfold _interpolate_arm_circ. cbv zeta. split; [|split].
  - destruct (position <=? 0.0).
    + apply between_self. unfold arm_landmark_circs. cbn [In]. tauto.
    + destruct (position >=? arm_length body).
      * apply between_self. unfold arm_landmark_circs. cbn [In]. tauto.
      * eapply between_weaken; [|apply bracket_in_between].
        intros x Hx. unfold arm_landmark_circs. cbn [map snd In] in *. tauto.
  - intro H. replace (position <=? 0.0) with true; [reflexivity|].
    symmetry. apply leb_le. lra.
  - intros H0 H1. replace (position <=? 0.0) with false.
    + replace (position >=? arm_length body) with true; [reflexivity|].
      symmetry. apply leb_le. exact H1.
    + symmetry. apply leb_gt. lra.
Qed.

(** ** schemas.py and fabric_gate.py agree *)

Lemma max_compat (c x y : Q) : x == y -> Num.max c x == Num.max c y.
Proof. intro H. unfold Num.max. order_cases; lra. Qed.

Lemma min_compat (c x y : Q) : x == y -> Num.min c x == Num.min c y.
Proof. intro H. unfold Num.min. order_cases; lra. Qed.

(** X30.  The convenience properties of [GarmentProfile] agree with the
    fabric resolver: [sheen_index] is the resolved sheen score and
    [drape_coefficient] the resolved drape coefficient for every garment,
    and [cling_risk] is the resolved base cling risk for a garment without
    a fabric name whose fiber has the GSM multiplier 1 (polyester, or a
    fiber that is not in the table). *)
Theorem garment_properties_agree (g : GarmentProfile) :
  rf_sheen_score (resolve_fabric_properties g) = sheen_index g
  /\ rf_drape_coefficient (resolve_fabric_properties g) = drape_coefficient g
  /\ (fabric_name g = None ->
      dict_get FIBER_GSM_MULTIPLIERS (primary_fiber g) 1.0 == 1 ->
      rf_cling_risk_base (resolve_fabric_properties g) == cling_risk g).
Proof.
  split; [|split].
  - unfold resolve_fabric_properties, sheen_index. cbn [rf_sheen_score].
    destruct (surface g); reflexivity.
  - reflexivity.
  - intros Hn Hm. unfold resolve_fabric_properties, cling_risk.
    cbn [rf_cling_risk_base]. rewrite Hn. cbn [Text.truthy].
    rewrite multiplier_agrees.
    change (match construction g with
            | WOVEN => 1.6 | KNIT => 4.0 | KNIT_RIB => 5.5
            | KNIT_DOUBLE => 3.5 | KNIT_JERSEY => 4.0
            end) with (construction_multiplier (construction g)).
    set (s := elastane_pct g * construction_multiplier (construction g)).
    set (m := dict_get FIBER_GSM_MULTIPLIERS (primary_fiber g) 1.0) in *.
    set (F := Num.max 0 (1 - surface_friction g)).
    assert (E1 : 1 - gsm_estimated g * m / 300 == 1 - gsm_estimated g / 300)
      by (rewrite Hm; field).
    pose proof (max_compat 0 _ _ E1) as E2.
    apply min_compat. rewrite E2. reflexivity.
Qed.
